(** * voice-cli: phrase dispatch, response cache and CLI entry point

    A shallow embedding of the two scripts of the repository:
    - the text-only script (VERSION 1.0.0), module [TextOnly];
    - the script with ElevenLabs voice responses (VERSION 1.0.1), module
      [Voice].

    Conventions of the embedding.
    - A JavaScript string is a [string] whose characters are read as the code
      points U+0000..U+00FF; [toLowerCase] and [trim] are the ECMAScript
      functions restricted to that range.
    - What reaches the terminal is a sequence of bytes: a line printed by
      [console.log] is the UTF-8 encoding of the JavaScript string, so the
      emoji of the source appear in the literals as their UTF-8 bytes and the
      dynamic parts go through [utf8].
    - The outside world (platform, clock, child processes, HTTPS endpoint) is
      a record of oracles that see the events performed so far; the file
      system and the chunks that standard input delivers to the reads of the
      program are explicit state. The home directory is taken to exist. *)

From Stdlib Require Import ZArith NArith Ascii String List Bool Lia QArith.
From Stdlib Require Import DecimalString.
From stdpp Require Import gmap strings.
Import ListNotations.

Local Open Scope Z_scope.

(** ** Characters and strings *)

Definition code (c : ascii) : nat := nat_of_ascii c.

(** Code points below U+0100 that [toLowerCase] moves: A-Z, and the Latin-1
    capitals U+00C0..U+00DE except the multiplication sign U+00D7. *)
Definition isUpperCode (n : nat) : bool :=
  ((65 <=? n) && (n <=? 90) || (192 <=? n) && (n <=? 214)
   || (216 <=? n) && (n <=? 222))%nat.

Definition toLowerChar (c : ascii) : ascii :=
  if isUpperCode (code c) then ascii_of_nat (code c + 32) else c.

(* String.prototype.toLowerCase *)
Fixpoint toLowerCase (s : string) : string :=
  match s with
  | EmptyString => EmptyString
  | String c s' => String (toLowerChar c) (toLowerCase s')
  end.

(** WhiteSpace and LineTerminator code points below U+0100: TAB, LF, VT, FF,
    CR, SP and NBSP. *)
Definition isWhiteSpace (c : ascii) : bool :=
  ((9 <=? code c) && (code c <=? 13) || (code c =? 32) || (code c =? 160))%nat.

Fixpoint trimStart (s : string) : string :=
  match s with
  | EmptyString => EmptyString
  | String c s' => if isWhiteSpace c then trimStart s' else s
  end.

Definition isEmpty (s : string) : bool :=
  match s with EmptyString => true | _ => false end.

Fixpoint trimEnd (s : string) : string :=
  match s with
  | EmptyString => EmptyString
  | String c s' =>
      let t := trimEnd s' in
      if isWhiteSpace c && isEmpty t then EmptyString else String c t
  end.

(* String.prototype.trim *)
Definition trim (s : string) : string := trimEnd (trimStart s).

Fixpoint allWhiteSpace (s : string) : bool :=
  match s with
  | EmptyString => true
  | String c s' => isWhiteSpace c && allWhiteSpace s'
  end.

(** Two characters that differ at most by letter case. *)
Definition caseVariantChar (a b : ascii) : Prop :=
  (code a = code b
   \/ (isUpperCode (code a) = true /\ code b = code a + 32)
   \/ (isUpperCode (code b) = true /\ code a = code b + 32))%nat.

(** Two strings that are equal up to letter case. *)
Inductive caseVariant : string -> string -> Prop :=
| cv_nil : caseVariant EmptyString EmptyString
| cv_cons a b s t :
    caseVariantChar a b -> caseVariant s t ->
    caseVariant (String a s) (String b t).

(** The double quote, the line feed and the backslash as one-character
    strings. *)
Definition dq : string := String (ascii_of_nat 34) EmptyString.
Definition nl : string := String (ascii_of_nat 10) EmptyString.
Definition bs : string := String (ascii_of_nat 92) EmptyString.

(** A template literal: the concatenation of its pieces. *)
Definition tpl (pieces : list string) : string :=
  fold_right String.append EmptyString pieces.

Definition decimal (n : N) : string :=
  NilZero.string_of_uint (N.to_uint n).

(** UTF-8 encoding of a string of code points below U+0100. *)
Definition utf8Char (c : ascii) : list ascii :=
  if (code c <? 128)%nat then [c]
  else [ascii_of_nat (192 + code c / 64); ascii_of_nat (128 + code c mod 64)].

Fixpoint utf8 (s : string) : string :=
  match s with
  | EmptyString => EmptyString
  | String c s' => string_of_list_ascii (utf8Char c) +:+ utf8 s'
  end.

(** ** MD5 (RFC 1321), as computed by [crypto.createHash('md5')] *)

Module MD5.

Definition w32 (x : Z) : Z := x mod 2 ^ 32.
Definition add32 (x y : Z) : Z := w32 (x + y).
Definition not32 (x : Z) : Z := Z.lxor x 0xffffffff.
Definition rotl32 (x n : Z) : Z :=
  w32 (Z.lor (Z.shiftl x n) (Z.shiftr x (32 - n))).

Definition F (x y z : Z) : Z := Z.lor (Z.land x y) (Z.land (not32 x) z).
Definition G (x y z : Z) : Z := Z.lor (Z.land x z) (Z.land y (not32 z)).
Definition H (x y z : Z) : Z := Z.lxor (Z.lxor x y) z.
Definition I (x y z : Z) : Z := Z.lxor y (Z.lor x (not32 z)).

(* floor (abs (sin (i + 1)) * 2^32) *)
Definition K : list Z :=
  [ 0xd76aa478; 0xe8c7b756; 0x242070db; 0xc1bdceee;
    0xf57c0faf; 0x4787c62a; 0xa8304613; 0xfd469501;
    0x698098d8; 0x8b44f7af; 0xffff5bb1; 0x895cd7be;
    0x6b901122; 0xfd987193; 0xa679438e; 0x49b40821;
    0xf61e2562; 0xc040b340; 0x265e5a51; 0xe9b6c7aa;
    0xd62f105d; 0x02441453; 0xd8a1e681; 0xe7d3fbc8;
    0x21e1cde6; 0xc33707d6; 0xf4d50d87; 0x455a14ed;
    0xa9e3e905; 0xfcefa3f8; 0x676f02d9; 0x8d2a4c8a;
    0xfffa3942; 0x8771f681; 0x6d9d6122; 0xfde5380c;
    0xa4beea44; 0x4bdecfa9; 0xf6bb4b60; 0xbebfbc70;
    0x289b7ec6; 0xeaa127fa; 0xd4ef3085; 0x04881d05;
    0xd9d4d039; 0xe6db99e5; 0x1fa27cf8; 0xc4ac5665;
    0xf4292244; 0x432aff97; 0xab9423a7; 0xfc93a039;
    0x655b59c3; 0x8f0ccc92; 0xffeff47d; 0x85845dd1;
    0x6fa87e4f; 0xfe2ce6e0; 0xa3014314; 0x4e0811a1;
    0xf7537e82; 0xbd3af235; 0x2ad7d2bb; 0xeb86d391 ].

Definition S : list Z :=
  [ 7; 12; 17; 22; 7; 12; 17; 22; 7; 12; 17; 22; 7; 12; 17; 22;
    5; 9; 14; 20; 5; 9; 14; 20; 5; 9; 14; 20; 5; 9; 14; 20;
    4; 11; 16; 23; 4; 11; 16; 23; 4; 11; 16; 23; 4; 11; 16; 23;
    6; 10; 15; 21; 6; 10; 15; 21; 6; 10; 15; 21; 6; 10; 15; 21 ].

Record state := mkState { sa : Z; sb : Z; sc : Z; sd : Z }.

Definition init : state :=
  mkState 0x67452301 0xefcdab89 0x98badcfe 0x10325476.

(** Operation [i] of the 64 of a block whose sixteen words are [m]. *)
Definition step (m : list Z) (st : state) (i : nat) : state :=
  let '(mkState a b c d) := st in
  let '(f, g) :=
    if (i <? 16)%nat then (F b c d, i)
    else if (i <? 32)%nat then (G b c d, (5 * i + 1) mod 16)%nat
    else if (i <? 48)%nat then (H b c d, (3 * i + 5) mod 16)%nat
    else (I b c d, (7 * i) mod 16)%nat in
  let x := add32 (add32 (add32 a f) (nth i K 0)) (nth g m 0) in
  mkState d (add32 b (rotl32 x (nth i S 0))) b c.

Definition leWord (bs : list Z) : Z :=
  fold_right (fun byte acc => byte + 256 * acc) 0 bs.

Fixpoint words (n : nat) (bs : list Z) : list Z :=
  match n with
  | O => []
  | Datatypes.S n' => leWord (firstn 4 bs) :: words n' (skipn 4 bs)
  end.

Definition block (st : state) (bs : list Z) : state :=
  let st' := fold_left (step (words 16 bs)) (seq 0 64) st in
  mkState (add32 (sa st) (sa st')) (add32 (sb st) (sb st'))
          (add32 (sc st) (sc st')) (add32 (sd st) (sd st')).

Fixpoint blocks (n : nat) (st : state) (bs : list Z) : state :=
  match n with
  | O => st
  | Datatypes.S n' => blocks n' (block st (firstn 64 bs)) (skipn 64 bs)
  end.

Fixpoint leBytes (n : nat) (x : Z) : list Z :=
  match n with
  | O => []
  | Datatypes.S n' => x mod 256 :: leBytes n' (x / 256)
  end.

(** The message, the byte 0x80, zeros up to 56 modulo 64, and the bit
    length on eight bytes. *)
Definition pad (msg : list Z) : list Z :=
  let len := Z.of_nat (length msg) in
  let zeros := Z.to_nat ((55 - len) mod 64) in
  msg ++ [0x80] ++ repeat 0 zeros ++ leBytes 8 ((8 * len) mod 2 ^ 64).

Definition digest (msg : list Z) : list Z :=
  let p := pad msg in
  let st := blocks (length p / 64) init p in
  leBytes 4 (sa st) ++ leBytes 4 (sb st)
    ++ leBytes 4 (sc st) ++ leBytes 4 (sd st).

End MD5.

(** ** Hexadecimal digests *)

Definition hexDigit (n : Z) : ascii :=
  if n <? 10 then ascii_of_nat (48 + Z.to_nat n)
  else ascii_of_nat (87 + Z.to_nat n).

Fixpoint hex (bytes : list Z) : string :=
  match bytes with
  | [] => EmptyString
  | b :: rest =>
      String (hexDigit ((b / 16) mod 16)) (String (hexDigit (b mod 16)) (hex rest))
  end.

Definition bytesOf (s : string) : list Z :=
  map (fun c => Z.of_nat (code c)) (list_ascii_of_string s).

(* crypto.createHash('md5').update(text).digest('hex') *)
Definition md5hex (text : string) : string :=
  hex (MD5.digest (bytesOf (utf8 text))).

(* String.prototype.substring(0, n) *)
Definition substring0 (n : nat) (s : string) : string := String.substring 0 n s.

Definition cacheKey (text : string) : string := substring0 10 (md5hex text).

(** ** Values, configuration, requests *)

(** The JavaScript values that reach [speakResponse] and the
    [voiceEnabled] field. *)
Inductive jsval :=
| JUndefined
| JBool (b : bool)
| JString (s : string).

(* ToBoolean *)
Definition truthy (v : jsval) : bool :=
  match v with
  | JUndefined => false
  | JBool b => b
  | JString s => negb (isEmpty s)
  end.

(* ToString, as a template literal renders the value *)
Definition show (v : jsval) : string :=
  match v with
  | JUndefined => "undefined"
  | JBool true => "true"
  | JBool false => "false"
  | JString s => s
  end.

(** The fields of the configuration object that the program reads; [None]
    is an absent field. *)
Record Config := mkConfig {
  voiceEnabled : jsval;
  elevenLabsApiKey : option string;
  voiceId : option string
}.

(* {} *)
Definition emptyConfig : Config := mkConfig JUndefined None None.

(** The object that the setup flow hands to [JSON.stringify]; the text-only
    script writes no voice fields. *)
Record SavedConfig := mkSavedConfig {
  sc_version : string;
  sc_platform : string;
  sc_setupDate : string;
  sc_voice : option Config;
  sc_autoStart : bool;
  sc_verboseOutput : bool
}.

Record PostData := mkPostData {
  pd_text : string;
  pd_model_id : string;
  pd_stability : Q;
  pd_similarity_boost : Q
}.

Record Request := mkRequest {
  rq_hostname : string;
  rq_port : N;
  rq_path : string;
  rq_method : string;
  rq_xi_api_key : string;
  rq_accept : string;
  rq_content_type : string;
  rq_body : PostData
}.

Inductive HttpOutcome :=
| Response (statusCode : N) (body : string)
| RequestError (message : string).

(** ** The world *)

Inductive Event :=
| Log (line : string)             (* console.log *)
| StdoutWrite (s : string)        (* process.stdout.write, rl.question *)
| Exec (command : string)         (* child_process.exec *)
| HttpsRequest (r : Request)      (* https.request ... req.end *)
| MkdirSync (p : string)
| WriteFileSync (p : string) (data : string).

Inductive Node :=
| File (data : string)
| Dir.

(** What the program cannot decide by itself. Oracles that may answer
    differently over time take the events performed so far. *)
Record Env := mkEnv {
  platform : string;
  arch : string;
  nodeVersion : string;
  homedir : string;
  pathJoin : string -> string -> string;
  now : list Event -> N;
  toLocaleTimeString : N -> string;
  toLocaleString : N -> string;
  toISOString : N -> string;
  (* the error of a spawned shell command, [None] on exit status 0 *)
  execError : list Event -> string -> option string;
  httpsRequest : list Event -> Request -> HttpOutcome;
  (* JSON.parse of the text of the configuration file: the SyntaxError
     message, or the fields of the configuration the program reads from the
     value. Only values on which reading a field is defined are covered: a
     file whose whole text is the literal null is outside this model. *)
  JSON_parse : string -> string + Config;
  JSON_stringify : SavedConfig -> string
}.

(** [stdin] lists, in order, the chunks that the reads of the program
    receive: a read waits for the next chunk, and a chunk that arrives while
    no read is pending is dropped by the stream and is not listed. *)
Record State := mkState {
  fs : gmap string Node;
  stdin : list string;
  trace : list Event
}.

(** ** The monad of effects: state and exceptions *)

Inductive Outcome (A : Type) :=
| Ret (a : A)
| Throw (message : string).
Arguments Ret {A} a.
Arguments Throw {A} message.

Definition M (A : Type) : Type := State -> Outcome A * State.

Definition ret {A} (a : A) : M A := fun s => (Ret a, s).

Definition throw {A} (message : string) : M A := fun s => (Throw message, s).

Definition bind {A B} (m : M A) (k : A -> M B) : M B :=
  fun s =>
    match m s with
    | (Ret a, s') => k a s'
    | (Throw e, s') => (Throw e, s')
    end.

(* try { m } catch (error) { h error.message } *)
Definition tryCatch {A} (m : M A) (h : string -> M A) : M A :=
  fun s =>
    match m s with
    | (Ret a, s') => (Ret a, s')
    | (Throw e, s') => h e s'
    end.

Notation "x <- m ;; k" := (bind m (fun x => k))
  (at level 100, m at next level, right associativity).
Notation "m ;; k" := (bind m (fun _ => k))
  (at level 100, right associativity).

Definition emit (e : Event) : M unit :=
  fun s => (Ret tt, mkState (fs s) (stdin s) (trace s ++ [e])).

(* console.log of a line already encoded *)
Definition log (line : string) : M unit := emit (Log line).

Definition history : M (list Event) := fun s => (Ret (trace s), s).

(* fs.existsSync *)
Definition existsSync (p : string) : M bool :=
  fun s => (Ret (match fs s !! p with Some _ => true | None => false end), s).

(* fs.readFileSync(p, 'utf8') *)
Definition readFileSync (p : string) : M string :=
  fun s =>
    match fs s !! p with
    | Some (File data) => (Ret data, s)
    | Some Dir => (Throw "EISDIR: illegal operation on a directory, read", s)
    | None =>
        (Throw (tpl ["ENOENT: no such file or directory, open '"; p; "'"]), s)
    end.

(** The directory that holds a path the program writes. Both paths it
    writes are built by [path.join]: the configuration file lies directly in
    the home directory, which is taken to exist, and a cache file lies in
    the cache directory. *)
Inductive Parent :=
| HomeDirectory
| Directory (p : string).

Definition holder (parent : Parent) (s : State) : option Node :=
  match parent with
  | HomeDirectory => Some Dir
  | Directory d => fs s !! d
  end.

(* fs.writeFileSync(p, data), where [parent] holds [p]. Opening [p] fails
   when that directory is missing or is a regular file, and when [p] itself
   is a directory. *)
Definition writeFileSync (parent : Parent) (p data : string) : M unit :=
  fun s =>
    match holder parent s with
    | None =>
        (Throw (tpl ["ENOENT: no such file or directory, open '"; p; "'"]), s)
    | Some (File _) =>
        (Throw (tpl ["ENOTDIR: not a directory, open '"; p; "'"]), s)
    | Some Dir =>
        match fs s !! p with
        | Some Dir =>
            (Throw (tpl ["EISDIR: illegal operation on a directory, open '";
                         p; "'"]), s)
        | _ => (Ret tt, mkState (<[p := File data]> (fs s)) (stdin s)
                                (trace s ++ [WriteFileSync p data]))
        end
    end.

(* fs.mkdirSync(p, { recursive: true }), for a path directly in the home
   directory *)
Definition mkdirSync (p : string) : M unit :=
  fun s =>
    match fs s !! p with
    | Some (File _) =>
        (Throw (tpl ["EEXIST: file already exists, mkdir '"; p; "'"]), s)
    | _ => (Ret tt, mkState (<[p := Dir]> (fs s)) (stdin s)
                            (trace s ++ [MkdirSync p]))
    end.

(** The chunk that the next read receives, if one ever arrives. *)
Definition readData : M (option string) :=
  fun s =>
    match stdin s with
    | [] => (Ret None, s)
    | d :: rest => (Ret (Some d), mkState (fs s) rest (trace s))
    end.

(** ** JavaScript objects used as maps *)

(** The result of [obj[key]] on an object literal: an own property, a
    property inherited from [Object.prototype], or [undefined]. *)
Inductive Property (E : Type) :=
| Own (e : E)
| Inherited (name : string)
| Undefined.
Arguments Own {E} e.
Arguments Inherited {E} name.
Arguments Undefined {E}.

Definition objectPrototypeKeys : list string :=
  [ "constructor"; "__defineGetter__"; "__defineSetter__"; "hasOwnProperty";
    "__lookupGetter__"; "__lookupSetter__"; "isPrototypeOf";
    "propertyIsEnumerable"; "toString"; "valueOf"; "__proto__";
    "toLocaleString" ].

Fixpoint ownProperty {E} (obj : list (string * E)) (key : string) : option E :=
  match obj with
  | [] => None
  | (k, e) :: rest => if String.eqb k key then Some e else ownProperty rest key
  end.

Definition getProperty {E} (obj : list (string * E)) (key : string) : Property E :=
  match ownProperty obj key with
  | Some e => Own e
  | None =>
      if existsb (String.eqb key) objectPrototypeKeys then Inherited key
      else Undefined
  end.

(* Array.prototype.join *)
Fixpoint join (sep : string) (l : list string) : string :=
  match l with
  | [] => EmptyString
  | [x] => x
  | x :: rest => x +:+ sep +:+ join sep rest
  end.

(** ** Functions shared verbatim by the two scripts *)

Section Actions.

Variable env : Env.

Definition CONFIG_FILE : string :=
  pathJoin env (homedir env) ".voice-cli-config.json".

Definition getPlatform : string := platform env.
Definition isWindows : bool := String.eqb getPlatform "win32".
Definition isMac : bool := String.eqb getPlatform "darwin".
Definition isLinux : bool := String.eqb getPlatform "linux".

Definition getDownloadsPath : string := pathJoin env (homedir env) "Downloads".
Definition getDocumentsPath : string := pathJoin env (homedir env) "Documents".
Definition getDesktopPath : string := pathJoin env (homedir env) "Desktop".

Definition getTextEditor : string :=
  if isWindows then "notepad" else if isMac then "TextEdit" else "gedit".

(** [exec(command, callback)], awaited: the spawned command is recorded
    and the callback's [error] comes from the oracle. *)
Definition exec (command : string) : M (option string) :=
  fun s =>
    (Ret (execError env (trace s) command),
     mkState (fs s) (stdin s) (trace s ++ [Exec command])).

Definition executeCommand (command successMessage : string) : M bool :=
  error <- exec command ;;
  match error with
  | Some message => log (tpl ["❌ Error: "; utf8 message]) ;; ret false
  | None => log (tpl ["✅ "; utf8 successMessage]) ;; ret true
  end.

Definition openBrowser (url : string) : M bool :=
  let command :=
    if isWindows then tpl ["start "; url]
    else if isMac then tpl ["open "; url]
    else tpl ["xdg-open "; url] in
  executeCommand command
    (tpl ["Browser opened"; if isEmpty url then "" else tpl [" to "; url]]).

Definition openTerminal (directory : string) : M bool :=
  let command :=
    if isWindows then tpl ["start cmd /k cd /d "; dq; directory; dq]
    else if isMac then tpl ["open -a Terminal "; dq; directory; dq]
    else tpl ["gnome-terminal --working-directory="; dq; directory; dq] in
  executeCommand command (tpl ["Terminal opened in "; directory]).

Definition openFolder (folderPath : string) : M bool :=
  found <- existsSync folderPath ;;
  if negb found then
    log (tpl ["❌ Folder not found: "; utf8 folderPath]) ;;
    ret false
  else
    let command :=
      if isWindows then tpl ["explorer "; dq; folderPath; dq]
      else if isMac then tpl ["open "; dq; folderPath; dq]
      else tpl ["xdg-open "; dq; folderPath; dq] in
    executeCommand command (tpl ["Opened folder: "; folderPath]).

Definition openApplication (appName : string) : M bool :=
  let command :=
    if isWindows then tpl ["start "; dq; dq; " "; dq; appName; dq]
    else if isMac then tpl ["open -a "; dq; appName; dq]
    else toLowerCase appName in
  executeCommand command (tpl ["Launched "; appName]).

Definition showTime : M bool :=
  past <- history ;;
  log (tpl ["🕐 Current time: "; utf8 (toLocaleString env (now env past))]) ;;
  ret true.

Definition showSystemInfo : M bool :=
  log "💻 System Information:" ;;
  log (tpl ["   Platform: "; utf8 (platform env)]) ;;
  log (tpl ["   Architecture: "; utf8 (arch env)]) ;;
  log (tpl ["   Node.js: "; utf8 (nodeVersion env)]) ;;
  log (tpl ["   Home: "; utf8 (homedir env)]) ;;
  ret true.

(** The typed line stands for the recognised speech; [None] when no input
    ever arrives and the pending read is never resolved. *)
Definition simulateVoiceRecognition : M (option string) :=
  emit (StdoutWrite "🎤 Listening... (Type your voice command): ") ;;
  data <- readData ;;
  ret (option_map (fun d => toLowerCase (trim d)) data).

(** [JSON_stringify] yields the bytes of the file. *)
Definition saveConfig (config : SavedConfig) : M unit :=
  tryCatch
    (writeFileSync HomeDirectory CONFIG_FILE (JSON_stringify env config) ;;
     log (tpl ["✅ Configuration saved to "; utf8 CONFIG_FILE]))
    (fun message => log (tpl ["❌ Could not save config: "; utf8 message])).

End Actions.

(** How one turn of the interactive loop ends. *)
Inductive Turn := Continue | Break.

(* Array.prototype.forEach *)
Fixpoint forEach {A} (l : list A) (f : A -> M unit) : M unit :=
  match l with
  | [] => ret tt
  | x :: rest => f x ;; forEach rest f
  end.

(** ** The text-only script, VERSION 1.0.0 *)

Module TextOnly.

Definition VERSION : string := "1.0.0".

Record CommandEntry := mkEntry {
  description : string;
  execute : M bool
}.

Section Script.

Variable env : Env.

(** An object literal: its own properties in insertion order. *)
Definition VOICE_COMMANDS : list (string * CommandEntry) :=
  [ ("open browser",
     mkEntry "Opens your default web browser" (openBrowser env ""));
    ("open google",
     mkEntry "Opens Google in your browser"
             (openBrowser env "https://google.com"));
    ("open terminal",
     mkEntry "Opens a new terminal window" (openTerminal env (homedir env)));
    ("open command prompt",
     mkEntry "Opens command prompt (Windows) or terminal (Mac/Linux)"
             (openTerminal env (homedir env)));
    ("open downloads",
     mkEntry "Opens your downloads folder"
             (openFolder env (getDownloadsPath env)));
    ("open documents",
     mkEntry "Opens your documents folder"
             (openFolder env (getDocumentsPath env)));
    ("open desktop",
     mkEntry "Opens your desktop folder"
             (openFolder env (getDesktopPath env)));
    ("open calculator",
     mkEntry "Opens the calculator app" (openApplication env "Calculator"));
    ("open notepad",
     mkEntry "Opens text editor (Notepad/TextEdit)"
             (openApplication env (getTextEditor env)));
    ("what time is it", mkEntry "Shows current time" (showTime env));
    ("system info",
     mkEntry "Shows basic system information" (showSystemInfo env)) ].

Definition showAvailableCommands : M unit :=
  log (tpl [nl; "🎙️  Available Voice Commands:"; nl]) ;;
  forEach VOICE_COMMANDS (fun '(command, info) =>
    log (tpl ["   "; dq; utf8 command; dq; " - "; utf8 (description info)])) ;;
  log (tpl [nl; "💡 Tip: Commands are case-insensitive"]).

Definition executeVoiceCommand (commandText : string) : M bool :=
  let normalizedCommand := trim (toLowerCase commandText) in
  log (tpl ["🗣️  Voice command: "; dq; utf8 commandText; dq]) ;;
  match getProperty VOICE_COMMANDS normalizedCommand with
  | Own command =>
      log (tpl ["📋 "; utf8 (description command)]) ;;
      success <- execute command ;;
      (if success then log "🎉 Command completed successfully!"
       else ret tt) ;;
      ret success
  | Inherited _ =>
      (* a truthy value of Object.prototype without [description] or
         [execute] *)
      log (tpl ["📋 "; "undefined"]) ;;
      throw "command.execute is not a function"
  | Undefined =>
      log (tpl ["❓ Unknown command: "; dq; utf8 commandText; dq]) ;;
      log "💡 Try one of these commands:" ;;
      showAvailableCommands ;;
      ret false
  end.

Definition showHelp : M unit :=
  log (tpl
    [ nl;
      "🎤 Voice CLI v"; VERSION;
      " - Control your computer with voice commands"; nl;
      nl;
      "USAGE:"; nl;
      "  voice-cli                    Start interactive voice mode"; nl;
      "  voice-cli "; dq; "open browser"; dq;
      "     Execute a single voice command"; nl;
      "  voice-cli --list            Show all available commands"; nl;
      "  voice-cli --setup           Initial setup and configuration"; nl;
      "  voice-cli --help            Show this help message"; nl;
      nl;
      "EXAMPLES:"; nl;
      "  voice-cli "; dq; "open terminal"; dq; nl;
      "  voice-cli "; dq; "open downloads"; dq; nl;
      "  voice-cli "; dq; "what time is it"; dq; nl;
      nl;
      "For more information, visit: https://github.com/yourcompany/voice-cli";
      nl ]).

Definition isQuit (command : string) : bool :=
  String.eqb command "quit" || String.eqb command "exit"
  || String.eqb command "stop".

Definition isHelp (command : string) : bool :=
  String.eqb command "help" || String.eqb command "list".

(** One iteration of [while (true)] per unit of fuel; an iteration reads
    one chunk of standard input. *)
Fixpoint interactiveLoop (fuel : nat) : M unit :=
  match fuel with
  | O => ret tt
  | S fuel' =>
      turn <- tryCatch
        (input <- simulateVoiceRecognition ;;
         match input with
         | None => ret Break
         | Some command =>
             if isQuit command then log "👋 Goodbye!" ;; ret Break
             else if isHelp command then
               showAvailableCommands ;; ret Continue
             else
               executeVoiceCommand command ;;
               log "" ;;
               ret Continue
         end)
        (fun message =>
           log (tpl ["❌ Error: "; utf8 message]) ;; ret Continue) ;;
      match turn with
      | Continue => interactiveLoop fuel'
      | Break => ret tt
      end
  end.

Definition interactiveMode : M unit :=
  log (tpl ["🎤 Voice CLI v"; VERSION; " - Interactive Mode"]) ;;
  log (tpl ["💡 Type voice commands or 'quit' to exit"; nl]) ;;
  fun s => interactiveLoop (S (length (stdin s))) s.

Definition loadConfig : M Config :=
  tryCatch
    (found <- existsSync (CONFIG_FILE env) ;;
     if found then
       data <- readFileSync (CONFIG_FILE env) ;;
       match JSON_parse env data with
       | inl message => throw message
       | inr config => ret config
       end
     else ret emptyConfig)
    (fun message =>
       log (tpl ["⚠️  Could not load config: "; utf8 message]) ;;
       ret emptyConfig).

Definition setupConfiguration : M unit :=
  log "🔧 Voice CLI Setup" ;;
  log "⚠️  Note: This is a basic version. Advanced features like real voice recognition" ;;
  log "   can be added later with speech-to-text services." ;;
  past <- history ;;
  let config :=
    mkSavedConfig VERSION (platform env) (toISOString env (now env past))
                  None false true in
  saveConfig env config ;;
  log (tpl ["✅ Setup complete! Try: voice-cli "; dq; "open browser"; dq]).

Definition isOneOf (options : list string) (s : string) : bool :=
  existsb (String.eqb s) options.

Definition main (args : list string) : M unit :=
  match args with
  | [] => interactiveMode
  | firstArg :: _ =>
      if isOneOf ["--help"; "-h"] firstArg then showHelp
      else if isOneOf ["--setup"] firstArg then setupConfiguration
      else if isOneOf ["--list"; "--commands"] firstArg then
        showAvailableCommands
      else if isOneOf ["--version"; "-v"] firstArg then
        log (tpl ["Voice CLI v"; VERSION])
      else
        let command := join " " args in
        executeVoiceCommand command ;;
        ret tt
  end.

(** [main().catch(...)]: the exit code of the process. *)
Definition cli (args : list string) : State -> nat * State :=
  fun s =>
    match main args s with
    | (Ret _, s') => (0%nat, s')
    | (Throw message, s') =>
        (1%nat, snd (log (tpl ["❌ Error: "; utf8 message]) s'))
    end.

End Script.

End TextOnly.

(** ** The script with voice responses, VERSION 1.0.1 *)

Module Voice.

Definition VERSION : string := "1.0.1".
Definition DEFAULT_VOICE_ID : string := "21m00Tcm4TlvDq8ikWAM".
Definition PLACEHOLDER_KEY : string := "your-api-key-here".

Record CommandEntry := mkEntry {
  description : string;
  response : string;
  execute : M bool
}.

(* !elevenLabsApiKey || elevenLabsApiKey === 'your-api-key-here' *)
Definition usableKey (key : option string) : option string :=
  match key with
  | None => None
  | Some k =>
      if isEmpty k || String.eqb k PLACEHOLDER_KEY then None else Some k
  end.

(* config.voiceEnabled === false *)
Definition isFalse (v : jsval) : bool :=
  match v with JBool false => true | _ => false end.

(* a || b on an optional string *)
Definition orElse (a : option string) (b : string) : string :=
  match a with
  | Some x => if isEmpty x then b else x
  | None => b
  end.

Section Script.

Variable env : Env.

Definition CACHE_DIR : string :=
  pathJoin env (homedir env) ".voice-cli-cache".

(** The object literal is evaluated once, when the module is loaded and
    nothing has happened yet: the template literal of the time entry
    reads the clock there. *)
Definition VOICE_COMMANDS : list (string * CommandEntry) :=
  [ ("open browser",
     mkEntry "Opens your default web browser" "Opening your browser now!"
             (openBrowser env ""));
    ("open google",
     mkEntry "Opens Google in your browser" "Taking you to Google!"
             (openBrowser env "https://google.com"));
    ("open terminal",
     mkEntry "Opens a new terminal window" "Opening a new terminal for you!"
             (openTerminal env (homedir env)));
    ("open command prompt",
     mkEntry "Opens command prompt (Windows) or terminal (Mac/Linux)"
             "Opening command prompt!" (openTerminal env (homedir env)));
    ("open downloads",
     mkEntry "Opens your downloads folder" "Opening your downloads folder!"
             (openFolder env (getDownloadsPath env)));
    ("open documents",
     mkEntry "Opens your documents folder" "Opening your documents folder!"
             (openFolder env (getDocumentsPath env)));
    ("open desktop",
     mkEntry "Opens your desktop folder" "Opening your desktop!"
             (openFolder env (getDesktopPath env)));
    ("open calculator",
     mkEntry "Opens the calculator app" "Opening calculator for you!"
             (openApplication env "Calculator"));
    ("open notepad",
     mkEntry "Opens text editor (Notepad/TextEdit)"
             "Opening your text editor!"
             (openApplication env (getTextEditor env)));
    ("what time is it",
     mkEntry "Shows current time"
             (tpl ["It's "; toLocaleTimeString env (now env [])])
             (showTime env));
    ("system info",
     mkEntry "Shows basic system information"
             "Here is your system information" (showSystemInfo env)) ].

Definition playCommand (filePath : string) : string :=
  if isMac env then tpl ["afplay "; dq; filePath; dq]
  else if isWindows env then
    tpl ["powershell -c "; dq; "(New-Object Media.SoundPlayer '"; filePath;
         "').PlaySync()"; dq]
  else
    tpl ["which mpg123 > /dev/null 2>&1 && mpg123 -q "; dq; filePath; dq;
         " || which aplay > /dev/null 2>&1 && aplay "; dq; filePath; dq;
         " || which paplay > /dev/null 2>&1 && paplay "; dq; filePath; dq].

Definition playAudio (filePath : string) : M unit :=
  error <- exec env (playCommand filePath) ;;
  match error with
  | Some _ => log "🔇 Audio playback not available on this system"
  | None => ret tt
  end.

(** The request of [getElevenLabsAudio]; the Content-Length header, the
    byte length of the serialised body, is left out. *)
Definition elevenLabsRequest (text apiKey voice : string) : Request :=
  mkRequest "api.elevenlabs.io" 443 (tpl ["/v1/text-to-speech/"; voice])
            "POST" apiKey "audio/mpeg" "application/json"
            (mkPostData text "eleven_monolingual_v1" (5 # 10) (8 # 10)).

Definition getElevenLabsAudio (text apiKey voice : string) : M string :=
  past <- history ;;
  emit (HttpsRequest (elevenLabsRequest text apiKey voice)) ;;
  match httpsRequest env past (elevenLabsRequest text apiKey voice) with
  | Response statusCode body =>
      if (statusCode =? 200)%N then ret body
      else throw (tpl ["ElevenLabs API error: "; decimal statusCode])
  | RequestError message => throw message
  end.

(* require('crypto').createHash('md5').update(text).digest('hex')
     .substring(0, 10) *)
Definition cacheKeyOf (text : jsval) : M string :=
  match text with
  | JString t => ret (cacheKey t)
  | _ =>
      throw (tpl ["The "; dq; "data"; dq;
                  " argument must be of type string or an instance of ";
                  "Buffer, TypedArray, or DataView. Received ";
                  show text])
  end.

Definition cachePathOf (text : string) : string :=
  pathJoin env CACHE_DIR (tpl [cacheKey text; ".mp3"]).

Definition speakResponse (text : jsval) (config : Config) : M unit :=
  tryCatch
    (if isFalse (voiceEnabled config) then
       log (tpl ["🔇 Voice disabled: "; dq; utf8 (show text); dq])
     else
       match usableKey (elevenLabsApiKey config) with
       | None =>
           log (tpl ["💬 "; dq; utf8 (show text); dq]) ;;
           log "ℹ️  Add ElevenLabs API key for voice responses: voice-cli --setup"
       | Some elevenLabsApiKey =>
           log (tpl ["🗣️  "; dq; utf8 (show text); dq]) ;;
           found <- existsSync CACHE_DIR ;;
           (if negb found then mkdirSync CACHE_DIR else ret tt) ;;
           key <- cacheKeyOf text ;;
           let cachePath := pathJoin env CACHE_DIR (tpl [key; ".mp3"]) in
           cached <- existsSync cachePath ;;
           if cached then
             log "🎧 Playing cached response..." ;;
             playAudio cachePath
           else
             log "🎤 Generating voice response..." ;;
             audioData <- getElevenLabsAudio (show text) elevenLabsApiKey
                            (orElse (voiceId config) DEFAULT_VOICE_ID) ;;
             writeFileSync (Directory CACHE_DIR) cachePath audioData ;;
             playAudio cachePath
       end)
    (fun message =>
       log (tpl ["❌ Voice response error: "; utf8 message]) ;;
       log (tpl ["💬 "; dq; utf8 (show text); dq])).

Definition showAvailableCommands : M unit :=
  log (tpl [bs; "n"; "🎙️  Available Voice Commands:"; bs; "n"]) ;;
  forEach VOICE_COMMANDS (fun '(command, info) =>
    log (tpl ["   "; dq; utf8 command; dq; " - "; utf8 (description info)])) ;;
  log (tpl [bs; "n"; "💡 Tip: Commands are case-insensitive"]).

Definition executeVoiceCommand (commandText : string) (config : Config)
  : M bool :=
  let normalizedCommand := trim (toLowerCase commandText) in
  log (tpl ["🗣️  Voice command: "; dq; utf8 commandText; dq]) ;;
  match getProperty VOICE_COMMANDS normalizedCommand with
  | Own command =>
      log (tpl ["📋 "; utf8 (description command)]) ;;
      speakResponse (JString (response command)) config ;;
      success <- execute command ;;
      (if success then
         log "🎉 Command completed successfully!" ;;
         speakResponse (JString "Done!") config
       else
         speakResponse
           (JString "Sorry, there was an error with that command.") config) ;;
      ret success
  | Inherited _ =>
      (* a truthy value of Object.prototype without [description],
         [response] or [execute] *)
      log (tpl ["📋 "; "undefined"]) ;;
      speakResponse JUndefined config ;;
      throw "command.execute is not a function"
  | Undefined =>
      log (tpl ["❓ Unknown command: "; dq; utf8 commandText; dq]) ;;
      speakResponse
        (JString "I didn't understand that command. Try asking for help.")
        config ;;
      log "💡 Try one of these commands:" ;;
      showAvailableCommands ;;
      ret false
  end.

Definition showHelp : M unit :=
  log (tpl
    [ nl;
      "🎤 Voice CLI v"; VERSION;
      " - Control your computer with voice commands"; nl;
      nl;
      "USAGE:"; nl;
      "  voice-cli                    Start interactive voice mode"; nl;
      "  voice-cli "; dq; "open browser"; dq;
      "     Execute a single voice command"; nl;
      "  voice-cli --list            Show all available commands"; nl;
      "  voice-cli --setup           Initial setup and configuration"; nl;
      "  voice-cli --help            Show this help message"; nl;
      nl;
      "EXAMPLES:"; nl;
      "  voice-cli "; dq; "open terminal"; dq; nl;
      "  voice-cli "; dq; "open downloads"; dq; "  "; nl;
      "  voice-cli "; dq; "what time is it"; dq; nl;
      nl;
      "VOICE RESPONSES:"; nl;
      "  Add your ElevenLabs API key during setup for AI voice responses!"; nl;
      "  Without API key, responses will be text-only."; nl;
      nl;
      "For more information, visit: https://github.com/Alec-Hermesmeyer/voice-cli";
      nl ]).

Definition defaultConfig : Config :=
  mkConfig (JBool false) (Some PLACEHOLDER_KEY) (Some DEFAULT_VOICE_ID).

(** [JSON_parse] is applied to the bytes of the file. *)
Definition loadConfig : M Config :=
  tryCatch
    (found <- existsSync (CONFIG_FILE env) ;;
     if found then
       data <- readFileSync (CONFIG_FILE env) ;;
       match JSON_parse env data with
       | inl message => throw message
       | inr config => ret config
       end
     else ret defaultConfig)
    (fun message =>
       log (tpl ["⚠️  Could not load config: "; utf8 message]) ;;
       ret defaultConfig).

Definition isQuit (command : string) : bool :=
  String.eqb command "quit" || String.eqb command "exit"
  || String.eqb command "stop".

Definition isHelp (command : string) : bool :=
  String.eqb command "help" || String.eqb command "list".

Fixpoint interactiveLoop (config : Config) (fuel : nat) : M unit :=
  match fuel with
  | O => ret tt
  | S fuel' =>
      turn <- tryCatch
        (input <- simulateVoiceRecognition ;;
         match input with
         | None => ret Break
         | Some command =>
             if isQuit command then
               speakResponse (JString "Goodbye!") config ;;
               log "👋 Goodbye!" ;;
               ret Break
             else if isHelp command then
               showAvailableCommands ;;
               speakResponse (JString "Here are the available commands")
                             config ;;
               ret Continue
             else
               executeVoiceCommand command config ;;
               log "" ;;
               ret Continue
         end)
        (fun message =>
           log (tpl ["❌ Error: "; utf8 message]) ;; ret Continue) ;;
      match turn with
      | Continue => interactiveLoop config fuel'
      | Break => ret tt
      end
  end.

Definition interactiveMode : M unit :=
  config <- loadConfig ;;
  log (tpl ["🎤 Voice CLI v"; VERSION; " - Interactive Mode"]) ;;
  log "💡 Type voice commands or 'quit' to exit" ;;
  (if truthy (voiceEnabled config)
      && match elevenLabsApiKey config with
         | Some k => negb (isEmpty k) && negb (String.eqb k PLACEHOLDER_KEY)
         | None => false
         end
   then
     log (tpl ["🗣️  AI voice responses enabled!"; bs; "n"]) ;;
     speakResponse
       (JString "Voice CLI ready! What would you like me to do?") config
   else
     log (tpl ["🔇 Voice responses disabled. Run 'voice-cli --setup' to enable.";
               bs; "n"])) ;;
  fun s => interactiveLoop config (S (length (stdin s))) s.

(** [rl.question]: the prompt is written and the callback runs with the
    answered line, if one ever arrives. *)
Definition setupConfiguration : M unit :=
  log "🔧 Voice CLI Setup - Enable AI Voice Responses" ;;
  log (tpl [nl; "🎤 To enable voice responses, you'll need an ElevenLabs API key:"]) ;;
  log "   1. Sign up at https://elevenlabs.io (free tier available)" ;;
  log "   2. Go to your profile and copy your API key" ;;
  log (tpl ["   3. Run this setup again with your API key"; nl]) ;;
  emit (StdoutWrite "Enter your ElevenLabs API key (or press Enter to skip): ") ;;
  answer <- readData ;;
  match answer with
  | None => ret tt
  | Some apiKey =>
      past <- history ;;
      let enabled :=
        if isEmpty apiKey then JString apiKey
        else JBool (negb (isEmpty (trim apiKey))) in
      let config :=
        mkSavedConfig VERSION (platform env)
          (toISOString env (now env past))
          (Some (mkConfig enabled
                          (Some (orElse (Some (trim apiKey)) PLACEHOLDER_KEY))
                          (Some DEFAULT_VOICE_ID)))
          false true in
      saveConfig env config ;;
      (if truthy enabled then
         log (tpl ["✅ Voice responses enabled! Try: voice-cli "; dq;
                   "open browser"; dq])
       else
         log "✅ Setup complete! Voice responses disabled (text-only mode)" ;;
         log "   Run setup again anytime to add voice responses.")
  end.

Definition isOneOf (options : list string) (s : string) : bool :=
  existsb (String.eqb s) options.

Definition main (args : list string) : M unit :=
  match args with
  | [] => interactiveMode
  | firstArg :: _ =>
      config <- loadConfig ;;
      if isOneOf ["--help"; "-h"] firstArg then showHelp
      else if isOneOf ["--setup"] firstArg then setupConfiguration
      else if isOneOf ["--list"; "--commands"] firstArg then
        showAvailableCommands
      else if isOneOf ["--version"; "-v"] firstArg then
        log (tpl ["Voice CLI v"; VERSION])
      else
        let command := join " " args in
        executeVoiceCommand command config ;;
        ret tt
  end.

(** [main().catch(...)]: the exit code of the process. *)
Definition cli (args : list string) : State -> nat * State :=
  fun s =>
    match main args s with
    | (Ret _, s') => (0%nat, s')
    | (Throw message, s') =>
        (1%nat, snd (log (tpl ["❌ Error: "; utf8 message]) s'))
    end.

End Script.

End Voice.

(** ** Reading a trace *)

Definition requests (events : list Event) : list Request :=
  flat_map (fun e => match e with HttpsRequest r => [r] | _ => [] end) events.

Definition spawned (events : list Event) : list string :=
  flat_map (fun e => match e with Exec c => [c] | _ => [] end) events.

Definition written (events : list Event) : list (string * string) :=
  flat_map (fun e => match e with WriteFileSync p d => [(p, d)] | _ => [] end)
           events.

Definition printed (events : list Event) : list string :=
  flat_map (fun e => match e with Log l => [l] | _ => [] end) events.

Definition isHexDigit (c : ascii) : bool :=
  ((48 <=? code c) && (code c <=? 57) || (97 <=? code c) && (code c <=? 102))%nat.

(** A Unix-like environment used to instantiate the statements: the clock
    counts the events performed so far, every spawned command succeeds, the
    endpoint gives the same [answer] to every request, and the only text
    [JSON_parse] accepts is the empty object. *)
Definition sampleEnvWith (answer : HttpOutcome) : Env :=
  mkEnv "linux" "x64" "v20.11.0" "/home/alec"
        (fun a b => tpl [a; "/"; b])
        (fun past => N.of_nat (length past))
        (fun t => tpl [decimal t; ":00:00 AM"])
        (fun t => tpl ["1/1/2025, "; decimal t; ":00:00 AM"])
        (fun t => tpl ["2025-01-01T0"; decimal t; ":00:00.000Z"])
        (fun _ _ => None)
        (fun _ _ => answer)
        (fun data =>
           if String.eqb data "{}" then inr emptyConfig
           else inl "Unexpected end of JSON input")
        (fun _ => "{}").

Definition sampleEnv : Env := sampleEnvWith (Response 200 "ABC").

Definition emptyState : State := mkState ∅ [] [].

(** The phrases of the registry, the same in both scripts. *)
Definition phrases : list string :=
  [ "open browser"; "open google"; "open terminal"; "open command prompt";
    "open downloads"; "open documents"; "open desktop"; "open calculator";
    "open notepad"; "what time is it"; "system info" ].

(** ** The branches of the dispatcher *)

(** The line that echoes the input. *)
Definition voiceCommandLine (commandText : string) : string :=
  tpl ["🗣️  Voice command: "; dq; utf8 commandText; dq].

(** What [TextOnly.executeVoiceCommand] does once the lookup has produced
    the entry [command]. *)
Definition runCommandTextOnly (command : TextOnly.CommandEntry) : M bool :=
  log (tpl ["📋 "; utf8 (TextOnly.description command)]) ;;
  success <- TextOnly.execute command ;;
  (if success then log "🎉 Command completed successfully!" else ret tt) ;;
  ret success.

(** What [Voice.executeVoiceCommand] does once the lookup has produced the
    entry [command]. *)
Definition runCommandVoice (env : Env) (command : Voice.CommandEntry)
  (config : Config) : M bool :=
  log (tpl ["📋 "; utf8 (Voice.description command)]) ;;
  Voice.speakResponse env (JString (Voice.response command)) config ;;
  success <- Voice.execute command ;;
  (if success then
     log "🎉 Command completed successfully!" ;;
     Voice.speakResponse env (JString "Done!") config
   else
     Voice.speakResponse env
       (JString "Sorry, there was an error with that command.") config) ;;
  ret success.

(** ** The cache directory step of [speakResponse] *)

(** What creating the cache directory when it is missing adds to the trace
    and does to the file system. *)
Definition directoryEvents (env : Env) (s : State) : list Event :=
  match fs s !! Voice.CACHE_DIR env with
  | Some _ => []
  | None => [MkdirSync (Voice.CACHE_DIR env)]
  end.

Definition directoryFs (env : Env) (s : State) : gmap string Node :=
  match fs s !! Voice.CACHE_DIR env with
  | Some _ => fs s
  | None => <[Voice.CACHE_DIR env := Dir]> (fs s)
  end.

(** The events of [speakResponse] up to the moment the request is sent. *)
Definition beforeRequest (env : Env) (text : string) (s : State) : list Event :=
  Log (tpl ["🗣️  "; dq; utf8 text; dq])
  :: directoryEvents env s ++ [Log "🎤 Generating voice response..."].

(** ** The command of the audio player *)

(** [command] is the command line that plays [filePath] on the platform of
    [env]: afplay on macOS, the sound player of .NET through powershell on
    Windows, and anywhere else the first of mpg123, aplay and paplay that
    [which] finds. *)
Definition playsFile (env : Env) (filePath command : string) : Prop :=
  (platform env = "darwin" ->
   command = tpl ["afplay "; dq; filePath; dq])
  /\ (platform env = "win32" ->
      command = tpl ["powershell -c "; dq; "(New-Object Media.SoundPlayer '";
                     filePath; "').PlaySync()"; dq])
  /\ (platform env <> "darwin" -> platform env <> "win32" ->
      command = tpl ["which mpg123 > /dev/null 2>&1 && mpg123 -q "; dq;
                     filePath; dq;
                     " || which aplay > /dev/null 2>&1 && aplay "; dq;
                     filePath; dq;
                     " || which paplay > /dev/null 2>&1 && paplay "; dq;
                     filePath; dq]).

(** ** What the entry point prints *)

(** The lines of the registry listing: one per entry, in insertion
    order. *)
Definition listingTextOnly (env : Env) : list Event :=
  map (fun '(command, info) =>
         Log (tpl ["   "; dq; utf8 command; dq; " - ";
                   utf8 (TextOnly.description info)]))
      (TextOnly.VOICE_COMMANDS env).

Definition listingVoice (env : Env) : list Event :=
  map (fun '(command, info) =>
         Log (tpl ["   "; dq; utf8 command; dq; " - ";
                   utf8 (Voice.description info)]))
      (Voice.VOICE_COMMANDS env).

(** The warning of [Voice.loadConfig], printed exactly when the
    configuration file exists and cannot be read as JSON. *)
Definition configWarning (env : Env) (s : State) : list Event :=
  match fs s !! CONFIG_FILE env with
  | None => []
  | Some Dir =>
      [Log (tpl ["⚠️  Could not load config: ";
                 utf8 "EISDIR: illegal operation on a directory, read"])]
  | Some (File data) =>
      match JSON_parse env data with
      | inl message =>
          [Log (tpl ["⚠️  Could not load config: "; utf8 message])]
      | inr _ => []
      end
  end.

(** A state whose configuration file is empty, hence not JSON. *)
Definition emptyConfigFileState : State :=
  mkState {[ CONFIG_FILE sampleEnv := File "" ]} [] [].

(** ** Footprints: what a run may do to the world *)

Record Footprint := mkFootprint {
  mayWrite : bool;          (* the file system may change *)
  mayRead : bool;           (* standard input may be consumed *)
  allowed : Event -> bool   (* the events that may be performed *)
}.

(** The state [s'] is reached from [s] within the footprint [F]. *)
Definition within (F : Footprint) (s s' : State) : Prop :=
  (mayWrite F = false -> fs s' = fs s)
  /\ (mayRead F = false -> stdin s' = stdin s)
  /\ (exists used, stdin s = used ++ stdin s')
  /\ (exists events,
        trace s' = trace s ++ events /\ forallb (allowed F) events = true).

(** Every run of [m] relates its initial state to its final state by [R],
    whether it returns or throws. *)
Definition preserves (R : State -> State -> Prop) {A} (m : M A) : Prop :=
  forall s, R s (snd (m s)).

(** No run of [m] ends with an exception. *)
Definition returns {A} (m : M A) : Prop :=
  forall s, exists a, fst (m s) = Ret a.

(** Every node of the file system is still there, unchanged. *)
Definition keepsNodes (s s' : State) : Prop :=
  forall p node, fs s !! p = Some node -> fs s' !! p = Some node.

Definition isLog (e : Event) : bool :=
  match e with Log _ => true | _ => false end.

Definition isLocal (e : Event) : bool :=
  match e with Log _ | StdoutWrite _ | Exec _ => true | _ => false end.

Definition anyEvent (e : Event) : bool := true.

(** Prints lines and does nothing else. *)
Definition printsOnly : Footprint := mkFootprint false false isLog.

(** Prints and spawns commands; no request, no file-system call, no input. *)
Definition localOnly : Footprint := mkFootprint false false isLocal.

(** As [localOnly], and may consume standard input. *)
Definition offline : Footprint := mkFootprint false true isLocal.

(** Anything but consuming standard input. *)
Definition keepsInput : Footprint := mkFootprint true false anyEvent.

(** Anything at all: the trace only grows and input is only consumed. *)
Definition anything : Footprint := mkFootprint true true anyEvent.

(** The key that both dispatchers look up for an input. *)
Definition normalize (commandText : string) : string :=
  trim (toLowerCase commandText).

(** The chunks of standard input left unread when the interactive loop
    ends: those after the first quit, exit or stop. *)
Fixpoint afterQuit (chunks : list string) : list string :=
  match chunks with
  | [] => []
  | d :: rest =>
      if TextOnly.isQuit (toLowerCase (trim d)) then rest else afterQuit rest
  end.

(** The first arguments that [main] handles itself. *)
Definition isFlag (firstArg : string) : bool :=
  existsb (String.eqb firstArg)
    ["--help"; "-h"; "--setup"; "--list"; "--commands"; "--version"; "-v"].

(** The arguments for which [main] dispatches a command whose normal form
    is a property name of [Object.prototype]. *)
Definition dispatchesInherited (args : list string) : bool :=
  match args with
  | [] => false
  | firstArg :: _ =>
      negb (isFlag firstArg)
      && (String.eqb (normalize (join " " args)) "constructor"
          || String.eqb (normalize (join " " args)) "__proto__")
  end.

(** No character of the string is one that [toLowerCase] moves. *)
Fixpoint noUpper (s : string) : bool :=
  match s with
  | EmptyString => true
  | String c s' => negb (isUpperCode (code c)) && noUpper s'
  end.

(** The string does not begin with white space. *)
Definition headNotSpace (s : string) : bool :=
  match s with
  | EmptyString => true
  | String c _ => negb (isWhiteSpace c)
  end.

(** The contract of an action of the registry: it returns a boolean and
    leaves the file system and standard input alone; either it only prints,
    or it spawns exactly one command, prints one line after it, and
    returns whether the exit status was 0. *)
Definition actionContract (env : Env) (action : M bool) : Prop :=
  forall s,
    exists b events,
      action s = (Ret b, mkState (fs s) (stdin s) (trace s ++ events))
      /\ (forallb isLog events = true
          \/ exists command line,
               events = [Exec command; Log line]
               /\ b = match execError env (trace s) command with
                      | None => true
                      | Some _ => false
                      end).

(** * Properties *)

(** ** MD5 test vectors *)

Example md5_empty : md5hex "" = "d41d8cd98f00b204e9800998ecf8427e".
Proof. vm_compute. reflexivity. Qed.

Example md5_abc : md5hex "abc" = "900150983cd24fb0d6963f7d28e17f72".
Proof. vm_compute. reflexivity. Qed.

Example md5_long :
  md5hex "12345678901234567890123456789012345678901234567890123456789012345678901234567890"
  = "57edf4a22be3c955ac49da2e2107b67a".
Proof. vm_compute. reflexivity. Qed.

Example md5_done : md5hex "Done!" = "d3de52109c609784f2e4a28d0e9fdb97".
Proof. vm_compute. reflexivity. Qed.

(* the text U+00E9 t U+00E9 is hashed through its UTF-8 encoding *)
Example md5_latin1 :
  md5hex (String (ascii_of_nat 233) (String "t" (String (ascii_of_nat 233) "")))
  = "deaf6a1e9612a4d8c221e68ee23d58d2".
Proof. vm_compute. reflexivity. Qed.

(** ** Strings *)

Lemma isUpperCode_spec n :
  isUpperCode n = true <->
  (65 <= n <= 90 \/ 192 <= n <= 214 \/ 216 <= n <= 222)%nat.
Proof.
  unfold isUpperCode.
  rewrite !orb_true_iff, !andb_true_iff, !Nat.leb_le. lia.
Qed.

Lemma isWhiteSpace_spec c :
  isWhiteSpace c = true <->
  (9 <= code c <= 13 \/ code c = 32 \/ code c = 160)%nat.
Proof.
  unfold isWhiteSpace.
  rewrite !orb_true_iff, !andb_true_iff, !Nat.leb_le, !Nat.eqb_eq. lia.
Qed.

Lemma code_inj a b : code a = code b -> a = b.
Proof.
  unfold code. intros E.
  rewrite <- (ascii_nat_embedding a), <- (ascii_nat_embedding b).
  now rewrite E.
Qed.

Lemma toLowerChar_fixed c : isUpperCode (code c) = false -> toLowerChar c = c.
Proof. unfold toLowerChar. now intros ->. Qed.

Lemma toLowerChar_caseVariant a b :
  caseVariantChar a b -> toLowerChar a = toLowerChar b.
Proof.
  assert (shifted : forall x y : ascii,
            isUpperCode (code x) = true -> code y = (code x + 32)%nat ->
            toLowerChar x = toLowerChar y).
  { intros x y Hx Hy.
    rewrite (toLowerChar_fixed y).
    - unfold toLowerChar. rewrite Hx, <- Hy. apply ascii_nat_embedding.
    - apply not_true_is_false. rewrite isUpperCode_spec.
      apply isUpperCode_spec in Hx. lia. }
  intros [E | [[Ha E] | [Hb E]]].
  - now rewrite (code_inj _ _ E).
  - now apply shifted.
  - symmetry. now apply shifted.
Qed.

Lemma toLowerCase_caseVariant v p :
  caseVariant v p -> toLowerCase v = toLowerCase p.
Proof.
  induction 1 as [| a b s t Hab _ IH]; simpl.
  - reflexivity.
  - now rewrite (toLowerChar_caseVariant a b Hab), IH.
Qed.

Lemma toLowerCase_app a b :
  toLowerCase (a +:+ b) = toLowerCase a +:+ toLowerCase b.
Proof. induction a as [| c a IH]; simpl; [reflexivity | now rewrite IH]. Qed.

Lemma toLowerCase_whitespace l :
  allWhiteSpace l = true -> toLowerCase l = l.
Proof.
  induction l as [| c l IH]; simpl; [reflexivity |].
  rewrite andb_true_iff. intros [Hc Hl].
  rewrite (IH Hl), toLowerChar_fixed; [reflexivity |].
  apply not_true_is_false. rewrite isUpperCode_spec.
  apply isWhiteSpace_spec in Hc. lia.
Qed.

Lemma trimStart_whitespace l m :
  allWhiteSpace l = true -> trimStart (l +:+ m) = trimStart m.
Proof.
  induction l as [| c l IH]; simpl; [reflexivity |].
  rewrite andb_true_iff. intros [-> Hl]. now apply IH.
Qed.

Lemma trimEnd_whitespace r : allWhiteSpace r = true -> trimEnd r = EmptyString.
Proof.
  induction r as [| c r IH]; simpl; [reflexivity |].
  rewrite andb_true_iff. intros [-> Hr]. now rewrite (IH Hr).
Qed.

Lemma trimEnd_app_whitespace m r :
  allWhiteSpace r = true -> trimEnd (m +:+ r) = trimEnd m.
Proof.
  intros Hr. induction m as [| c m IH]; simpl.
  - now apply trimEnd_whitespace.
  - now rewrite IH.
Qed.

Lemma trimStart_all_whitespace r :
  allWhiteSpace r = true -> trimStart r = EmptyString.
Proof.
  induction r as [| c r IH]; simpl; [reflexivity |].
  rewrite andb_true_iff. intros [-> Hr]. now apply IH.
Qed.

Lemma trimStart_app m r :
  allWhiteSpace r = true ->
  trimEnd (trimStart (m +:+ r)) = trimEnd (trimStart m).
Proof.
  intros Hr. induction m as [| c m IH]; simpl.
  - change (EmptyString +:+ r) with r.
    now rewrite (trimStart_all_whitespace r Hr).
  - destruct (isWhiteSpace c); [exact IH |].
    change (trimEnd (String c m +:+ r) = trimEnd (String c m)).
    now apply trimEnd_app_whitespace.
Qed.

(** Padding with white space on both sides is invisible to [trim]. *)
Lemma trim_padded l m r :
  allWhiteSpace l = true -> allWhiteSpace r = true ->
  trim (l +:+ m +:+ r) = trim m.
Proof.
  intros Hl Hr. unfold trim.
  rewrite (trimStart_whitespace l _ Hl). now apply trimStart_app.
Qed.

(** What the dispatcher looks up for an input that is a registered phrase
    in another letter case, surrounded by white space. *)
Lemma normalize_variant lead variant trail phrase :
  allWhiteSpace lead = true -> allWhiteSpace trail = true ->
  caseVariant variant phrase ->
  trim (toLowerCase (lead +:+ variant +:+ trail)) = trim (toLowerCase phrase).
Proof.
  intros Hl Hr Hv.
  rewrite !toLowerCase_app, (toLowerCase_whitespace _ Hl),
    (toLowerCase_whitespace _ Hr), (toLowerCase_caseVariant _ _ Hv).
  now apply trim_padded.
Qed.

(** ** The registry *)

Lemma ownProperty_key {E} (obj : list (string * E)) key e :
  ownProperty obj key = Some e -> In key (map fst obj).
Proof.
  induction obj as [| [k v] obj IH]; simpl; [discriminate |].
  destruct (String.eqb_spec k key) as [-> | _]; [now left |].
  intros H. right. now apply IH.
Qed.

Lemma getProperty_own {E} (obj : list (string * E)) key e :
  ownProperty obj key = Some e -> getProperty obj key = Own e.
Proof. unfold getProperty. now intros ->. Qed.

Lemma phrases_TextOnly env : map fst (TextOnly.VOICE_COMMANDS env) = phrases.
Proof. reflexivity. Qed.

Lemma phrases_Voice env : map fst (Voice.VOICE_COMMANDS env) = phrases.
Proof. reflexivity. Qed.

(** Every registered phrase is its own normal form. *)
Lemma phrase_normal phrase :
  In phrase phrases -> trim (toLowerCase phrase) = phrase.
Proof.
  unfold phrases. simpl.
  intros H. repeat (destruct H as [<- | H]; [vm_compute; reflexivity |]).
  contradiction.
Qed.

Ltac case_variant :=
  repeat first
    [ apply cv_nil
    | apply cv_cons;
      [ unfold caseVariantChar;
        first [ left; reflexivity
              | right; left; split; reflexivity
              | right; right; split; reflexivity ] | ] ].

(** C1. For every registered phrase and every input that equals it up to
    letter case and surrounding white space, the lookup made by
    [executeVoiceCommand] (lowercase, then trim, then exact match) yields
    the entry of the phrase, and dispatching the input runs the same entry
    as dispatching the phrase itself; in both scripts. *)
Theorem dispatch_ignores_case_and_padding :
  forall env phrase lead variant trail,
    allWhiteSpace lead = true ->
    allWhiteSpace trail = true ->
    caseVariant variant phrase ->
    (forall e,
        ownProperty (TextOnly.VOICE_COMMANDS env) phrase = Some e ->
        getProperty (TextOnly.VOICE_COMMANDS env)
                    (trim (toLowerCase (lead +:+ variant +:+ trail))) = Own e
        /\ TextOnly.executeVoiceCommand env (lead +:+ variant +:+ trail)
           = (log (voiceCommandLine (lead +:+ variant +:+ trail)) ;;
              runCommandTextOnly e)
        /\ TextOnly.executeVoiceCommand env phrase
           = (log (voiceCommandLine phrase) ;; runCommandTextOnly e))
    /\ (forall e config,
        ownProperty (Voice.VOICE_COMMANDS env) phrase = Some e ->
        getProperty (Voice.VOICE_COMMANDS env)
                    (trim (toLowerCase (lead +:+ variant +:+ trail))) = Own e
        /\ Voice.executeVoiceCommand env (lead +:+ variant +:+ trail) config
           = (log (voiceCommandLine (lead +:+ variant +:+ trail)) ;;
              runCommandVoice env e config)
        /\ Voice.executeVoiceCommand env phrase config
           = (log (voiceCommandLine phrase) ;; runCommandVoice env e config)).
Proof.
  intros env phrase lead variant trail Hl Hr Hv.
  pose proof (normalize_variant lead variant trail phrase Hl Hr Hv) as Hn.
  split.
  - intros e He.
    assert (Hp : trim (toLowerCase phrase) = phrase).
    { apply phrase_normal. rewrite <- (phrases_TextOnly env).
      now apply ownProperty_key with e. }
    pose proof (getProperty_own _ _ _ He) as Hg.
    unfold TextOnly.executeVoiceCommand.
    rewrite Hn, Hp, Hg. repeat split.
  - intros e config He.
    assert (Hp : trim (toLowerCase phrase) = phrase).
    { apply phrase_normal. rewrite <- (phrases_Voice env).
      now apply ownProperty_key with e. }
    pose proof (getProperty_own _ _ _ He) as Hg.
    unfold Voice.executeVoiceCommand.
    rewrite Hn, Hp, Hg. repeat split.
Qed.

Lemma dispatch_ignores_case_and_padding_witness :
  getProperty (Voice.VOICE_COMMANDS sampleEnv)
              (trim (toLowerCase "  Open DOWNLOADS "))
  = Own (Voice.mkEntry "Opens your downloads folder"
           "Opening your downloads folder!"
           (openFolder sampleEnv (getDownloadsPath sampleEnv))).
Proof.
  refine (proj1 (proj2 (dispatch_ignores_case_and_padding sampleEnv
            "open downloads" "  " "Open DOWNLOADS" " "
            eq_refl eq_refl _) _ emptyConfig eq_refl)).
  case_variant.
Defined.

(** ** The cache key *)

Lemma length_leBytes n x : length (MD5.leBytes n x) = n.
Proof.
  revert x. induction n as [| n IH]; intros x; simpl; [reflexivity |].
  now rewrite IH.
Qed.

Lemma length_digest msg : length (MD5.digest msg) = 16%nat.
Proof.
  unfold MD5.digest. cbv zeta.
  now rewrite !length_app, !length_leBytes.
Qed.

Lemma length_hex bytes : String.length (hex bytes) = (2 * length bytes)%nat.
Proof.
  induction bytes as [| b bytes IH]; simpl; [reflexivity |].
  rewrite IH. lia.
Qed.

Lemma length_substring0 n s :
  (n <= String.length s)%nat -> String.length (substring0 n s) = n.
Proof.
  unfold substring0. revert n.
  induction s as [| c s IH]; intros [| n]; simpl; intros H;
    try reflexivity; try lia.
  rewrite IH; [reflexivity | lia].
Qed.

Lemma In_substring0 n s c :
  In c (list_ascii_of_string (substring0 n s)) ->
  In c (list_ascii_of_string s).
Proof.
  unfold substring0. revert n.
  induction s as [| a s IH]; intros [| n]; simpl; try tauto.
  intros [-> | H]; [now left | right; now apply IH with n].
Qed.

Lemma hexDigit_hex n : 0 <= n < 16 -> isHexDigit (hexDigit n) = true.
Proof.
  intros H. rewrite <- (Z2Nat.id n) by lia.
  assert (Hk : (Z.to_nat n < 16)%nat) by lia.
  generalize dependent (Z.to_nat n). clear. intros k Hk.
  do 16 (destruct k as [| k]; [reflexivity |]). lia.
Qed.

Lemma hex_digits bytes c :
  In c (list_ascii_of_string (hex bytes)) -> isHexDigit c = true.
Proof.
  induction bytes as [| b bytes IH]; simpl; [tauto |].
  intros [<- | [<- | H]]; [| | now apply IH];
    apply hexDigit_hex, Z.mod_pos_bound; lia.
Qed.

Lemma substring0_length s : String.substring 0 (String.length s) s = s.
Proof. induction s as [| c s IH]; simpl; [reflexivity | now rewrite IH]. Qed.

Lemma substring0_split s :
  forall n,
    (n <= String.length s)%nat ->
    s = substring0 n s +:+ String.substring n (String.length s - n) s.
Proof.
  unfold substring0.
  induction s as [| c s IH]; intros [| n] Hn.
  - reflexivity.
  - simpl in Hn. lia.
  - change (String c s
            = String c (String.substring 0 (String.length s) s)).
    now rewrite substring0_length.
  - change (String c s
            = String c (String.substring 0 n s
                        +:+ String.substring n (String.length s - n) s)).
    f_equal. apply IH. simpl in Hn. lia.
Qed.

Lemma length_md5hex text : String.length (md5hex text) = 32%nat.
Proof. unfold md5hex. rewrite length_hex, length_digest. reflexivity. Qed.

(** C7. The cache key is a function of the text alone: the first ten of the
    thirty-two hexadecimal digits of the MD5 digest of the UTF-8 encoding
    of the text. So it has exactly ten characters, all of them hexadecimal
    digits; on the test suite of RFC 1321 the digest is the published one,
    and two different responses of the script have different keys.
    [speakResponse] obtains the key from the text without reading the
    configuration, the platform or the state, and names the cache file by
    it. *)
Theorem cacheKey_fixed_length_hex :
  forall text,
    md5hex text = hex (MD5.digest (bytesOf (utf8 text)))
    /\ String.length (md5hex text) = 32%nat
    /\ md5hex text = cacheKey text +:+ String.substring 10 22 (md5hex text)
    /\ String.length (cacheKey text) = 10%nat
    /\ (forall c, In c (list_ascii_of_string (cacheKey text)) ->
                  isHexDigit c = true)
    /\ (forall s, Voice.cacheKeyOf (JString text) s = (Ret (cacheKey text), s))
    /\ (forall env, Voice.cachePathOf env text
                    = pathJoin env (Voice.CACHE_DIR env)
                               (tpl [cacheKey text; ".mp3"]))
    /\ md5hex "" = "d41d8cd98f00b204e9800998ecf8427e"
    /\ md5hex "abc" = "900150983cd24fb0d6963f7d28e17f72"
    /\ md5hex "message digest" = "f96b697d7cb7938d525a2f31aaf161d0"
    /\ cacheKey "Done!" = "d3de52109c"
    /\ cacheKey "Sorry, there was an error with that command." = "8c9bd46b2e".
Proof.
  intros text.
  split; [reflexivity |].
  split; [apply length_md5hex |].
  split.
  { unfold cacheKey.
    pose proof (substring0_split (md5hex text) 10) as Hsplit.
    rewrite length_md5hex in Hsplit. apply Hsplit. lia. }
  split.
  { unfold cacheKey. apply length_substring0. rewrite length_md5hex. lia. }
  split.
  { unfold cacheKey, md5hex.
    intros c H. apply In_substring0 in H. now apply hex_digits in H. }
  split; [reflexivity |].
  split; [reflexivity |].
  repeat split; vm_compute; reflexivity.
Qed.

Example cacheKey_done : cacheKey "Done!" = "d3de52109c".
Proof. vm_compute. reflexivity. Qed.

Lemma cacheKey_fixed_length_hex_witness :
  md5hex "Goodbye!" = cacheKey "Goodbye!" +:+ "68921e89d5d88b202e6ff0"
  /\ cacheKey "Goodbye!" = "1f3f6dc2b2"
  /\ String.length (cacheKey "Goodbye!") = 10%nat
  /\ isHexDigit "f" = true.
Proof.
  pose proof (cacheKey_fixed_length_hex "Goodbye!")
    as (_ & _ & Hprefix & Hlen & Hhex & _).
  split; [| split; [| split]].
  - etransitivity; [exact Hprefix | f_equal; vm_compute; reflexivity].
  - vm_compute. reflexivity.
  - exact Hlen.
  - apply Hhex. vm_compute. right. left. reflexivity.
Defined.

(** ** Running monadic programs *)

Ltac run :=
  repeat (progress
            (unfold bind, ret, throw, log, emit, history, tryCatch, existsSync;
             cbn beta iota zeta; cbn [fs stdin trace fst snd negb])).

Ltac tidy := rewrite <- ?app_assoc; cbn [app].

(** ** Opening a folder *)

(** C8. [openFolder] tests the path before anything else. When the path
    does not exist it prints the Folder not found line, returns false and
    spawns nothing. When the path exists it spawns the open command of the
    platform (explorer, open or xdg-open); on exit status 0 it prints
    Opened folder with the path and returns true, otherwise it prints the
    error and returns false. The three folder phrases of both scripts run
    this function. *)
Theorem openFolder_checks_existence :
  forall env folderPath s,
    (fs s !! folderPath = None ->
     openFolder env folderPath s
     = (Ret false,
        mkState (fs s) (stdin s)
          (trace s ++ [Log (tpl ["❌ Folder not found: "; utf8 folderPath])])))
    /\ (forall node, fs s !! folderPath = Some node ->
        exists command,
          (platform env = "win32" ->
           command = tpl ["explorer "; dq; folderPath; dq])
          /\ (platform env <> "win32" -> platform env = "darwin" ->
              command = tpl ["open "; dq; folderPath; dq])
          /\ (platform env <> "win32" -> platform env <> "darwin" ->
              command = tpl ["xdg-open "; dq; folderPath; dq])
          /\ (execError env (trace s) command = None ->
              openFolder env folderPath s
              = (Ret true,
                 mkState (fs s) (stdin s)
                   (trace s ++
                      [Exec command;
                       Log (tpl ["✅ ";
                                 utf8 (tpl ["Opened folder: "; folderPath])])])))
          /\ (forall message,
                execError env (trace s) command = Some message ->
                openFolder env folderPath s
                = (Ret false,
                   mkState (fs s) (stdin s)
                     (trace s ++
                        [Exec command;
                         Log (tpl ["❌ Error: "; utf8 message])]))))
    /\ (forall e, In e (TextOnly.VOICE_COMMANDS env) ->
          (fst e = "open downloads" ->
           TextOnly.execute (snd e) = openFolder env (getDownloadsPath env))
          /\ (fst e = "open documents" ->
              TextOnly.execute (snd e) = openFolder env (getDocumentsPath env))
          /\ (fst e = "open desktop" ->
              TextOnly.execute (snd e) = openFolder env (getDesktopPath env)))
    /\ (forall e, In e (Voice.VOICE_COMMANDS env) ->
          (fst e = "open downloads" ->
           Voice.execute (snd e) = openFolder env (getDownloadsPath env))
          /\ (fst e = "open documents" ->
              Voice.execute (snd e) = openFolder env (getDocumentsPath env))
          /\ (fst e = "open desktop" ->
              Voice.execute (snd e) = openFolder env (getDesktopPath env))).
Proof.
  intros env folderPath s. split; [| split; [| split]].
  - intros Hnone. unfold openFolder. run. rewrite Hnone. run. reflexivity.
  - intros node Hnode.
    exists (if isWindows env then tpl ["explorer "; dq; folderPath; dq]
            else if isMac env then tpl ["open "; dq; folderPath; dq]
            else tpl ["xdg-open "; dq; folderPath; dq]).
    unfold isWindows, isMac, getPlatform.
    split; [| split; [| split; [| split]]].
    + intros ->. reflexivity.
    + intros Hw ->. destruct (String.eqb_spec "darwin" "win32"); [discriminate |].
      reflexivity.
    + intros Hw Hm.
      destruct (String.eqb_spec (platform env) "win32"); [contradiction |].
      destruct (String.eqb_spec (platform env) "darwin"); [contradiction |].
      reflexivity.
    + intros Hok.
      unfold openFolder, executeCommand, exec, isWindows, isMac, getPlatform.
      run. rewrite Hnode. run. rewrite Hok. run. tidy. reflexivity.
    + intros message Herr.
      unfold openFolder, executeCommand, exec, isWindows, isMac, getPlatform.
      run. rewrite Hnode. run. rewrite Herr. run. tidy. reflexivity.
  - intros e He. unfold TextOnly.VOICE_COMMANDS in He. simpl in He.
    repeat (destruct He as [<- | He];
            [repeat split; intros H; try discriminate H; reflexivity |]).
    contradiction.
  - intros e He. unfold Voice.VOICE_COMMANDS in He. simpl in He.
    repeat (destruct He as [<- | He];
            [repeat split; intros H; try discriminate H; reflexivity |]).
    contradiction.
Qed.

Lemma openFolder_checks_existence_witness :
  openFolder sampleEnv "/home/alec/Downloads" emptyState
  = (Ret false,
     mkState ∅ [] [Log "❌ Folder not found: /home/alec/Downloads"])
  /\ openFolder sampleEnv "/home/alec/Downloads"
       (mkState {[ "/home/alec/Downloads" := Dir ]} [] [])
     = (Ret true,
        mkState {[ "/home/alec/Downloads" := Dir ]} [] 
          [Exec (tpl ["xdg-open "; dq; "/home/alec/Downloads"; dq]);
           Log "✅ Opened folder: /home/alec/Downloads"]).
Proof.
  split.
  - destruct (openFolder_checks_existence sampleEnv "/home/alec/Downloads"
                emptyState) as [Hmissing _].
    apply Hmissing. reflexivity.
  - destruct (openFolder_checks_existence sampleEnv "/home/alec/Downloads"
                (mkState {[ "/home/alec/Downloads" := Dir ]} [] []))
      as (_ & Hpresent & _).
    destruct (Hpresent Dir) as (command & _ & _ & Hlinux & Hok & _).
    + vm_compute. reflexivity.
    + rewrite Hlinux in Hok by (simpl; discriminate).
      apply Hok. reflexivity.
Defined.

(** ** Speaking a response *)

(** C6. With voice output enabled and no usable credential (the key is
    absent, or is the placeholder), [speakResponse] prints the literal text
    and the setup hint and returns: no request is sent, nothing is spawned,
    and the file system is left as it was. *)
Theorem speakResponse_without_credential :
  forall env text config s,
    Voice.isFalse (voiceEnabled config) = false ->
    elevenLabsApiKey config = None
    \/ elevenLabsApiKey config = Some Voice.PLACEHOLDER_KEY ->
    Voice.speakResponse env (JString text) config s
    = (Ret tt,
       mkState (fs s) (stdin s)
         (trace s ++
            [Log (tpl ["💬 "; dq; utf8 text; dq]);
             Log "ℹ️  Add ElevenLabs API key for voice responses: voice-cli --setup"])).
Proof.
  intros env text config s Hon Hkey.
  unfold Voice.speakResponse. rewrite Hon.
  assert (Hunusable : Voice.usableKey (elevenLabsApiKey config) = None)
    by (destruct Hkey as [-> | ->]; reflexivity).
  rewrite Hunusable. run. tidy. reflexivity.
Qed.

Lemma speakResponse_without_credential_witness :
  Voice.speakResponse sampleEnv (JString "Done!")
    (mkConfig (JBool true) (Some "your-api-key-here") None) emptyState
  = (Ret tt,
     mkState ∅ []
       [Log (tpl ["💬 "; dq; "Done!"; dq]);
        Log "ℹ️  Add ElevenLabs API key for voice responses: voice-cli --setup"]).
Proof.
  apply (speakResponse_without_credential sampleEnv "Done!"
           (mkConfig (JBool true) (Some "your-api-key-here") None) emptyState).
  - reflexivity.
  - right. reflexivity.
Defined.

Lemma insert_dir_files (m : gmap string Node) dir p d :
  m !! dir = None ->
  (<[dir := Dir]> m !! p = Some (File d) <-> m !! p = Some (File d)).
Proof.
  intros Hdir. destruct (decide (dir = p)) as [<- | Hne].
  - rewrite lookup_insert_eq, Hdir. split; discriminate.
  - now rewrite lookup_insert_ne.
Qed.

Lemma playCommand_platform env filePath :
  playsFile env filePath (Voice.playCommand env filePath).
Proof.
  unfold playsFile, Voice.playCommand, isMac, isWindows, getPlatform.
  destruct (String.eqb_spec (platform env) "darwin") as [Emac | Emac].
  - split; [reflexivity |]. split; [| contradiction].
    intros E. rewrite E in Emac. discriminate Emac.
  - destruct (String.eqb_spec (platform env) "win32") as [Ewin | Ewin].
    + split; [contradiction |]. split; [reflexivity | contradiction].
    + split; [contradiction |]. split; [contradiction | reflexivity].
Qed.

Lemma playAudio_spec env filePath s :
  exists tail,
    (tail = [] \/ tail = [Log "🔇 Audio playback not available on this system"])
    /\ Voice.playAudio env filePath s
       = (Ret tt,
          mkState (fs s) (stdin s)
            (trace s ++ Exec (Voice.playCommand env filePath) :: tail)).
Proof.
  unfold Voice.playAudio, exec. run.
  destruct (execError env (trace s) (Voice.playCommand env filePath)); run.
  - eexists. split; [right; reflexivity |]. now tidy.
  - eexists. split; [left; reflexivity |]. reflexivity.
Qed.

(** The run of [speakResponse] for a text that is cached, with voice
    enabled and a usable key. *)
Lemma speakResponse_hit env text config s key dirNode node :
  Voice.isFalse (voiceEnabled config) = false ->
  Voice.usableKey (elevenLabsApiKey config) = Some key ->
  fs s !! Voice.CACHE_DIR env = Some dirNode ->
  fs s !! Voice.cachePathOf env text = Some node ->
  exists tail,
    (tail = [] \/ tail = [Log "🔇 Audio playback not available on this system"])
    /\ Voice.speakResponse env (JString text) config s
       = (Ret tt,
          mkState (fs s) (stdin s)
            (trace s ++
               [Log (tpl ["🗣️  "; dq; utf8 text; dq]);
                Log "🎧 Playing cached response...";
                Exec (Voice.playCommand env (Voice.cachePathOf env text))]
               ++ tail)).
Proof.
  intros Hon Hkey Hdir Hcached.
  unfold Voice.speakResponse. rewrite Hon, Hkey.
  unfold Voice.cachePathOf in *. unfold Voice.cacheKeyOf. run.
  rewrite Hdir. run. rewrite Hcached. run.
  match goal with
  | |- context [Voice.playAudio ?e ?p ?st] =>
      destruct (playAudio_spec e p st) as (tail & Htail & Hplay)
  end.
  rewrite Hplay. cbn [fs stdin trace]. exists tail. split; [exact Htail |].
  rewrite <- !app_assoc. reflexivity.
Qed.

(** C3. When the cache file of a text already exists in the cache
    directory, [speakResponse] returns without sending any request and
    without writing anything: the file system is exactly as before. The
    only command it can spawn is the player of the platform on that very
    file. With voice enabled and a usable key it prints the text and the
    Playing cached response line and then spawns that command, exactly
    once. *)
Theorem speakResponse_cached :
  forall env text config s node,
    fs s !! Voice.CACHE_DIR env = Some Dir ->
    fs s !! Voice.cachePathOf env text = Some node ->
    exists command events,
      playsFile env (Voice.cachePathOf env text) command
      /\ Voice.speakResponse env (JString text) config s
         = (Ret tt, mkState (fs s) (stdin s) (trace s ++ events))
      /\ requests events = []
      /\ written events = []
      /\ (forall c, In c (spawned events) -> c = command)
      /\ (Voice.isFalse (voiceEnabled config) = false ->
          forall key, Voice.usableKey (elevenLabsApiKey config) = Some key ->
          exists tail,
            (tail = []
             \/ tail = [Log "🔇 Audio playback not available on this system"])
            /\ events
               = [Log (tpl ["🗣️  "; dq; utf8 text; dq]);
                  Log "🎧 Playing cached response...";
                  Exec command] ++ tail).
Proof.
  intros env text config s node Hdir Hcached.
  exists (Voice.playCommand env (Voice.cachePathOf env text)).
  destruct (Voice.isFalse (voiceEnabled config)) eqn:Hoff.
  { eexists. split; [apply playCommand_platform |].
    unfold Voice.speakResponse. rewrite Hoff. run.
    split; [reflexivity |]. split; [reflexivity |]. split; [reflexivity |].
    split; [intros c [] | discriminate]. }
  destruct (Voice.usableKey (elevenLabsApiKey config)) as [key |] eqn:Hkey.
  2:{ eexists. split; [apply playCommand_platform |].
      unfold Voice.speakResponse. rewrite Hoff, Hkey. run. tidy.
      split; [reflexivity |]. split; [reflexivity |]. split; [reflexivity |].
      split; [intros c [] | intros _ key' H; discriminate H]. }
  destruct (speakResponse_hit env text config s key Dir node
              Hoff Hkey Hdir Hcached) as (tail & Htail & Hrun).
  eexists. split; [apply playCommand_platform |].
  split; [exact Hrun |].
  split; [destruct Htail as [-> | ->]; reflexivity |].
  split; [destruct Htail as [-> | ->]; reflexivity |].
  split.
  - intros c Hc. destruct Htail as [-> | ->]; destruct Hc as [<- | []];
      reflexivity.
  - intros _ key' _. exists tail. split; [exact Htail | reflexivity].
Qed.

Lemma cachePath_done :
  Voice.cachePathOf sampleEnv "Done!"
  = "/home/alec/.voice-cli-cache/d3de52109c.mp3".
Proof. vm_compute. reflexivity. Qed.

Lemma speakResponse_cached_witness :
  exists tail,
    (tail = [] \/ tail = [Log "🔇 Audio playback not available on this system"])
    /\ Voice.speakResponse sampleEnv (JString "Done!")
         (mkConfig (JBool true) (Some "sk-test") None)
         (mkState (<[ "/home/alec/.voice-cli-cache/d3de52109c.mp3"
                      := File "OLD" ]>
                     {[ "/home/alec/.voice-cli-cache" := Dir ]})
                  [] [])
       = (Ret tt,
          mkState (<[ "/home/alec/.voice-cli-cache/d3de52109c.mp3"
                      := File "OLD" ]>
                     {[ "/home/alec/.voice-cli-cache" := Dir ]})
                  []
                  ([] ++
                     [Log (tpl ["🗣️  "; dq; "Done!"; dq]);
                      Log "🎧 Playing cached response...";
                      Exec (tpl ["which mpg123 > /dev/null 2>&1 && mpg123 -q ";
                                 dq; "/home/alec/.voice-cli-cache/d3de52109c.mp3";
                                 dq;
                                 " || which aplay > /dev/null 2>&1 && aplay ";
                                 dq; "/home/alec/.voice-cli-cache/d3de52109c.mp3";
                                 dq;
                                 " || which paplay > /dev/null 2>&1 && paplay ";
                                 dq; "/home/alec/.voice-cli-cache/d3de52109c.mp3";
                                 dq])]
                     ++ tail)).
Proof.
  destruct (speakResponse_cached sampleEnv "Done!"
              (mkConfig (JBool true) (Some "sk-test") None)
              (mkState (<[ "/home/alec/.voice-cli-cache/d3de52109c.mp3"
                           := File "OLD" ]>
                          {[ "/home/alec/.voice-cli-cache" := Dir ]})
                       [] [])
              (File "OLD"))
    as (command & events & (_ & _ & Hlinux) & Hrun & _ & _ & _ & Hplay).
  - vm_compute. reflexivity.
  - vm_compute. reflexivity.
  - destruct (Hplay eq_refl "sk-test" eq_refl) as (tail & Htail & Hevents).
    exists tail. split; [exact Htail |].
    rewrite Hrun, Hevents, Hlinux, cachePath_done;
      [reflexivity | discriminate | discriminate].
Defined.

(** The run of [speakResponse] for a text that is not cached yet, with
    voice enabled and a usable key, up to the answer of the endpoint. *)
Lemma speakResponse_miss env text config s key :
  Voice.isFalse (voiceEnabled config) = false ->
  Voice.usableKey (elevenLabsApiKey config) = Some key ->
  fs s !! Voice.cachePathOf env text = None ->
  Voice.cachePathOf env text <> Voice.CACHE_DIR env ->
  let request :=
    Voice.elevenLabsRequest text key
      (Voice.orElse (voiceId config) Voice.DEFAULT_VOICE_ID) in
  let sent :=
    mkState (directoryFs env s) (stdin s)
            (trace s ++ beforeRequest env text s ++ [HttpsRequest request]) in
  Voice.speakResponse env (JString text) config s
  = match httpsRequest env (trace s ++ beforeRequest env text s) request with
    | Response statusCode body =>
        if (statusCode =? 200)%N then
          match fs s !! Voice.CACHE_DIR env with
          | Some (File _) =>
              (Ret tt,
               mkState (fs s) (stdin s)
                 (trace sent ++
                    [Log (tpl ["❌ Voice response error: ";
                               utf8 (tpl ["ENOTDIR: not a directory, open '";
                                          Voice.cachePathOf env text; "'"])]);
                     Log (tpl ["💬 "; dq; utf8 text; dq])]))
          | _ =>
              Voice.playAudio env (Voice.cachePathOf env text)
                (mkState (<[Voice.cachePathOf env text := File body]>
                            (directoryFs env s))
                         (stdin s)
                         (trace sent
                            ++ [WriteFileSync (Voice.cachePathOf env text)
                                              body]))
          end
        else
          (Ret tt,
           mkState (directoryFs env s) (stdin s)
             (trace sent ++
                [Log (tpl ["❌ Voice response error: ";
                           utf8 (tpl ["ElevenLabs API error: ";
                                      decimal statusCode])]);
                 Log (tpl ["💬 "; dq; utf8 text; dq])]))
    | RequestError message =>
        (Ret tt,
         mkState (directoryFs env s) (stdin s)
           (trace sent ++
              [Log (tpl ["❌ Voice response error: "; utf8 message]);
               Log (tpl ["💬 "; dq; utf8 text; dq])]))
    end.
Proof.
  intros Hon Hkey Hmiss Hne request sent. subst request sent.
  unfold Voice.speakResponse. rewrite Hon, Hkey.
  unfold Voice.cachePathOf in *.
  unfold Voice.cacheKeyOf, Voice.getElevenLabsAudio, mkdirSync, writeFileSync,
    holder, beforeRequest, directoryFs, directoryEvents.
  run.
  destruct (fs s !! Voice.CACHE_DIR env) as [dirNode |] eqn:Hdir; run.
  - rewrite Hmiss. run. tidy.
    destruct (httpsRequest env _ _) as [statusCode body | message]; run.
    + destruct (statusCode =? 200)%N; run.
      * rewrite Hdir. destruct dirNode as [d |]; run.
        { tidy. reflexivity. }
        rewrite Hmiss. tidy. cbn [show].
        match goal with
        | |- context [Voice.playAudio ?e ?p ?st] =>
            destruct (playAudio_spec e p st) as (tail & _ & Hplay)
        end.
        rewrite Hplay. reflexivity.
      * tidy. reflexivity.
    + tidy. reflexivity.
  - rewrite Hdir. run.
    rewrite lookup_insert_ne by congruence. rewrite Hmiss. run. tidy.
    destruct (httpsRequest env _ _) as [statusCode body | message]; run.
    + destruct (statusCode =? 200)%N; run.
      * rewrite lookup_insert_eq. run.
        rewrite lookup_insert_ne by congruence. rewrite Hmiss. tidy.
        cbn [show].
        match goal with
        | |- context [Voice.playAudio ?e ?p ?st] =>
            destruct (playAudio_spec e p st) as (tail & _ & Hplay)
        end.
        rewrite Hplay. reflexivity.
      * tidy. reflexivity.
    + tidy. reflexivity.
Qed.

Lemma beforeRequest_quiet env text s :
  requests (beforeRequest env text s) = []
  /\ written (beforeRequest env text s) = []
  /\ spawned (beforeRequest env text s) = [].
Proof.
  unfold beforeRequest, directoryEvents.
  destruct (fs s !! Voice.CACHE_DIR env); repeat split.
Qed.

Lemma directoryFs_files env s p d :
  directoryFs env s !! p = Some (File d) <-> fs s !! p = Some (File d).
Proof.
  unfold directoryFs.
  destruct (fs s !! Voice.CACHE_DIR env) eqn:Hdir; [tauto |].
  now apply insert_dir_files.
Qed.

Lemma directoryFs_miss env s p :
  fs s !! p = None -> p <> Voice.CACHE_DIR env -> directoryFs env s !! p = None.
Proof.
  intros Hmiss Hne. unfold directoryFs.
  destruct (fs s !! Voice.CACHE_DIR env); [assumption |].
  rewrite lookup_insert_ne; [assumption | congruence].
Qed.

Lemma directoryFs_dir env s :
  (forall data, fs s !! Voice.CACHE_DIR env <> Some (File data)) ->
  directoryFs env s !! Voice.CACHE_DIR env = Some Dir.
Proof.
  intros Hdir. unfold directoryFs.
  destruct (fs s !! Voice.CACHE_DIR env) as [[data |] |] eqn:E.
  - now destruct (Hdir data).
  - exact E.
  - apply lookup_insert_eq.
Qed.


(** C5. For a text that has no cache file yet, with voice enabled and a
    usable key, when the endpoint answers with a status code other than
    200, [speakResponse] returns normally, prints the error and then the
    literal text as fallback, writes nothing and spawns nothing: no file
    appears or changes, in particular the cache file of the text is still
    absent. (Same assumption on [path.join] as above.) *)
Theorem speakResponse_api_error :
  forall env text config s key statusCode body,
    Voice.isFalse (voiceEnabled config) = false ->
    Voice.usableKey (elevenLabsApiKey config) = Some key ->
    fs s !! Voice.cachePathOf env text = None ->
    Voice.cachePathOf env text <> Voice.CACHE_DIR env ->
    httpsRequest env (trace s ++ beforeRequest env text s)
      (Voice.elevenLabsRequest text key
         (Voice.orElse (voiceId config) Voice.DEFAULT_VOICE_ID))
    = Response statusCode body ->
    statusCode <> 200%N ->
    exists fs',
      Voice.speakResponse env (JString text) config s
      = (Ret tt,
         mkState fs' (stdin s)
           (trace s ++ beforeRequest env text s ++
              [HttpsRequest
                 (Voice.elevenLabsRequest text key
                    (Voice.orElse (voiceId config) Voice.DEFAULT_VOICE_ID));
               Log (tpl ["❌ Voice response error: ";
                         utf8 (tpl ["ElevenLabs API error: ";
                                    decimal statusCode])]);
               Log (tpl ["💬 "; dq; utf8 text; dq])]))
      /\ fs' !! Voice.cachePathOf env text = None
      /\ (forall p d, fs' !! p = Some (File d) <-> fs s !! p = Some (File d))
      /\ requests (beforeRequest env text s) = []
      /\ written (beforeRequest env text s) = []
      /\ spawned (beforeRequest env text s) = [].
Proof.
  intros env text config s key statusCode body Hon Hkey Hmiss Hne Hanswer Hstatus.
  rewrite (speakResponse_miss env text config s key Hon Hkey Hmiss Hne).
  cbv zeta. rewrite Hanswer.
  destruct (N.eqb_spec statusCode 200) as [E | _]; [contradiction |].
  cbn [fs stdin trace].
  exists (directoryFs env s).
  split; [| split; [| split]].
  - f_equal. f_equal. rewrite <- !app_assoc. reflexivity.
  - now apply directoryFs_miss.
  - intros p d. apply directoryFs_files.
  - apply beforeRequest_quiet.
Qed.


Lemma speakResponse_api_error_witness :
  exists fs',
    Voice.speakResponse (sampleEnvWith (Response 401 "Unauthorized"))
      (JString "Done!") (mkConfig (JBool true) (Some "sk-test") None) emptyState
    = (Ret tt,
       mkState fs' []
         ([] ++ beforeRequest (sampleEnvWith (Response 401 "Unauthorized"))
                  "Done!" emptyState ++
            [HttpsRequest
               (Voice.elevenLabsRequest "Done!" "sk-test"
                  Voice.DEFAULT_VOICE_ID);
             Log "❌ Voice response error: ElevenLabs API error: 401";
             Log (tpl ["💬 "; dq; "Done!"; dq])]))
    /\ fs' !! "/home/alec/.voice-cli-cache/d3de52109c.mp3" = None.
Proof.
  destruct (speakResponse_api_error (sampleEnvWith (Response 401 "Unauthorized"))
              "Done!" (mkConfig (JBool true) (Some "sk-test") None) emptyState
              "sk-test" 401%N "Unauthorized")
    as (fs' & Hrun & Hfile & _).
  - reflexivity.
  - reflexivity.
  - vm_compute. reflexivity.
  - intros E. vm_compute in E. discriminate E.
  - reflexivity.
  - discriminate.
  - exists fs'. split; assumption.
Defined.

Lemma speakResponse_returns env text config s :
  fst (Voice.speakResponse env text config s) = Ret tt.
Proof.
  unfold Voice.speakResponse, tryCatch.
  match goal with
  | |- context [let (_, _) := ?body s in _] => destruct (body s) as [[[] | e] s']
  end; reflexivity.
Qed.

(** ** Unknown commands *)

Lemma forEach_log {A} (l : list A) (f : A -> M unit) (line : A -> string) :
  (forall x, f x = log (line x)) ->
  forall s,
    forEach l f s
    = (Ret tt,
       mkState (fs s) (stdin s) (trace s ++ map (fun x => Log (line x)) l)).
Proof.
  intros Hf. induction l as [| x l IH]; intros s; cbn [forEach map].
  - unfold ret. rewrite app_nil_r. now destruct s.
  - unfold bind. rewrite Hf. unfold log at 1, emit.
    rewrite IH. cbn [fs stdin trace]. now rewrite <- app_assoc.
Qed.

Lemma showAvailableCommands_TextOnly env s :
  TextOnly.showAvailableCommands env s
  = (Ret tt,
     mkState (fs s) (stdin s)
       (trace s ++
          Log (tpl [nl; "🎙️  Available Voice Commands:"; nl])
          :: listingTextOnly env
          ++ [Log (tpl [nl; "💡 Tip: Commands are case-insensitive"])])).
Proof.
  unfold TextOnly.showAvailableCommands, listingTextOnly.
  unfold bind at 1. unfold log at 1, emit. unfold bind at 1.
  rewrite (forEach_log _ _
             (fun x => tpl ["   "; dq; utf8 (fst x); dq; " - ";
                            utf8 (TextOnly.description (snd x))]))
    by (intros [command info]; reflexivity).
  unfold log, emit. cbn [fs stdin trace].
  rewrite <- !app_assoc. cbn [app].
  reflexivity.
Qed.

Lemma showAvailableCommands_Voice env s :
  Voice.showAvailableCommands env s
  = (Ret tt,
     mkState (fs s) (stdin s)
       (trace s ++
          Log (tpl [bs; "n"; "🎙️  Available Voice Commands:"; bs; "n"])
          :: listingVoice env
          ++ [Log (tpl [bs; "n"; "💡 Tip: Commands are case-insensitive"])])).
Proof.
  unfold Voice.showAvailableCommands, listingVoice.
  unfold bind at 1. unfold log at 1, emit. unfold bind at 1.
  rewrite (forEach_log _ _
             (fun x => tpl ["   "; dq; utf8 (fst x); dq; " - ";
                            utf8 (Voice.description (snd x))]))
    by (intros [command info]; reflexivity).
  unfold log, emit. cbn [fs stdin trace].
  rewrite <- !app_assoc. cbn [app].
  reflexivity.
Qed.

(** The miss branch, for an input whose normal form is neither a registered
    phrase nor the name of a property of [Object.prototype]: the input is
    reported as unknown, the whole registry is listed, false is returned and
    no entry is run. *)
Lemma unknown_command_reported env commandText :
  getProperty (TextOnly.VOICE_COMMANDS env) (trim (toLowerCase commandText))
  = Undefined ->
  (forall s,
      TextOnly.executeVoiceCommand env commandText s
      = (Ret false,
         mkState (fs s) (stdin s)
           (trace s ++
              [Log (voiceCommandLine commandText);
               Log (tpl ["❓ Unknown command: "; dq; utf8 commandText; dq]);
               Log "💡 Try one of these commands:";
               Log (tpl [nl; "🎙️  Available Voice Commands:"; nl])]
              ++ listingTextOnly env
              ++ [Log (tpl [nl; "💡 Tip: Commands are case-insensitive"])])))
  /\ (forall config,
         Voice.executeVoiceCommand env commandText config
         = (log (voiceCommandLine commandText) ;;
            log (tpl ["❓ Unknown command: "; dq; utf8 commandText; dq]) ;;
            Voice.speakResponse env
              (JString "I didn't understand that command. Try asking for help.")
              config ;;
            log "💡 Try one of these commands:" ;;
            Voice.showAvailableCommands env ;;
            ret false)).
Proof.
  intros Hmiss.
  assert (Hmiss' : getProperty (Voice.VOICE_COMMANDS env)
                     (trim (toLowerCase commandText)) = Undefined).
  { revert Hmiss. unfold getProperty.
    generalize (trim (toLowerCase commandText)). intros key.
    unfold TextOnly.VOICE_COMMANDS, Voice.VOICE_COMMANDS. cbn [ownProperty].
    do 11 (destruct (String.eqb _ key); [discriminate |]).
    destruct (existsb (String.eqb key) objectPrototypeKeys);
      [discriminate | reflexivity]. }
  split.
  - intros s. unfold TextOnly.executeVoiceCommand. rewrite Hmiss.
    unfold voiceCommandLine. run.
    rewrite showAvailableCommands_TextOnly. run. tidy. reflexivity.
  - intros config. unfold Voice.executeVoiceCommand. rewrite Hmiss'.
    reflexivity.
Qed.

(** C2, at the input [constructor]. Its normal form matches no registered
    phrase, yet the lookup finds the property that every object inherits
    from [Object.prototype]: the dispatcher prints an entry description of
    undefined, prints neither the unknown line nor the registry, and ends
    with a TypeError instead of returning false; the process exits with
    code 1. *)
Theorem inherited_key_not_reported_unknown :
  forall env config s,
    ownProperty (TextOnly.VOICE_COMMANDS env)
                (trim (toLowerCase "constructor")) = None
    /\ ownProperty (Voice.VOICE_COMMANDS env)
                   (trim (toLowerCase "constructor")) = None
    /\ TextOnly.executeVoiceCommand env "constructor" s
       = (Throw "command.execute is not a function",
          mkState (fs s) (stdin s)
            (trace s ++
               [Log (voiceCommandLine "constructor"); Log "📋 undefined"]))
    /\ TextOnly.cli env ["constructor"] s
       = (1%nat,
          mkState (fs s) (stdin s)
            (trace s ++
               [Log (voiceCommandLine "constructor"); Log "📋 undefined";
                Log "❌ Error: command.execute is not a function"]))
    /\ fst (Voice.executeVoiceCommand env "constructor" config s)
       = Throw "command.execute is not a function"
    /\ Voice.executeVoiceCommand env "constructor" Voice.defaultConfig s
       = (Throw "command.execute is not a function",
          mkState (fs s) (stdin s)
            (trace s ++
               [Log (voiceCommandLine "constructor"); Log "📋 undefined";
                Log (tpl ["🔇 Voice disabled: "; dq; "undefined"; dq])])).
Proof.
  intros env config s.
  split; [reflexivity |]. split; [reflexivity |].
  assert (Htext :
    TextOnly.executeVoiceCommand env "constructor" s
    = (Throw "command.execute is not a function",
       mkState (fs s) (stdin s)
         (trace s ++
            [Log (voiceCommandLine "constructor"); Log "📋 undefined"]))).
  { unfold TextOnly.executeVoiceCommand.
    change (getProperty (TextOnly.VOICE_COMMANDS env)
              (trim (toLowerCase "constructor")))
      with (@Inherited TextOnly.CommandEntry "constructor").
    run. tidy. reflexivity. }
  split; [exact Htext |]. split; [| split].
  - unfold TextOnly.cli, TextOnly.main.
    change (TextOnly.isOneOf ["--help"; "-h"] "constructor") with false.
    change (TextOnly.isOneOf ["--setup"] "constructor") with false.
    change (TextOnly.isOneOf ["--list"; "--commands"] "constructor") with false.
    change (TextOnly.isOneOf ["--version"; "-v"] "constructor") with false.
    cbn iota. change (join " " ["constructor"]) with "constructor".
    unfold bind at 1. rewrite Htext. run. tidy. reflexivity.
  - unfold Voice.executeVoiceCommand.
    change (getProperty (Voice.VOICE_COMMANDS env)
              (trim (toLowerCase "constructor")))
      with (@Inherited Voice.CommandEntry "constructor").
    unfold bind at 1. unfold log at 1, emit. cbn beta iota.
    unfold bind at 1. unfold log at 1, emit. cbn beta iota.
    unfold bind at 1.
    match goal with
    | |- context [Voice.speakResponse ?e ?t ?c ?st] =>
        pose proof (speakResponse_returns e t c st) as Hret;
        destruct (Voice.speakResponse e t c st) as [o st']
    end.
    cbn [fst] in Hret. subst o. reflexivity.
  - unfold Voice.executeVoiceCommand.
    change (getProperty (Voice.VOICE_COMMANDS env)
              (trim (toLowerCase "constructor")))
      with (@Inherited Voice.CommandEntry "constructor").
    unfold Voice.speakResponse.
    cbn [Voice.isFalse voiceEnabled Voice.defaultConfig show].
    run. tidy. reflexivity.
Qed.

(** ** The version flag *)

Lemma loadConfig_Voice env s :
  exists config,
    Voice.loadConfig env s
    = (Ret config,
       mkState (fs s) (stdin s) (trace s ++ configWarning env s)).
Proof.
  unfold Voice.loadConfig, configWarning, readFileSync. run.
  destruct (fs s !! CONFIG_FILE env) as [[data |] |] eqn:Hfile; run;
    rewrite ?Hfile; run.
  - destruct (JSON_parse env data) as [message | config]; run.
    + eexists. reflexivity.
    + eexists. rewrite app_nil_r. now destruct s.
  - eexists. reflexivity.
  - eexists. rewrite app_nil_r. now destruct s.
Qed.

(** C9, as the code has it. With --version or -v as first argument, whatever
    follows, no command is dispatched, no setup runs, nothing is spawned or
    requested and no file changes. The text-only script prints the version
    line and nothing else. The voice script loads the configuration first:
    it prints the version line, preceded by one Could not load config
    warning exactly when the configuration file exists and cannot be read
    as JSON. *)
Theorem version_flag :
  forall env arg rest s,
    arg = "--version" \/ arg = "-v" ->
    TextOnly.main env (arg :: rest) s
    = (Ret tt,
       mkState (fs s) (stdin s) (trace s ++ [Log "Voice CLI v1.0.0"]))
    /\ Voice.main env (arg :: rest) s
       = (Ret tt,
          mkState (fs s) (stdin s)
            (trace s ++ configWarning env s ++ [Log "Voice CLI v1.0.1"]))
    /\ (fs s !! CONFIG_FILE env = None -> configWarning env s = [])
    /\ (forall data config,
          fs s !! CONFIG_FILE env = Some (File data) ->
          JSON_parse env data = inr config -> configWarning env s = []).
Proof.
  intros env arg rest s Harg. split; [| split; [| split]].
  - destruct Harg as [-> | ->]; reflexivity.
  - unfold Voice.main. unfold bind at 1.
    destruct (loadConfig_Voice env s) as [config ->].
    destruct Harg as [-> | ->]; cbn; unfold log, emit; cbn;
      now rewrite <- app_assoc.
  - unfold configWarning. now intros ->.
  - unfold configWarning. now intros data config -> ->.
Qed.

Lemma version_flag_witness :
  TextOnly.main sampleEnv ["--version"] emptyState
  = (Ret tt, mkState ∅ [] [Log "Voice CLI v1.0.0"])
  /\ Voice.main sampleEnv ["-v"; "open browser"] emptyState
     = (Ret tt, mkState ∅ [] [Log "Voice CLI v1.0.1"]).
Proof.
  split.
  - exact (proj1 (version_flag sampleEnv "--version" [] emptyState
                    (or_introl eq_refl))).
  - exact (proj1 (proj2 (version_flag sampleEnv "-v" ["open browser"]
                           emptyState (or_intror eq_refl)))).
Defined.

(** C9 as stated fails for the voice script: with an empty configuration
    file, --version prints a warning line before the version line. *)
Lemma version_flag_prints_warning :
  printed (trace (snd (Voice.main sampleEnv ["--version"] emptyConfigFileState)))
  = [ "⚠️  Could not load config: Unexpected end of JSON input";
      "Voice CLI v1.0.1" ]
  /\ printed (trace (snd (Voice.main sampleEnv ["--version"]
                            emptyConfigFileState)))
     <> [ "Voice CLI v1.0.1" ].
Proof.
  split.
  - vm_compute. reflexivity.
  - vm_compute. discriminate.
Qed.

(** ** The time entry *)

(** C10. The spoken confirmation of the time entry is the clock read when
    the registry was built, before any event: every dispatch of the phrase
    hands that same string to [speakResponse], whatever the state in which
    it runs, while the action [showTime] prints the clock read at the
    moment it is invoked. *)
Theorem time_response_fixed_at_startup :
  forall env config,
    ownProperty (Voice.VOICE_COMMANDS env) "what time is it"
    = Some (Voice.mkEntry "Shows current time"
              (tpl ["It's "; toLocaleTimeString env (now env [])])
              (showTime env))
    /\ Voice.executeVoiceCommand env "what time is it" config
       = (log (voiceCommandLine "what time is it") ;;
          log "📋 Shows current time" ;;
          Voice.speakResponse env
            (JString (tpl ["It's "; toLocaleTimeString env (now env [])]))
            config ;;
          success <- showTime env ;;
          (if success then
             log "🎉 Command completed successfully!" ;;
             Voice.speakResponse env (JString "Done!") config
           else
             Voice.speakResponse env
               (JString "Sorry, there was an error with that command.")
               config) ;;
          ret success)
    /\ (forall s,
          showTime env s
          = (Ret true,
             mkState (fs s) (stdin s)
               (trace s ++
                  [Log (tpl ["🕐 Current time: ";
                             utf8 (toLocaleString env (now env (trace s)))])])))
    /\ (forall s,
          Voice.executeVoiceCommand env "what time is it" Voice.defaultConfig s
          = (Ret true,
             mkState (fs s) (stdin s)
               (trace s ++
                  [Log (voiceCommandLine "what time is it");
                   Log "📋 Shows current time";
                   Log (tpl ["🔇 Voice disabled: "; dq;
                             utf8 (tpl ["It's ";
                                        toLocaleTimeString env (now env [])]);
                             dq]);
                   Log (tpl ["🕐 Current time: ";
                             utf8 (toLocaleString env
                                     (now env
                                        (trace s ++
                                           [Log (voiceCommandLine
                                                   "what time is it");
                                            Log "📋 Shows current time";
                                            Log (tpl ["🔇 Voice disabled: "; dq;
                                                      utf8 (tpl ["It's ";
                                                                 toLocaleTimeString env (now env [])]);
                                                      dq])])))]);
                   Log "🎉 Command completed successfully!";
                   Log (tpl ["🔇 Voice disabled: "; dq; "Done!"; dq])]))).
Proof.
  intros env config. split; [reflexivity |]. split; [reflexivity |].
  split.
  - intros s. unfold showTime. run. reflexivity.
  - intros s. unfold Voice.executeVoiceCommand.
    change (getProperty (Voice.VOICE_COMMANDS env)
              (trim (toLowerCase "what time is it")))
      with (Own (Voice.mkEntry "Shows current time"
                   (tpl ["It's "; toLocaleTimeString env (now env [])])
                   (showTime env))).
    unfold Voice.speakResponse, showTime.
    cbn [Voice.isFalse voiceEnabled Voice.defaultConfig show
         Voice.description Voice.response Voice.execute].
    run. tidy. reflexivity.
Qed.

(** Two dispatches in one run, with the sample clock that counts events:
    both speak the start-up time 0, and the action prints 3 and then 9. *)
Example time_response_twice :
  printed
    (trace
       (snd ((Voice.executeVoiceCommand sampleEnv "what time is it"
                Voice.defaultConfig ;;
              Voice.executeVoiceCommand sampleEnv "What Time Is It"
                Voice.defaultConfig) emptyState)))
  = [ voiceCommandLine "what time is it";
      "📋 Shows current time";
      tpl ["🔇 Voice disabled: "; dq; "It's 0:00:00 AM"; dq];
      "🕐 Current time: 1/1/2025, 3:00:00 AM";
      "🎉 Command completed successfully!";
      tpl ["🔇 Voice disabled: "; dq; "Done!"; dq];
      voiceCommandLine "What Time Is It";
      "📋 Shows current time";
      tpl ["🔇 Voice disabled: "; dq; "It's 0:00:00 AM"; dq];
      "🕐 Current time: 1/1/2025, 9:00:00 AM";
      "🎉 Command completed successfully!";
      tpl ["🔇 Voice disabled: "; dq; "Done!"; dq] ].
Proof. vm_compute. reflexivity. Qed.


(** * Further properties of the code *)

(** ** Composition of footprints *)

Section Preservation.

Context (R : State -> State -> Prop) `{!PreOrder R}.

Lemma preserves_ret {A} (a : A) : preserves R (ret a).
Proof. intros s. reflexivity. Qed.

Lemma preserves_throw {A} message : preserves R (@throw A message).
Proof. intros s. reflexivity. Qed.

Lemma preserves_history : preserves R history.
Proof. intros s. reflexivity. Qed.

Lemma preserves_existsSync p : preserves R (existsSync p).
Proof. intros s. reflexivity. Qed.

Lemma preserves_readFileSync p : preserves R (readFileSync p).
Proof.
  intros s. unfold readFileSync.
  destruct (fs s !! p) as [[data |] |]; reflexivity.
Qed.

Lemma preserves_bind {A B} (m : M A) (k : A -> M B) :
  preserves R m -> (forall a, preserves R (k a)) -> preserves R (bind m k).
Proof.
  intros Hm Hk s. unfold bind.
  pose proof (Hm s) as H1. destruct (m s) as [[a | e] s1]; cbn [snd] in *.
  - transitivity s1; [exact H1 | apply Hk].
  - exact H1.
Qed.

Lemma preserves_tryCatch {A} (m : M A) (h : string -> M A) :
  preserves R m -> (forall e, preserves R (h e)) -> preserves R (tryCatch m h).
Proof.
  intros Hm Hh s. unfold tryCatch.
  pose proof (Hm s) as H1. destruct (m s) as [[a | e] s1]; cbn [snd] in *.
  - exact H1.
  - transitivity s1; [exact H1 | apply Hh].
Qed.

Lemma preserves_forEach {A} (l : list A) (f : A -> M unit) :
  (forall x, preserves R (f x)) -> preserves R (forEach l f).
Proof.
  intros Hf. induction l as [| x l IH]; cbn [forEach].
  - apply preserves_ret.
  - apply preserves_bind; [apply Hf | intros _; exact IH].
Qed.

End Preservation.

Lemma returns_ret {A} (a : A) : returns (ret a).
Proof. intros s. now exists a. Qed.

Lemma returns_bind {A B} (m : M A) (k : A -> M B) :
  returns m -> (forall a, returns (k a)) -> returns (bind m k).
Proof.
  intros Hm Hk s. unfold bind.
  destruct (Hm s) as [a Ha]. destruct (m s) as [o s1]. cbn [fst] in Ha.
  subst o. apply Hk.
Qed.

Lemma returns_tryCatch {A} (m : M A) (h : string -> M A) :
  (forall e, returns (h e)) -> returns (tryCatch m h).
Proof.
  intros Hh s. unfold tryCatch. destruct (m s) as [[a | e] s1].
  - now exists a.
  - apply Hh.
Qed.

Lemma returns_forEach {A} (l : list A) (f : A -> M unit) :
  (forall x, returns (f x)) -> returns (forEach l f).
Proof.
  intros Hf. induction l as [| x l IH]; cbn [forEach].
  - apply returns_ret.
  - apply returns_bind; [apply Hf | intros _; exact IH].
Qed.

Lemma returns_emit e : returns (emit e).
Proof. intros s. now exists tt. Qed.

Lemma returns_log line : returns (log line).
Proof. apply returns_emit. Qed.

Lemma returns_history : returns history.
Proof. intros s. now exists (trace s). Qed.

Lemma returns_existsSync p : returns (existsSync p).
Proof. intros s. eexists. reflexivity. Qed.

Lemma returns_readData : returns readData.
Proof. intros s. unfold readData. destruct (stdin s); eexists; reflexivity. Qed.

Lemma returns_exec env command : returns (exec env command).
Proof. intros s. eexists. reflexivity. Qed.

#[export] Instance within_preorder F : PreOrder (within F).
Proof.
  split.
  - intros s. repeat split; try reflexivity.
    + now exists [].
    + exists []. now rewrite app_nil_r.
  - intros s1 s2 s3 (Hw1 & Hr1 & [u1 Hu1] & [e1 [He1 Ha1]])
                    (Hw2 & Hr2 & [u2 Hu2] & [e2 [He2 Ha2]]).
    repeat split.
    + intros H. now rewrite (Hw2 H), (Hw1 H).
    + intros H. now rewrite (Hr2 H), (Hr1 H).
    + exists (u1 ++ u2). now rewrite Hu1, Hu2, app_assoc.
    + exists (e1 ++ e2). split.
      * now rewrite He2, He1, app_assoc.
      * now rewrite forallb_app, Ha1, Ha2.
Qed.

#[export] Instance keepsNodes_preorder : PreOrder keepsNodes.
Proof.
  split.
  - intros s p node H. exact H.
  - intros s1 s2 s3 H12 H23 p node H. apply H23, H12, H.
Qed.

Lemma within_emit F e : allowed F e = true -> preserves (within F) (emit e).
Proof.
  intros He s. cbn. repeat split; try reflexivity.
  - now exists [].
  - exists [e]. split; [reflexivity |]. cbn. now rewrite He.
Qed.

Lemma within_log F line :
  allowed F (Log line) = true -> preserves (within F) (log line).
Proof. apply within_emit. Qed.

Lemma within_exec F env command :
  allowed F (Exec command) = true -> preserves (within F) (exec env command).
Proof.
  intros He s. cbn. repeat split; try reflexivity.
  - now exists [].
  - exists [Exec command]. split; [reflexivity |]. cbn. now rewrite He.
Qed.

Lemma within_readData F : mayRead F = true -> preserves (within F) readData.
Proof.
  intros Hr s. unfold readData. destruct (stdin s) as [| d rest] eqn:Hin.
  - reflexivity.
  - cbn. repeat split; try reflexivity.
    + rewrite Hr. discriminate.
    + exists [d]. now rewrite Hin.
    + exists []. now rewrite app_nil_r.
Qed.

Lemma within_writeFileSync F parent p data :
  mayWrite F = true -> allowed F (WriteFileSync p data) = true ->
  preserves (within F) (writeFileSync parent p data).
Proof.
  intros Hw He s. unfold writeFileSync.
  destruct (holder parent s) as [[d' |] |]; try reflexivity.
  destruct (fs s !! p) as [[d |] |]; try reflexivity;
    (cbn; repeat split; try reflexivity;
     [ rewrite Hw; discriminate
     | now exists []
     | exists [WriteFileSync p data]; split; [reflexivity |];
       cbn; now rewrite He ]).
Qed.

Lemma within_mkdirSync F p :
  mayWrite F = true -> allowed F (MkdirSync p) = true ->
  preserves (within F) (mkdirSync p).
Proof.
  intros Hw He s. unfold mkdirSync.
  destruct (fs s !! p) as [[d |] |]; try reflexivity;
    (cbn; repeat split; try reflexivity;
     [ rewrite Hw; discriminate
     | now exists []
     | exists [MkdirSync p]; split; [reflexivity |];
       cbn; now rewrite He ]).
Qed.

(** A smaller footprint is a larger one too. *)
Lemma within_weaken F G {A} (m : M A) :
  (mayWrite G = false -> mayWrite F = false) ->
  (mayRead G = false -> mayRead F = false) ->
  (forall e, allowed F e = true -> allowed G e = true) ->
  preserves (within F) m -> preserves (within G) m.
Proof.
  intros Hw Hr Ha Hm s.
  destruct (Hm s) as (H1 & H2 & H3 & [events [He Hall]]).
  repeat split; auto.
  exists events. split; [exact He |].
  rewrite forallb_forall in *. auto.
Qed.

(** What leaves the file system alone keeps every node. *)
Lemma within_keepsNodes F {A} (m : M A) :
  mayWrite F = false -> preserves (within F) m -> preserves keepsNodes m.
Proof.
  intros Hw Hm s p node H. destruct (Hm s) as (Hfs & _).
  now rewrite (Hfs Hw).
Qed.

Lemma keepsNodes_emit e : preserves keepsNodes (emit e).
Proof. intros s p node H. exact H. Qed.

Lemma keepsNodes_exec env command : preserves keepsNodes (exec env command).
Proof. intros s p node H. exact H. Qed.

Lemma keepsNodes_readData : preserves keepsNodes readData.
Proof.
  intros s p node H. unfold readData. now destruct (stdin s).
Qed.

Ltac frame_step :=
  lazymatch goal with
  | |- preserves _ (bind _ _) => refine (preserves_bind _ _ _ _ _); [| intros ?]
  | |- preserves _ (tryCatch _ _) =>
      refine (preserves_tryCatch _ _ _ _ _); [| intros ?]
  | |- preserves _ (forEach _ _) => refine (preserves_forEach _ _ _ _); intros ?
  | |- preserves _ (ret _) => refine (preserves_ret _ _)
  | |- preserves _ (throw _) => refine (preserves_throw _ _)
  | |- preserves _ history => refine (preserves_history _)
  | |- preserves _ (existsSync _) => refine (preserves_existsSync _ _)
  | |- preserves _ (readFileSync _) => refine (preserves_readFileSync _ _)
  | |- preserves _ (log _) =>
      first [apply within_log; reflexivity | apply keepsNodes_emit]
  | |- preserves _ (emit _) =>
      first [apply within_emit; reflexivity | apply keepsNodes_emit]
  | |- preserves _ (exec _ _) =>
      first [apply within_exec; reflexivity | apply keepsNodes_exec]
  | |- preserves _ readData =>
      first [apply within_readData; reflexivity | apply keepsNodes_readData]
  | |- preserves _ (writeFileSync _ _ _) =>
      apply within_writeFileSync; reflexivity
  | |- preserves _ (mkdirSync _) => apply within_mkdirSync; reflexivity
  | |- preserves _ (if ?b then _ else _) => destruct b
  | |- preserves _ (match ?x with _ => _ end) => destruct x
  end.

Ltac frame := repeat first [frame_step | assumption | solve [auto 1]].

Ltac total_step :=
  lazymatch goal with
  | |- returns (bind _ _) => apply returns_bind; [| intros ?]
  | |- returns (tryCatch _ _) => apply returns_tryCatch; intros ?
  | |- returns (forEach _ _) => apply returns_forEach; intros ?
  | |- returns (ret _) => apply returns_ret
  | |- returns (log _) => apply returns_log
  | |- returns (emit _) => apply returns_emit
  | |- returns history => apply returns_history
  | |- returns (existsSync _) => apply returns_existsSync
  | |- returns readData => apply returns_readData
  | |- returns (exec _ _) => apply returns_exec
  | |- returns (if ?b then _ else _) => destruct b
  | |- returns (match ?x with _ => _ end) => destruct x
  end.

Ltac total := repeat first [total_step | assumption | solve [auto 1]].

(** ** The actions of the registry *)

Lemma executeCommand_local env command message :
  preserves (within localOnly) (executeCommand env command message).
Proof. unfold executeCommand. frame. Qed.

Lemma executeCommand_returns env command message :
  returns (executeCommand env command message).
Proof. unfold executeCommand. total. Qed.

Lemma openBrowser_local env url :
  preserves (within localOnly) (openBrowser env url).
Proof. apply executeCommand_local. Qed.

Lemma openTerminal_local env directory :
  preserves (within localOnly) (openTerminal env directory).
Proof. apply executeCommand_local. Qed.

Lemma openApplication_local env appName :
  preserves (within localOnly) (openApplication env appName).
Proof. apply executeCommand_local. Qed.

Lemma openFolder_local env folderPath :
  preserves (within localOnly) (openFolder env folderPath).
Proof.
  unfold openFolder. refine (preserves_bind _ _ _ _ _); [frame |].
  intros found. destruct found; cbn [negb].
  - apply executeCommand_local.
  - frame.
Qed.

Lemma openFolder_returns env folderPath : returns (openFolder env folderPath).
Proof.
  unfold openFolder. apply returns_bind; [total |].
  intros found. destruct found; cbn [negb].
  - apply executeCommand_returns.
  - total.
Qed.

Lemma showTime_local env : preserves (within localOnly) (showTime env).
Proof. unfold showTime. frame. Qed.

Lemma showSystemInfo_local env :
  preserves (within localOnly) (showSystemInfo env).
Proof. unfold showSystemInfo. frame. Qed.

Lemma ownProperty_In {E} (obj : list (string * E)) key e :
  ownProperty obj key = Some e -> In (key, e) obj.
Proof.
  induction obj as [| [k v] obj IH]; cbn [ownProperty]; [discriminate |].
  destruct (String.eqb_spec k key) as [-> | _].
  - intros [= ->]. now left.
  - intros H. right. now apply IH.
Qed.

Ltac action :=
  lazymatch goal with
  | |- preserves _ (openBrowser _ _) => apply openBrowser_local
  | |- preserves _ (openTerminal _ _) => apply openTerminal_local
  | |- preserves _ (openApplication _ _) => apply openApplication_local
  | |- preserves _ (openFolder _ _) => apply openFolder_local
  | |- preserves _ (showTime _) => apply showTime_local
  | |- preserves _ (showSystemInfo _) => apply showSystemInfo_local
  | |- returns (openBrowser _ _) => apply executeCommand_returns
  | |- returns (openTerminal _ _) => apply executeCommand_returns
  | |- returns (openApplication _ _) => apply executeCommand_returns
  | |- returns (openFolder _ _) => apply openFolder_returns
  | |- returns (showTime _) => unfold showTime; total
  | |- returns (showSystemInfo _) => unfold showSystemInfo; total
  end.

Lemma registry_TextOnly_local env key e :
  ownProperty (TextOnly.VOICE_COMMANDS env) key = Some e ->
  preserves (within localOnly) (TextOnly.execute e)
  /\ returns (TextOnly.execute e).
Proof.
  intros H. apply ownProperty_In in H.
  unfold TextOnly.VOICE_COMMANDS in H. cbn [In] in H.
  repeat (destruct H as [[= _ <-] | H];
          [cbn [TextOnly.execute]; split; action |]).
  contradiction.
Qed.

Lemma registry_Voice_local env key e :
  ownProperty (Voice.VOICE_COMMANDS env) key = Some e ->
  preserves (within localOnly) (Voice.execute e) /\ returns (Voice.execute e).
Proof.
  intros H. apply ownProperty_In in H.
  unfold Voice.VOICE_COMMANDS in H. cbn [In] in H.
  repeat (destruct H as [[= _ <-] | H];
          [cbn [Voice.execute]; split; action |]).
  contradiction.
Qed.

Lemma getProperty_Own_inv {E} (obj : list (string * E)) key e :
  getProperty obj key = Own e -> ownProperty obj key = Some e.
Proof.
  unfold getProperty. destruct (ownProperty obj key) as [e' |].
  - now intros [= ->].
  - destruct (existsb _ _); discriminate.
Qed.

Lemma local_keepsInput {A} (m : M A) :
  preserves (within localOnly) m -> preserves (within keepsInput) m.
Proof. apply within_weaken; [discriminate | reflexivity | reflexivity]. Qed.

Lemma prints_local {A} (m : M A) :
  preserves (within printsOnly) m -> preserves (within localOnly) m.
Proof.
  apply within_weaken; [reflexivity | reflexivity |].
  intros [ | | | | | ]; intros; try discriminate; reflexivity.
Qed.

Lemma local_offline {A} (m : M A) :
  preserves (within localOnly) m -> preserves (within offline) m.
Proof. apply within_weaken; [reflexivity | discriminate | auto]. Qed.

(** ** The dispatcher of the text-only script *)

Lemma showAvailableCommands_TextOnly_prints env :
  preserves (within printsOnly) (TextOnly.showAvailableCommands env)
  /\ returns (TextOnly.showAvailableCommands env).
Proof. unfold TextOnly.showAvailableCommands. split; [frame | total]. Qed.

Lemma executeVoiceCommand_TextOnly_local env commandText :
  preserves (within localOnly) (TextOnly.executeVoiceCommand env commandText).
Proof.
  unfold TextOnly.executeVoiceCommand. cbv zeta.
  refine (preserves_bind _ _ _ _ _); [frame | intros _].
  destruct (getProperty _ _) as [command | name |] eqn:Hget.
  - apply getProperty_Own_inv in Hget.
    destruct (registry_TextOnly_local env _ _ Hget) as [Hlocal _]. frame.
  - frame.
  - pose proof (prints_local _
                  (proj1 (showAvailableCommands_TextOnly_prints env))).
    frame.
Qed.

(** ** The voice functions *)

Lemma playAudio_local env filePath :
  preserves (within localOnly) (Voice.playAudio env filePath)
  /\ returns (Voice.playAudio env filePath).
Proof. unfold Voice.playAudio. split; [frame | total]. Qed.

Lemma getElevenLabsAudio_keepsInput env text key voice :
  preserves (within keepsInput) (Voice.getElevenLabsAudio env text key voice).
Proof. unfold Voice.getElevenLabsAudio. frame. Qed.

Lemma speakResponse_keepsInput env text config :
  preserves (within keepsInput) (Voice.speakResponse env text config).
Proof.
  pose proof (fun p => local_keepsInput _ (proj1 (playAudio_local env p))).
  pose proof (getElevenLabsAudio_keepsInput env).
  unfold Voice.speakResponse, Voice.cacheKeyOf. frame.
Qed.

(** With voice disabled or without a usable key [speakResponse] only
    prints. *)
Lemma speakResponse_prints env text config :
  Voice.isFalse (voiceEnabled config) = true
  \/ Voice.usableKey (elevenLabsApiKey config) = None ->
  preserves (within printsOnly) (Voice.speakResponse env text config).
Proof.
  intros Hconfig. unfold Voice.speakResponse.
  refine (preserves_tryCatch _ _ _ _ _); [| intros ?; frame].
  destruct (Voice.isFalse (voiceEnabled config)); [frame |].
  destruct Hconfig as [H | ->]; [discriminate H | frame].
Qed.

Lemma showAvailableCommands_Voice_prints env :
  preserves (within printsOnly) (Voice.showAvailableCommands env)
  /\ returns (Voice.showAvailableCommands env).
Proof. unfold Voice.showAvailableCommands. split; [frame | total]. Qed.

Lemma speakResponse_total env text config :
  returns (Voice.speakResponse env text config).
Proof. unfold Voice.speakResponse. apply returns_tryCatch. intros e. total. Qed.

Lemma executeVoiceCommand_Voice_keepsInput env commandText config :
  preserves (within keepsInput)
            (Voice.executeVoiceCommand env commandText config).
Proof.
  pose proof (speakResponse_keepsInput env).
  unfold Voice.executeVoiceCommand. cbv zeta.
  refine (preserves_bind _ _ _ _ _); [frame | intros _].
  destruct (getProperty _ _) as [command | name |] eqn:Hget.
  - apply getProperty_Own_inv in Hget.
    destruct (registry_Voice_local env _ _ Hget) as [Hlocal _].
    apply local_keepsInput in Hlocal. frame.
  - frame.
  - pose proof (local_keepsInput _ (prints_local _
                  (proj1 (showAvailableCommands_Voice_prints env)))).
    frame.
Qed.

Lemma executeVoiceCommand_Voice_local env commandText config :
  Voice.isFalse (voiceEnabled config) = true
  \/ Voice.usableKey (elevenLabsApiKey config) = None ->
  preserves (within localOnly)
            (Voice.executeVoiceCommand env commandText config).
Proof.
  intros Hconfig.
  pose proof (fun text =>
                prints_local _ (speakResponse_prints env text config Hconfig)).
  unfold Voice.executeVoiceCommand. cbv zeta.
  refine (preserves_bind _ _ _ _ _); [frame | intros _].
  destruct (getProperty _ _) as [command | name |] eqn:Hget.
  - apply getProperty_Own_inv in Hget.
    destruct (registry_Voice_local env _ _ Hget) as [Hlocal _]. frame.
  - frame.
  - pose proof (prints_local _
                  (proj1 (showAvailableCommands_Voice_prints env))).
    frame.
Qed.

(** ** Normal forms of inputs *)

Lemma code_bound c : (code c < 256)%nat.
Proof. apply nat_ascii_bounded. Qed.

Lemma code_ascii_of_nat n : (n < 256)%nat -> code (ascii_of_nat n) = n.
Proof. apply nat_ascii_embedding. Qed.

Lemma toLowerChar_code c :
  code (toLowerChar c)
  = if isUpperCode (code c) then (code c + 32)%nat else code c.
Proof.
  unfold toLowerChar. destruct (isUpperCode (code c)) eqn:Hup; [| reflexivity].
  apply code_ascii_of_nat. apply isUpperCode_spec in Hup. lia.
Qed.

Lemma toLowerChar_not_upper c : isUpperCode (code (toLowerChar c)) = false.
Proof.
  rewrite toLowerChar_code. destruct (isUpperCode (code c)) eqn:Hup.
  - apply not_true_is_false. rewrite isUpperCode_spec.
    apply isUpperCode_spec in Hup. lia.
  - exact Hup.
Qed.

Lemma isWhiteSpace_toLowerChar c : isWhiteSpace (toLowerChar c) = isWhiteSpace c.
Proof.
  unfold toLowerChar. destruct (isUpperCode (code c)) eqn:Hup; [| reflexivity].
  apply isUpperCode_spec in Hup.
  assert (Hc : isWhiteSpace c = false).
  { apply not_true_is_false. rewrite isWhiteSpace_spec. lia. }
  rewrite Hc. apply not_true_is_false. rewrite isWhiteSpace_spec.
  rewrite code_ascii_of_nat by lia. lia.
Qed.

Lemma toLowerCase_idempotent s : toLowerCase (toLowerCase s) = toLowerCase s.
Proof.
  induction s as [| c s IH]; cbn [toLowerCase]; [reflexivity |].
  now rewrite IH, (toLowerChar_fixed _ (toLowerChar_not_upper c)).
Qed.

Lemma noUpper_toLowerCase s : noUpper (toLowerCase s) = true.
Proof.
  induction s as [| c s IH]; cbn [toLowerCase noUpper]; [reflexivity |].
  now rewrite toLowerChar_not_upper, IH.
Qed.

Lemma noUpper_trimStart s : noUpper s = true -> noUpper (trimStart s) = true.
Proof.
  induction s as [| c s IH]; cbn [trimStart]; [reflexivity |].
  intros H. destruct (isWhiteSpace c); [| exact H].
  cbn [noUpper] in H. apply andb_true_iff in H as [_ H]. now apply IH.
Qed.

Lemma noUpper_trimEnd s : noUpper s = true -> noUpper (trimEnd s) = true.
Proof.
  induction s as [| c s IH]; cbn [trimEnd noUpper]; [reflexivity |].
  intros H. apply andb_true_iff in H as [Hc H].
  destruct (isWhiteSpace c && isEmpty (trimEnd s)); [reflexivity |].
  cbn [noUpper]. now rewrite Hc, IH.
Qed.

Lemma noUpper_normalize commandText : noUpper (normalize commandText) = true.
Proof.
  unfold normalize, trim.
  apply noUpper_trimEnd, noUpper_trimStart, noUpper_toLowerCase.
Qed.

Lemma isEmpty_toLowerCase s : isEmpty (toLowerCase s) = isEmpty s.
Proof. now destruct s. Qed.

Lemma toLowerCase_trimStart s :
  toLowerCase (trimStart s) = trimStart (toLowerCase s).
Proof.
  induction s as [| c s IH]; cbn [trimStart toLowerCase]; [reflexivity |].
  rewrite isWhiteSpace_toLowerChar. now destruct (isWhiteSpace c).
Qed.

Lemma toLowerCase_trimEnd s : toLowerCase (trimEnd s) = trimEnd (toLowerCase s).
Proof.
  induction s as [| c s IH]; cbn [trimEnd toLowerCase]; [reflexivity |].
  rewrite isWhiteSpace_toLowerChar, <- IH, isEmpty_toLowerCase.
  now destruct (isWhiteSpace c && isEmpty (trimEnd s)).
Qed.

Lemma toLowerCase_trim s : toLowerCase (trim s) = trim (toLowerCase s).
Proof. unfold trim. now rewrite toLowerCase_trimEnd, toLowerCase_trimStart. Qed.

Lemma trimEnd_idempotent s : trimEnd (trimEnd s) = trimEnd s.
Proof.
  induction s as [| c s IH]; cbn [trimEnd]; [reflexivity |].
  destruct (isWhiteSpace c && isEmpty (trimEnd s)) eqn:Hdrop; [reflexivity |].
  cbn [trimEnd]. now rewrite IH, Hdrop.
Qed.

Lemma headNotSpace_trimStart s : headNotSpace (trimStart s) = true.
Proof.
  induction s as [| c s IH]; cbn [trimStart]; [reflexivity |].
  destruct (isWhiteSpace c) eqn:Hc; [exact IH |]. cbn. now rewrite Hc.
Qed.

Lemma headNotSpace_trimEnd s :
  headNotSpace s = true -> headNotSpace (trimEnd s) = true.
Proof.
  destruct s as [| c s]; cbn [trimEnd headNotSpace]; [reflexivity |].
  intros Hc. apply negb_true_iff in Hc. rewrite Hc. cbn. now rewrite Hc.
Qed.

Lemma trimStart_headNotSpace s : headNotSpace s = true -> trimStart s = s.
Proof.
  destruct s as [| c s]; cbn; [reflexivity |].
  intros Hc. apply negb_true_iff in Hc. now rewrite Hc.
Qed.

Lemma trim_idempotent s : trim (trim s) = trim s.
Proof.
  unfold trim.
  rewrite (trimStart_headNotSpace (trimEnd (trimStart s))).
  - apply trimEnd_idempotent.
  - apply headNotSpace_trimEnd, headNotSpace_trimStart.
Qed.

Lemma normalize_idempotent s : normalize (normalize s) = normalize s.
Proof.
  unfold normalize.
  now rewrite toLowerCase_trim, toLowerCase_idempotent, trim_idempotent.
Qed.

Lemma normalize_recognised d : normalize (toLowerCase (trim d)) = normalize d.
Proof.
  unfold normalize.
  now rewrite toLowerCase_idempotent, toLowerCase_trim, trim_idempotent.
Qed.

(** X1. Lowercasing and trimming commute and their composition is
    idempotent, so the line that the interactive loop has already trimmed
    and lowercased is looked up under the same key as the raw text given on
    the command line: both modes reach the same entry, in both scripts. *)
Theorem interactive_and_single_shot_lookup_agree :
  forall env d,
    toLowerCase (trim d) = trim (toLowerCase d)
    /\ normalize (normalize d) = normalize d
    /\ getProperty (TextOnly.VOICE_COMMANDS env)
                   (trim (toLowerCase (toLowerCase (trim d))))
       = getProperty (TextOnly.VOICE_COMMANDS env) (trim (toLowerCase d))
    /\ getProperty (Voice.VOICE_COMMANDS env)
                   (trim (toLowerCase (toLowerCase (trim d))))
       = getProperty (Voice.VOICE_COMMANDS env) (trim (toLowerCase d)).
Proof.
  intros env d. pose proof (normalize_recognised d) as Hn.
  unfold normalize in Hn.
  split; [apply toLowerCase_trim |]. split; [apply normalize_idempotent |].
  now rewrite Hn.
Qed.

(** ** When the dispatcher throws *)

Lemma inherited_keys key :
  noUpper key = true ->
  existsb (String.eqb key) objectPrototypeKeys = true ->
  key = "constructor" \/ key = "__proto__".
Proof.
  intros Hlow. unfold objectPrototypeKeys. cbn [existsb].
  repeat match goal with
         | |- context [String.eqb key ?k] =>
             destruct (String.eqb_spec key k) as [-> | _];
             [first [now left | now right | discriminate Hlow] |]
         end.
  discriminate.
Qed.

Lemma getProperty_Inherited_inv {E} (obj : list (string * E)) key name :
  getProperty obj key = Inherited name ->
  existsb (String.eqb key) objectPrototypeKeys = true.
Proof.
  unfold getProperty. destruct (ownProperty obj key); [discriminate |].
  now destruct (existsb _ _).
Qed.

Lemma dispatch_TextOnly_returns env commandText :
  (forall name,
      getProperty (TextOnly.VOICE_COMMANDS env) (normalize commandText)
      <> Inherited name) ->
  returns (TextOnly.executeVoiceCommand env commandText).
Proof.
  intros Hown. unfold TextOnly.executeVoiceCommand. cbv zeta.
  apply returns_bind; [total | intros _]. unfold normalize in Hown.
  destruct (getProperty _ _) as [command | name |] eqn:Hget.
  - apply getProperty_Own_inv in Hget.
    destruct (registry_TextOnly_local env _ _ Hget) as [_ Hret]. total.
  - now destruct (Hown name).
  - pose proof (proj2 (showAvailableCommands_TextOnly_prints env)). total.
Qed.

Lemma dispatch_Voice_returns env commandText config :
  (forall name,
      getProperty (Voice.VOICE_COMMANDS env) (normalize commandText)
      <> Inherited name) ->
  returns (Voice.executeVoiceCommand env commandText config).
Proof.
  intros Hown. pose proof (fun text => speakResponse_total env text config).
  unfold Voice.executeVoiceCommand. cbv zeta.
  apply returns_bind; [total | intros _]. unfold normalize in Hown.
  destruct (getProperty _ _) as [command | name |] eqn:Hget.
  - apply getProperty_Own_inv in Hget.
    destruct (registry_Voice_local env _ _ Hget) as [_ Hret]. total.
  - now destruct (Hown name).
  - pose proof (proj2 (showAvailableCommands_Voice_prints env)). total.
Qed.

Lemma dispatch_TextOnly_throws env commandText s :
  normalize commandText = "constructor" \/ normalize commandText = "__proto__" ->
  fst (TextOnly.executeVoiceCommand env commandText s)
  = Throw "command.execute is not a function".
Proof.
  intros Hkey. unfold TextOnly.executeVoiceCommand. cbv zeta.
  fold (normalize commandText).
  destruct Hkey as [-> | ->].
  - change (getProperty (TextOnly.VOICE_COMMANDS env) "constructor")
      with (@Inherited TextOnly.CommandEntry "constructor").
    reflexivity.
  - change (getProperty (TextOnly.VOICE_COMMANDS env) "__proto__")
      with (@Inherited TextOnly.CommandEntry "__proto__").
    reflexivity.
Qed.

Lemma dispatch_Voice_throws env commandText config s :
  normalize commandText = "constructor" \/ normalize commandText = "__proto__" ->
  fst (Voice.executeVoiceCommand env commandText config s)
  = Throw "command.execute is not a function".
Proof.
  intros Hkey. unfold Voice.executeVoiceCommand. cbv zeta.
  fold (normalize commandText).
  assert (Hget : exists name,
             getProperty (Voice.VOICE_COMMANDS env) (normalize commandText)
             = Inherited name).
  { destruct Hkey as [-> | ->]; eexists; reflexivity. }
  destruct Hget as [name ->].
  unfold bind at 1. unfold log at 1, emit. cbn beta iota.
  unfold bind at 1. unfold log at 1, emit. cbn beta iota.
  unfold bind at 1.
  match goal with
  | |- context [Voice.speakResponse ?e ?t ?c ?st] =>
      destruct (speakResponse_total e t c st) as [[] Hret];
      destruct (Voice.speakResponse e t c st) as [o st']
  end.
  cbn [fst] in Hret. subst o. reflexivity.
Qed.

Lemma inherited_normal_form {E} (obj : list (string * E)) commandText name :
  getProperty obj (normalize commandText) = Inherited name ->
  normalize commandText = "constructor" \/ normalize commandText = "__proto__".
Proof.
  intros H. apply getProperty_Inherited_inv in H.
  apply inherited_keys; [apply noUpper_normalize | exact H].
Qed.

(** X2. In both scripts [executeVoiceCommand] ends with an exception for
    exactly the inputs whose normal form (lowercase, trimmed) is constructor
    or __proto__; for every other input, registered or not and whatever the
    action, the configuration and the endpoint do, it returns a boolean. *)
Theorem executeVoiceCommand_throws_iff :
  forall env commandText config s,
    ((exists message,
         fst (TextOnly.executeVoiceCommand env commandText s) = Throw message)
     <-> normalize commandText = "constructor"
         \/ normalize commandText = "__proto__")
    /\ ((exists message,
            fst (Voice.executeVoiceCommand env commandText config s)
            = Throw message)
        <-> normalize commandText = "constructor"
            \/ normalize commandText = "__proto__").
Proof.
  intros env commandText config s. split; split.
  - intros [message Hthrow].
    destruct (getProperty (TextOnly.VOICE_COMMANDS env) (normalize commandText))
      as [command | name |] eqn:Hget;
      [| now apply inherited_normal_form in Hget |];
      (destruct (dispatch_TextOnly_returns env commandText) with (s := s)
         as [b Hb]; [intros name; rewrite Hget; discriminate | congruence]).
  - intros Hkey. eexists. now apply dispatch_TextOnly_throws.
  - intros [message Hthrow].
    destruct (getProperty (Voice.VOICE_COMMANDS env) (normalize commandText))
      as [command | name |] eqn:Hget;
      [| now apply inherited_normal_form in Hget |];
      (destruct (dispatch_Voice_returns env commandText config) with (s := s)
         as [b Hb]; [intros name; rewrite Hget; discriminate | congruence]).
  - intros Hkey. eexists. now apply dispatch_Voice_throws.
Qed.

(** ** The exit code *)

Lemma returns_state_dependent {A} (f : nat -> M A) (g : State -> nat) :
  (forall n, returns (f n)) -> returns (fun s => f (g s) s).
Proof. intros Hf s. apply Hf. Qed.

Lemma saveConfig_returns env config : returns (saveConfig env config).
Proof. unfold saveConfig. apply returns_tryCatch. intros e. total. Qed.

Lemma loadConfig_Voice_returns env : returns (Voice.loadConfig env).
Proof. unfold Voice.loadConfig. apply returns_tryCatch. intros e. total. Qed.

Lemma interactiveLoop_TextOnly_returns env fuel :
  returns (TextOnly.interactiveLoop env fuel).
Proof.
  induction fuel as [| fuel IH]; cbn [TextOnly.interactiveLoop]; [total |].
  apply returns_bind; [apply returns_tryCatch; intros e; total |].
  intros [|]; [exact IH | total].
Qed.

Lemma interactiveLoop_Voice_returns env config fuel :
  returns (Voice.interactiveLoop env config fuel).
Proof.
  induction fuel as [| fuel IH]; cbn [Voice.interactiveLoop]; [total |].
  apply returns_bind; [apply returns_tryCatch; intros e; total |].
  intros [|]; [exact IH | total].
Qed.

Lemma interactiveMode_TextOnly_returns env :
  returns (TextOnly.interactiveMode env).
Proof.
  unfold TextOnly.interactiveMode.
  do 2 (apply returns_bind; [total | intros _]).
  apply (returns_state_dependent (TextOnly.interactiveLoop env)
           (fun s => S (length (stdin s)))).
  apply interactiveLoop_TextOnly_returns.
Qed.

Lemma interactiveMode_Voice_returns env : returns (Voice.interactiveMode env).
Proof.
  pose proof (loadConfig_Voice_returns env).
  pose proof (speakResponse_total env).
  unfold Voice.interactiveMode.
  apply returns_bind; [total | intros config].
  do 3 (apply returns_bind; [total | intros _]).
  apply (returns_state_dependent (Voice.interactiveLoop env config)
           (fun s => S (length (stdin s)))).
  apply interactiveLoop_Voice_returns.
Qed.

Lemma setupConfiguration_TextOnly_returns env :
  returns (TextOnly.setupConfiguration env).
Proof.
  pose proof (saveConfig_returns env).
  unfold TextOnly.setupConfiguration. cbv zeta. total.
Qed.

Lemma setupConfiguration_Voice_returns env :
  returns (Voice.setupConfiguration env).
Proof.
  pose proof (saveConfig_returns env).
  unfold Voice.setupConfiguration. cbv zeta. total.
Qed.

Lemma isFlag_TextOnly firstArg :
  isFlag firstArg
  = TextOnly.isOneOf ["--help"; "-h"] firstArg
    || TextOnly.isOneOf ["--setup"] firstArg
    || TextOnly.isOneOf ["--list"; "--commands"] firstArg
    || TextOnly.isOneOf ["--version"; "-v"] firstArg.
Proof.
  unfold isFlag, TextOnly.isOneOf. cbn [existsb].
  rewrite !orb_false_r, !orb_assoc. reflexivity.
Qed.

Lemma main_TextOnly_outcome env args s :
  (dispatchesInherited args = false ->
   exists u, fst (TextOnly.main env args s) = Ret u)
  /\ (dispatchesInherited args = true ->
      fst (TextOnly.main env args s)
      = Throw "command.execute is not a function").
Proof.
  destruct args as [| firstArg rest].
  { split; [| discriminate]. intros _.
    apply interactiveMode_TextOnly_returns. }
  unfold dispatchesInherited, TextOnly.main. rewrite isFlag_TextOnly.
  destruct (TextOnly.isOneOf ["--help"; "-h"] firstArg);
    [split; [intros _; unfold TextOnly.showHelp; apply returns_log
            | discriminate] |].
  destruct (TextOnly.isOneOf ["--setup"] firstArg);
    [split; [intros _; apply setupConfiguration_TextOnly_returns
            | discriminate] |].
  destruct (TextOnly.isOneOf ["--list"; "--commands"] firstArg);
    [split; [intros _; apply showAvailableCommands_TextOnly_prints
            | discriminate] |].
  destruct (TextOnly.isOneOf ["--version"; "-v"] firstArg);
    [split; [intros _; apply returns_log | discriminate] |].
  cbn [orb negb andb]. cbv zeta. split.
  - intros Hkey.
    assert (Hret : returns (TextOnly.executeVoiceCommand env
                              (join " " (firstArg :: rest)))).
    { apply dispatch_TextOnly_returns. intros name Hname.
      apply inherited_normal_form in Hname.
      apply orb_false_iff in Hkey as [H1 H2].
      destruct Hname as [E | E]; rewrite E in *; discriminate. }
    apply returns_bind; [exact Hret | intros _; total].
  - intros Hkey. unfold bind.
    pose proof (dispatch_TextOnly_throws env (join " " (firstArg :: rest)) s)
      as Hthrow.
    destruct (TextOnly.executeVoiceCommand env _ s) as [o s1].
    cbn [fst] in Hthrow. rewrite Hthrow; [reflexivity |].
    apply orb_true_iff in Hkey as [H | H]; apply String.eqb_eq in H; auto.
Qed.

Lemma isFlag_Voice firstArg :
  isFlag firstArg
  = Voice.isOneOf ["--help"; "-h"] firstArg
    || Voice.isOneOf ["--setup"] firstArg
    || Voice.isOneOf ["--list"; "--commands"] firstArg
    || Voice.isOneOf ["--version"; "-v"] firstArg.
Proof. apply isFlag_TextOnly. Qed.

Lemma main_Voice_outcome env args s :
  (dispatchesInherited args = false ->
   exists u, fst (Voice.main env args s) = Ret u)
  /\ (dispatchesInherited args = true ->
      fst (Voice.main env args s)
      = Throw "command.execute is not a function").
Proof.
  destruct args as [| firstArg rest].
  { split; [| discriminate]. intros _.
    apply interactiveMode_Voice_returns. }
  unfold dispatchesInherited, Voice.main. rewrite isFlag_Voice.
  unfold bind at 1. unfold bind at 2.
  destruct (loadConfig_Voice env s) as [config ->].
  destruct (Voice.isOneOf ["--help"; "-h"] firstArg);
    [split; [intros _; unfold Voice.showHelp; apply returns_log
            | discriminate] |].
  destruct (Voice.isOneOf ["--setup"] firstArg);
    [split; [intros _; apply setupConfiguration_Voice_returns
            | discriminate] |].
  destruct (Voice.isOneOf ["--list"; "--commands"] firstArg);
    [split; [intros _; apply showAvailableCommands_Voice_prints
            | discriminate] |].
  destruct (Voice.isOneOf ["--version"; "-v"] firstArg);
    [split; [intros _; apply returns_log | discriminate] |].
  cbn [orb negb andb]. cbv zeta. split.
  - intros Hkey.
    assert (Hret : returns (Voice.executeVoiceCommand env
                              (join " " (firstArg :: rest)) config)).
    { apply dispatch_Voice_returns. intros name Hname.
      apply inherited_normal_form in Hname.
      apply orb_false_iff in Hkey as [H1 H2].
      destruct Hname as [E | E]; rewrite E in *; discriminate. }
    apply returns_bind; [exact Hret | intros _; total].
  - intros Hkey. unfold bind.
    match goal with
    | |- context [Voice.executeVoiceCommand env ?t config ?st] =>
        pose proof (dispatch_Voice_throws env t config st) as Hthrow;
        destruct (Voice.executeVoiceCommand env t config st) as [o s1]
    end.
    cbn [fst] in Hthrow. rewrite Hthrow; [reflexivity |].
    apply orb_true_iff in Hkey as [H | H]; apply String.eqb_eq in H; auto.
Qed.

(** X3. The exit code of a run: 0 for every flag, for registered commands
    whose action fails and for unknown commands, and 1 exactly when the
    first argument is not a flag and the arguments joined by spaces have
    the normal form constructor or __proto__. For the text-only script
    this covers every invocation, interactive mode included. For the voice
    script it covers every invocation with at least one argument, whatever
    the configuration file holds (with no argument the voice script enters
    interactive mode, which reads the loaded configuration before its
    loop). *)
Theorem cli_exit_code :
  forall env args s,
    fst (TextOnly.cli env args s)
    = (if dispatchesInherited args then 1 else 0)%nat
    /\ (args <> [] ->
        fst (Voice.cli env args s)
        = (if dispatchesInherited args then 1 else 0)%nat).
Proof.
  intros env args s. split.
  - unfold TextOnly.cli.
    destruct (main_TextOnly_outcome env args s) as [Hok Hbad].
    destruct (dispatchesInherited args).
    + specialize (Hbad eq_refl).
      destruct (TextOnly.main env args s) as [o s1]. cbn [fst] in Hbad.
      now subst o.
    + destruct (Hok eq_refl) as [u Hu].
      destruct (TextOnly.main env args s) as [o s1]. cbn [fst] in Hu.
      now subst o.
  - intros _. unfold Voice.cli.
    destruct (main_Voice_outcome env args s) as [Hok Hbad].
    destruct (dispatchesInherited args).
    + specialize (Hbad eq_refl).
      destruct (Voice.main env args s) as [o s1]. cbn [fst] in Hbad.
      now subst o.
    + destruct (Hok eq_refl) as [u Hu].
      destruct (Voice.main env args s) as [o s1]. cbn [fst] in Hu.
      now subst o.
Qed.

(** ** The interactive loop *)

Lemma stdin_within_localOnly {A} (m : M A) s :
  preserves (within localOnly) m ->
  stdin (snd (m s)) = stdin s /\ fs (snd (m s)) = fs s.
Proof. intros Hm. destruct (Hm s) as (Hfs & Hin & _). split; auto. Qed.

Lemma interactiveLoop_TextOnly_stdin env fuel :
  forall s,
    (length (stdin s) < fuel)%nat ->
    stdin (snd (TextOnly.interactiveLoop env fuel s)) = afterQuit (stdin s).
Proof.
  induction fuel as [| fuel IH]; intros s Hfuel; [lia |].
  cbn [TextOnly.interactiveLoop]. unfold bind at 1.
  unfold tryCatch at 1. unfold bind at 1.
  unfold simulateVoiceRecognition. unfold bind at 1. unfold emit at 1.
  unfold bind at 1. unfold readData at 1. cbn [fs stdin trace].
  destruct (stdin s) as [| d rest] eqn:Hin.
  - reflexivity.
  - cbn [afterQuit]. unfold ret at 1. cbn beta iota. cbn [option_map].
    destruct (TextOnly.isQuit (toLowerCase (trim d))) eqn:Hquit.
    + reflexivity.
    + destruct (TextOnly.isHelp (toLowerCase (trim d))).
      * unfold bind at 1.
        rewrite showAvailableCommands_TextOnly. cbn beta iota.
        unfold ret at 1. cbn beta iota.
        rewrite IH; cbn [stdin]; [reflexivity |].
        cbn [length] in Hfuel. lia.
      * unfold bind at 1.
        match goal with
        | |- context [TextOnly.executeVoiceCommand env ?c ?st] =>
            destruct (stdin_within_localOnly
                        (TextOnly.executeVoiceCommand env c) st
                        (executeVoiceCommand_TextOnly_local env c))
              as [Hstdin _];
            destruct (TextOnly.executeVoiceCommand env c st) as [[b | e] s1]
        end; cbn [snd stdin] in Hstdin.
        -- unfold bind at 1. unfold log at 1, emit at 1. cbn beta iota.
           unfold ret at 1. cbn beta iota.
           rewrite IH; cbn [stdin]; [now rewrite Hstdin |].
           rewrite Hstdin. cbn [length] in Hfuel. lia.
        -- unfold bind at 1. unfold log at 1, emit at 1. cbn beta iota.
           unfold ret at 1. cbn beta iota.
           rewrite IH; cbn [stdin]; [now rewrite Hstdin |].
           rewrite Hstdin. cbn [length] in Hfuel. lia.
Qed.

Lemma interactiveLoop_TextOnly_offline env fuel :
  preserves (within offline) (TextOnly.interactiveLoop env fuel).
Proof.
  pose proof (fun c => local_offline _ (executeVoiceCommand_TextOnly_local env c)).
  pose proof (local_offline _ (prints_local _
                (proj1 (showAvailableCommands_TextOnly_prints env)))).
  induction fuel as [| fuel IH]; cbn [TextOnly.interactiveLoop]; [frame |].
  unfold simulateVoiceRecognition. frame.
Qed.

(** X4. Interactive mode of the text-only script never ends with an
    exception. A command that throws inside a turn ends that turn only: the
    error line is printed and the loop goes on with the next read. The loop
    takes the chunks its reads receive up to the first one that is quit,
    exit or stop once trimmed and lowercased, and performs no read after
    it. It leaves the file system as it was and performs nothing but
    prints, prompts and spawned commands. *)
Theorem interactiveMode_consumes_until_quit :
  forall env s,
    (exists s',
        TextOnly.interactiveMode env s = (Ret tt, s')
        /\ stdin s' = afterQuit (stdin s)
        /\ fs s' = fs s
        /\ exists events,
             trace s' = trace s ++ events /\ forallb isLocal events = true)
    /\ (forall fuel chunk rest,
          stdin s = chunk :: rest ->
          toLowerCase (trim chunk) = "constructor"
          \/ toLowerCase (trim chunk) = "__proto__" ->
          TextOnly.interactiveLoop env (S fuel) s
          = TextOnly.interactiveLoop env fuel
              (mkState (fs s) rest
                 (trace s ++
                    [StdoutWrite "🎤 Listening... (Type your voice command): ";
                     Log (voiceCommandLine (toLowerCase (trim chunk)));
                     Log "📋 undefined";
                     Log "❌ Error: command.execute is not a function"]))).
Proof.
  intros env s. split.
  - destruct (interactiveMode_TextOnly_returns env s) as [[] Hret].
    assert (Hoff : preserves (within offline) (TextOnly.interactiveMode env)).
    { unfold TextOnly.interactiveMode. do 2 (refine (preserves_bind _ _ _ _ _);
        [frame | intros _]).
      intros s0. apply interactiveLoop_TextOnly_offline. }
    destruct (Hoff s) as (Hfs & _ & _ & Hevents).
    assert (Hin : stdin (snd (TextOnly.interactiveMode env s))
                  = afterQuit (stdin s)).
    { unfold TextOnly.interactiveMode.
      unfold bind at 1. unfold log at 1, emit at 1. cbn beta iota.
      unfold bind at 1. unfold log at 1, emit at 1. cbn beta iota.
      cbn [stdin]. rewrite interactiveLoop_TextOnly_stdin; cbn [stdin];
        [reflexivity | lia]. }
    destruct (TextOnly.interactiveMode env s) as [o s'].
    cbn [fst snd] in *. subst o. exists s'. auto.
  - intros fuel chunk rest Hin Hkey.
    cbn [TextOnly.interactiveLoop].
    unfold simulateVoiceRecognition, readData. run. rewrite Hin. run.
    cbn [option_map].
    destruct Hkey as [E | E]; rewrite E.
    + change (TextOnly.isQuit "constructor") with false.
      change (TextOnly.isHelp "constructor") with false. cbn iota.
      unfold TextOnly.executeVoiceCommand.
      change (getProperty (TextOnly.VOICE_COMMANDS env)
                (trim (toLowerCase "constructor")))
        with (@Inherited TextOnly.CommandEntry "constructor").
      run. tidy. reflexivity.
    + change (TextOnly.isQuit "__proto__") with false.
      change (TextOnly.isHelp "__proto__") with false. cbn iota.
      unfold TextOnly.executeVoiceCommand.
      change (getProperty (TextOnly.VOICE_COMMANDS env)
                (trim (toLowerCase "__proto__")))
        with (@Inherited TextOnly.CommandEntry "__proto__").
      run. tidy. reflexivity.
Qed.

(** ** Running without the network *)

Lemma within_mono F G s s' :
  (mayWrite G = false -> mayWrite F = false) ->
  (mayRead G = false -> mayRead F = false) ->
  (forall e, allowed F e = true -> allowed G e = true) ->
  within F s s' -> within G s s'.
Proof.
  intros Hw Hr Ha (H1 & H2 & H3 & [events [He Hall]]).
  repeat split; auto.
  exists events. split; [exact He |].
  rewrite forallb_forall in *. auto.
Qed.

Lemma prints_offline s s' : within printsOnly s s' -> within offline s s'.
Proof.
  apply within_mono; [reflexivity | discriminate |].
  intros [ | | | | | ]; intros; try discriminate; reflexivity.
Qed.

Lemma loadConfig_Voice_prints env :
  preserves (within printsOnly) (Voice.loadConfig env).
Proof. unfold Voice.loadConfig. frame. Qed.

(** The configuration that [loadConfig] returns is the parsed file or the
    default one, which has voice disabled. *)
Lemma loadConfig_Voice_value env s :
  exists config s1,
    Voice.loadConfig env s = (Ret config, s1)
    /\ (config = Voice.defaultConfig
        \/ exists data,
             fs s !! CONFIG_FILE env = Some (File data)
             /\ JSON_parse env data = inr config).
Proof.
  unfold Voice.loadConfig, readFileSync. run.
  destruct (fs s !! CONFIG_FILE env) as [[data |] |] eqn:Hfile; run;
    rewrite ?Hfile; run.
  - destruct (JSON_parse env data) as [message | config] eqn:Hparse; run.
    + eexists _, _. split; [reflexivity | now left].
    + eexists _, _. split; [reflexivity | right; now exists data].
  - eexists _, _. split; [reflexivity | now left].
  - eexists _, _. split; [reflexivity | now left].
Qed.

Lemma interactiveLoop_Voice_offline env config fuel :
  Voice.isFalse (voiceEnabled config) = true
  \/ Voice.usableKey (elevenLabsApiKey config) = None ->
  preserves (within offline) (Voice.interactiveLoop env config fuel).
Proof.
  intros Hconfig.
  pose proof (fun c => local_offline _
                (executeVoiceCommand_Voice_local env c config Hconfig)).
  pose proof (fun t => local_offline _ (prints_local _
                (speakResponse_prints env t config Hconfig))).
  pose proof (local_offline _ (prints_local _
                (proj1 (showAvailableCommands_Voice_prints env)))).
  induction fuel as [| fuel IH]; cbn [Voice.interactiveLoop]; [frame |].
  unfold simulateVoiceRecognition. frame.
Qed.

Lemma main_TextOnly_offline env args :
  (forall rest, args <> "--setup" :: rest) ->
  preserves (within offline) (TextOnly.main env args).
Proof.
  intros Hsetup.
  pose proof (fun c => local_offline _ (executeVoiceCommand_TextOnly_local env c)).
  pose proof (local_offline _ (prints_local _
                (proj1 (showAvailableCommands_TextOnly_prints env)))).
  destruct args as [| firstArg rest]; cbn [TextOnly.main].
  - unfold TextOnly.interactiveMode.
    do 2 (refine (preserves_bind _ _ _ _ _); [frame | intros _]).
    intros s. apply interactiveLoop_TextOnly_offline.
  - destruct (TextOnly.isOneOf ["--help"; "-h"] firstArg);
      [unfold TextOnly.showHelp; frame |].
    destruct (TextOnly.isOneOf ["--setup"] firstArg) eqn:Hs.
    { unfold TextOnly.isOneOf in Hs. cbn [existsb] in Hs.
      rewrite orb_false_r in Hs. apply String.eqb_eq in Hs.
      now destruct (Hsetup rest); subst. }
    cbv zeta. frame.
Qed.

Lemma main_Voice_offline env args s :
  (forall rest, args <> "--setup" :: rest) ->
  (forall data config,
      fs s !! CONFIG_FILE env = Some (File data) ->
      JSON_parse env data = inr config ->
      Voice.isFalse (voiceEnabled config) = true
      \/ Voice.usableKey (elevenLabsApiKey config) = None) ->
  within offline s (snd (Voice.main env args s)).
Proof.
  intros Hsetup Hfile.
  destruct (loadConfig_Voice_value env s) as (config & s1 & Hload & Hvalue).
  assert (Hconfig : Voice.isFalse (voiceEnabled config) = true
                    \/ Voice.usableKey (elevenLabsApiKey config) = None).
  { destruct Hvalue as [-> | (data & Hdata & Hparse)]; [now left | eauto]. }
  assert (Hs1 : within offline s s1).
  { apply prints_offline.
    pose proof (loadConfig_Voice_prints env s) as H. now rewrite Hload in H. }
  pose proof (fun c => local_offline _
                (executeVoiceCommand_Voice_local env c config Hconfig)).
  pose proof (fun t => local_offline _ (prints_local _
                (speakResponse_prints env t config Hconfig))).
  pose proof (local_offline _ (prints_local _
                (proj1 (showAvailableCommands_Voice_prints env)))).
  destruct args as [| firstArg rest]; cbn [Voice.main].
  - unfold Voice.interactiveMode. unfold bind at 1. rewrite Hload.
    transitivity s1; [exact Hs1 |].
    match goal with
    | |- within offline s1 (snd (?k s1)) =>
        assert (Hk : preserves (within offline) k); [| apply Hk]
    end.
    do 3 (refine (preserves_bind _ _ _ _ _); [frame | intros _]).
    intros s0. now apply interactiveLoop_Voice_offline.
  - unfold bind at 1. rewrite Hload.
    transitivity s1; [exact Hs1 |].
    match goal with
    | |- within offline s1 (snd (?k s1)) =>
        assert (Hk : preserves (within offline) k); [| apply Hk]
    end.
    destruct (Voice.isOneOf ["--help"; "-h"] firstArg);
      [unfold Voice.showHelp; frame |].
    destruct (Voice.isOneOf ["--setup"] firstArg) eqn:Hs.
    { unfold Voice.isOneOf in Hs. cbn [existsb] in Hs.
      rewrite orb_false_r in Hs. apply String.eqb_eq in Hs.
      now destruct (Hsetup rest); subst. }
    cbv zeta. frame.
Qed.

(** X5. Apart from --setup, the text-only script never touches the file
    system and never sends a request: all it does is print, prompt, read
    standard input and spawn commands. The same holds for the voice script
    whenever the configuration file is missing, unreadable, or holds a
    configuration with voice disabled or without a usable key, in every
    mode and for every command. *)
Theorem runs_offline_without_voice :
  forall env args s,
    (forall rest, args <> "--setup" :: rest) ->
    (fs (snd (TextOnly.main env args s)) = fs s
     /\ exists events,
          trace (snd (TextOnly.main env args s)) = trace s ++ events
          /\ forallb isLocal events = true)
    /\ ((forall data config,
            fs s !! CONFIG_FILE env = Some (File data) ->
            JSON_parse env data = inr config ->
            Voice.isFalse (voiceEnabled config) = true
            \/ Voice.usableKey (elevenLabsApiKey config) = None) ->
        fs (snd (Voice.main env args s)) = fs s
        /\ exists events,
             trace (snd (Voice.main env args s)) = trace s ++ events
             /\ forallb isLocal events = true).
Proof.
  intros env args s Hsetup. split.
  - destruct (main_TextOnly_offline env args Hsetup s) as (Hfs & _ & _ & Hev).
    split; [now apply Hfs | exact Hev].
  - intros Hfile.
    destruct (main_Voice_offline env args s Hsetup Hfile) as (Hfs & _ & _ & Hev).
    split; [now apply Hfs | exact Hev].
Qed.

Lemma runs_offline_without_voice_witness :
  fs (snd (Voice.main sampleEnv ["open"; "browser"] emptyState)) = ∅
  /\ exists events,
       trace (snd (Voice.main sampleEnv ["open"; "browser"] emptyState))
       = [] ++ events
       /\ forallb isLocal events = true.
Proof.
  refine (proj2 (runs_offline_without_voice sampleEnv ["open"; "browser"]
                   emptyState _) _).
  - intros rest. discriminate.
  - intros data config Hfile. vm_compute in Hfile. discriminate Hfile.
Defined.

(** ** What [speakResponse] does to the file system *)

Lemma guarded_mkdir {A} dir (k : unit -> M A) :
  (forall u, preserves keepsNodes (k u)) ->
  preserves keepsNodes
    (bind (existsSync dir)
          (fun found => bind (if negb found then mkdirSync dir else ret tt) k)).
Proof.
  intros Hk s. unfold bind at 1. unfold existsSync. cbn beta iota.
  destruct (fs s !! dir) as [node |] eqn:Hdir; cbn [negb].
  - unfold bind, ret. apply Hk.
  - unfold bind, mkdirSync. rewrite Hdir.
    transitivity (mkState (<[dir := Dir]> (fs s)) (stdin s)
                          (trace s ++ [MkdirSync dir])).
    + intros p node H. cbn [fs].
      rewrite lookup_insert_ne; [exact H | congruence].
    + apply Hk.
Qed.

Lemma guarded_write {A} parent path (cachedBranch : M A) (pre : M unit)
      (fetch : M string) (post : M A) :
  preserves keepsNodes cachedBranch ->
  preserves (within localOnly) pre ->
  (forall s, fs (snd (fetch s)) = fs s) ->
  preserves keepsNodes post ->
  preserves keepsNodes
    (bind (existsSync path)
          (fun cached =>
             if cached then cachedBranch
             else bind pre (fun _ =>
                  bind fetch (fun audio =>
                  bind (writeFileSync parent path audio) (fun _ => post))))).
Proof.
  intros Hcached Hpre Hfetch Hpost s.
  unfold bind at 1. unfold existsSync. cbn beta iota.
  destruct (fs s !! path) as [node |] eqn:Hpath; [apply Hcached |].
  unfold bind at 1.
  destruct (stdin_within_localOnly pre s Hpre) as [_ Hfs1].
  destruct (pre s) as [[[] | e] s1]; cbn [snd] in *;
    [| intros p node H; now rewrite Hfs1].
  unfold bind at 1. pose proof (Hfetch s1) as Hfs2.
  destruct (fetch s1) as [[audio | e] s2]; cbn [snd] in *;
    [| intros p node H; now rewrite Hfs2, Hfs1].
  unfold bind, writeFileSync.
  assert (Hnone : fs s2 !! path = None) by now rewrite Hfs2, Hfs1.
  destruct (holder parent s2) as [[d |] |];
    try (intros p node H; cbn [snd]; now rewrite Hfs2, Hfs1).
  rewrite Hnone.
  transitivity (mkState (<[path := File audio]> (fs s2)) (stdin s2)
                        (trace s2 ++ [WriteFileSync path audio])).
  - intros p node H. cbn [fs].
    rewrite lookup_insert_ne; [now rewrite Hfs2, Hfs1 | congruence].
  - apply Hpost.
Qed.

Lemma getElevenLabsAudio_fs env text key voice s :
  fs (snd (Voice.getElevenLabsAudio env text key voice s)) = fs s.
Proof.
  unfold Voice.getElevenLabsAudio. run.
  destruct (httpsRequest env _ _) as [statusCode body | message]; run;
    [destruct (statusCode =? 200)%N; run |]; reflexivity.
Qed.

Lemma speakResponse_keepsNodes env text config :
  preserves keepsNodes (Voice.speakResponse env text config).
Proof.
  pose proof (fun p => within_keepsNodes localOnly _ eq_refl
                         (proj1 (playAudio_local env p))) as Hplay.
  unfold Voice.speakResponse.
  refine (preserves_tryCatch _ _ _ _ _); [| intros e; frame].
  destruct (Voice.isFalse (voiceEnabled config)); [frame |].
  destruct (Voice.usableKey (elevenLabsApiKey config)) as [key |]; [| frame].
  refine (preserves_bind _ _ _ _ _); [frame | intros _].
  apply guarded_mkdir. intros _.
  refine (preserves_bind _ _ _ _ _);
    [unfold Voice.cacheKeyOf; destruct text; frame | intros cacheKey].
  cbv zeta. apply guarded_write.
  - frame.
  - frame.
  - apply getElevenLabsAudio_fs.
  - apply Hplay.
Qed.

(** X6. [speakResponse] is safe to call: whatever the text, the
    configuration, the file system and the endpoint, it returns without an
    exception, consumes no input, only appends to what has been performed,
    and leaves every existing file and directory as it was (it can only add
    the cache directory and one cache file). *)
Theorem speakResponse_safe :
  forall env text config s,
    exists s' events,
      Voice.speakResponse env text config s = (Ret tt, s')
      /\ stdin s' = stdin s
      /\ trace s' = trace s ++ events
      /\ (forall p node, fs s !! p = Some node -> fs s' !! p = Some node).
Proof.
  intros env text config s.
  destruct (speakResponse_total env text config s) as [[] Hret].
  destruct (speakResponse_keepsInput env text config s)
    as (_ & Hin & _ & [events [Hev _]]).
  pose proof (speakResponse_keepsNodes env text config s) as Hnodes.
  destruct (Voice.speakResponse env text config s) as [o s'].
  cbn [fst snd] in *. subst o.
  exists s', events. repeat split; auto.
Qed.

Lemma executeVoiceCommand_Voice_keepsNodes env commandText config :
  preserves keepsNodes (Voice.executeVoiceCommand env commandText config).
Proof.
  pose proof (speakResponse_keepsNodes env).
  unfold Voice.executeVoiceCommand. cbv zeta.
  refine (preserves_bind _ _ _ _ _); [frame | intros _].
  destruct (getProperty _ _) as [command | name |] eqn:Hget.
  - apply getProperty_Own_inv in Hget.
    destruct (registry_Voice_local env _ _ Hget) as [Hlocal _].
    apply (within_keepsNodes localOnly _ eq_refl) in Hlocal. frame.
  - frame.
  - pose proof (within_keepsNodes printsOnly _ eq_refl
                  (proj1 (showAvailableCommands_Voice_prints env))).
    frame.
Qed.

Lemma interactiveLoop_Voice_keepsNodes env config fuel :
  preserves keepsNodes (Voice.interactiveLoop env config fuel).
Proof.
  pose proof (executeVoiceCommand_Voice_keepsNodes env).
  pose proof (speakResponse_keepsNodes env).
  pose proof (within_keepsNodes printsOnly _ eq_refl
                (proj1 (showAvailableCommands_Voice_prints env))).
  induction fuel as [| fuel IH]; cbn [Voice.interactiveLoop]; [frame |].
  unfold simulateVoiceRecognition. frame.
Qed.

Lemma main_Voice_keepsNodes env args :
  (forall rest, args <> "--setup" :: rest) ->
  preserves keepsNodes (Voice.main env args).
Proof.
  intros Hsetup.
  pose proof (executeVoiceCommand_Voice_keepsNodes env).
  pose proof (speakResponse_keepsNodes env).
  pose proof (within_keepsNodes printsOnly _ eq_refl
                (proj1 (showAvailableCommands_Voice_prints env))).
  pose proof (within_keepsNodes printsOnly _ eq_refl
                (loadConfig_Voice_prints env)).
  destruct args as [| firstArg rest]; cbn [Voice.main].
  - unfold Voice.interactiveMode.
    refine (preserves_bind _ _ _ _ _); [frame | intros config].
    do 3 (refine (preserves_bind _ _ _ _ _); [frame | intros _]).
    intros s. apply interactiveLoop_Voice_keepsNodes.
  - refine (preserves_bind _ _ _ _ _); [frame | intros config].
    destruct (Voice.isOneOf ["--help"; "-h"] firstArg);
      [unfold Voice.showHelp; frame |].
    destruct (Voice.isOneOf ["--setup"] firstArg) eqn:Hs.
    { unfold Voice.isOneOf in Hs. cbn [existsb] in Hs.
      rewrite orb_false_r in Hs. apply String.eqb_eq in Hs.
      now destruct (Hsetup rest); subst. }
    cbv zeta. frame.
Qed.

(** X7. Apart from --setup, which rewrites the configuration file, the
    voice script never overwrites, truncates or removes anything: in every
    mode, for every command and configuration and whatever the endpoint
    answers, each file and directory that existed before the run is still
    there afterwards with the same content. *)
Theorem voice_script_keeps_existing_files :
  forall env args s p node,
    (forall rest, args <> "--setup" :: rest) ->
    fs s !! p = Some node ->
    fs (snd (Voice.main env args s)) !! p = Some node.
Proof.
  intros env args s p node Hsetup Hnode.
  now apply (main_Voice_keepsNodes env args Hsetup s).
Qed.

Lemma voice_script_keeps_existing_files_witness :
  fs (snd (Voice.main sampleEnv ["what"; "time"; "is"; "it"]
             (mkState {[ "/home/alec/notes.txt" := File "keep" ]} [] [])))
  !! "/home/alec/notes.txt" = Some (File "keep").
Proof.
  apply (voice_script_keeps_existing_files sampleEnv
           ["what"; "time"; "is"; "it"]
           (mkState {[ "/home/alec/notes.txt" := File "keep" ]} [] [])
           "/home/alec/notes.txt" (File "keep")).
  - intros rest. discriminate.
  - vm_compute. reflexivity.
Defined.

(** ** The cache across calls *)

(** X8. Once a text has been fetched and cached, speaking the same text
    again, even under a configuration with another key or another voice
    id, sends no request and writes nothing: it prints two lines and spawns
    the player of the platform on the file cached by the first call. The
    cache is keyed by the text only, so changing the voice does not refresh
    it. (The cache directory is missing or is a directory when the first
    call starts.) *)
Theorem cached_text_is_replayed :
  forall env text config config' s key key' body,
    Voice.isFalse (voiceEnabled config) = false ->
    Voice.usableKey (elevenLabsApiKey config) = Some key ->
    (forall data, fs s !! Voice.CACHE_DIR env <> Some (File data)) ->
    fs s !! Voice.cachePathOf env text = None ->
    Voice.cachePathOf env text <> Voice.CACHE_DIR env ->
    httpsRequest env (trace s ++ beforeRequest env text s)
      (Voice.elevenLabsRequest text key
         (Voice.orElse (voiceId config) Voice.DEFAULT_VOICE_ID))
    = Response 200 body ->
    Voice.isFalse (voiceEnabled config') = false ->
    Voice.usableKey (elevenLabsApiKey config') = Some key' ->
    exists command s1 tail,
      playsFile env (Voice.cachePathOf env text) command
      /\ Voice.speakResponse env (JString text) config s = (Ret tt, s1)
      /\ fs s1 !! Voice.cachePathOf env text = Some (File body)
      /\ (tail = []
          \/ tail = [Log "🔇 Audio playback not available on this system"])
      /\ Voice.speakResponse env (JString text) config' s1
         = (Ret tt,
            mkState (fs s1) (stdin s1)
              (trace s1 ++
                 [Log (tpl ["🗣️  "; dq; utf8 text; dq]);
                  Log "🎧 Playing cached response...";
                  Exec command]
                 ++ tail)).
Proof.
  intros env text config config' s key key' body
         Hon Hkey Hdir Hmiss Hne Hanswer Hon' Hkey'.
  rewrite (speakResponse_miss env text config s key Hon Hkey Hmiss Hne).
  cbv zeta. rewrite Hanswer. cbn [N.eqb Pos.eqb].
  pose proof (directoryFs_dir env s Hdir) as Hdir'.
  match goal with
  | |- context [Voice.playAudio ?e ?p ?st] =>
      destruct (playAudio_spec e p st) as (tail1 & _ & Hplay)
  end.
  destruct (fs s !! Voice.CACHE_DIR env) as [[data |] |] eqn:E;
    [now destruct (Hdir data) | |];
    rewrite Hplay; cbn [fs stdin trace];
    (match goal with
     | |- exists command s1 tail, _ /\ (_, ?st) = (_, s1) /\ _ =>
         destruct (speakResponse_hit env text config' st key' Dir (File body)
                     Hon' Hkey') as (tail & Htail & Hsecond);
         [ cbn [fs]; rewrite lookup_insert_ne; [exact Hdir' | exact Hne]
         | cbn [fs]; apply lookup_insert_eq
         | exists (Voice.playCommand env (Voice.cachePathOf env text)), st, tail ]
     end);
    (split; [apply playCommand_platform |]);
    (split; [reflexivity |]);
    (split; [cbn [fs]; apply lookup_insert_eq |]);
    (split; [exact Htail | exact Hsecond]).
Qed.

Lemma cached_text_is_replayed_witness :
  exists s1 tail,
    Voice.speakResponse sampleEnv (JString "Done!")
      (mkConfig (JBool true) (Some "sk-test") None) emptyState
    = (Ret tt, s1)
    /\ fs s1 !! "/home/alec/.voice-cli-cache/d3de52109c.mp3" = Some (File "ABC")
    /\ (tail = []
        \/ tail = [Log "🔇 Audio playback not available on this system"])
    /\ Voice.speakResponse sampleEnv (JString "Done!")
         (mkConfig JUndefined (Some "sk-other") (Some "AnotherVoice")) s1
       = (Ret tt,
          mkState (fs s1) (stdin s1)
            (trace s1 ++
               [Log (tpl ["🗣️  "; dq; "Done!"; dq]);
                Log "🎧 Playing cached response...";
                Exec (tpl ["which mpg123 > /dev/null 2>&1 && mpg123 -q ";
                           dq; "/home/alec/.voice-cli-cache/d3de52109c.mp3"; dq;
                           " || which aplay > /dev/null 2>&1 && aplay ";
                           dq; "/home/alec/.voice-cli-cache/d3de52109c.mp3"; dq;
                           " || which paplay > /dev/null 2>&1 && paplay ";
                           dq; "/home/alec/.voice-cli-cache/d3de52109c.mp3"; dq])]
               ++ tail)).
Proof.
  destruct (cached_text_is_replayed sampleEnv "Done!"
              (mkConfig (JBool true) (Some "sk-test") None)
              (mkConfig JUndefined (Some "sk-other") (Some "AnotherVoice"))
              emptyState "sk-test" "sk-other" "ABC")
    as (command & s1 & tail & (_ & _ & Hlinux) & Hfirst & Hfile & Htail
        & Hsecond).
  - reflexivity.
  - reflexivity.
  - intros data E. vm_compute in E. discriminate E.
  - vm_compute. reflexivity.
  - intros E. vm_compute in E. discriminate E.
  - reflexivity.
  - reflexivity.
  - reflexivity.
  - exists s1, tail. rewrite cachePath_done in *.
    split; [exact Hfirst |]. split; [exact Hfile |]. split; [exact Htail |].
    rewrite Hsecond, Hlinux; [reflexivity | discriminate | discriminate].
Defined.

(** X9. When the request itself fails (no connection, DNS failure, reset),
    [speakResponse] returns normally, prints the error message and then the
    literal text as fallback, writes no cache file and spawns no player; no
    file appears or changes. *)
Theorem speakResponse_network_error :
  forall env text config s key message,
    Voice.isFalse (voiceEnabled config) = false ->
    Voice.usableKey (elevenLabsApiKey config) = Some key ->
    fs s !! Voice.cachePathOf env text = None ->
    Voice.cachePathOf env text <> Voice.CACHE_DIR env ->
    httpsRequest env (trace s ++ beforeRequest env text s)
      (Voice.elevenLabsRequest text key
         (Voice.orElse (voiceId config) Voice.DEFAULT_VOICE_ID))
    = RequestError message ->
    exists fs',
      Voice.speakResponse env (JString text) config s
      = (Ret tt,
         mkState fs' (stdin s)
           (trace s ++ beforeRequest env text s ++
              [HttpsRequest
                 (Voice.elevenLabsRequest text key
                    (Voice.orElse (voiceId config) Voice.DEFAULT_VOICE_ID));
               Log (tpl ["❌ Voice response error: "; utf8 message]);
               Log (tpl ["💬 "; dq; utf8 text; dq])]))
      /\ fs' !! Voice.cachePathOf env text = None
      /\ (forall p d, fs' !! p = Some (File d) <-> fs s !! p = Some (File d))
      /\ written (beforeRequest env text s) = []
      /\ spawned (beforeRequest env text s) = [].
Proof.
  intros env text config s key message Hon Hkey Hmiss Hne Hanswer.
  rewrite (speakResponse_miss env text config s key Hon Hkey Hmiss Hne).
  cbv zeta. rewrite Hanswer. cbn [fs stdin trace].
  exists (directoryFs env s).
  split; [| split; [| split]].
  - f_equal. f_equal. rewrite <- !app_assoc. reflexivity.
  - now apply directoryFs_miss.
  - intros p d. apply directoryFs_files.
  - apply beforeRequest_quiet.
Qed.

Lemma speakResponse_network_error_witness :
  exists fs',
    Voice.speakResponse
      (sampleEnvWith (RequestError "getaddrinfo ENOTFOUND api.elevenlabs.io"))
      (JString "Done!") (mkConfig (JBool true) (Some "sk-test") None) emptyState
    = (Ret tt,
       mkState fs' []
         ([] ++ beforeRequest
                  (sampleEnvWith
                     (RequestError "getaddrinfo ENOTFOUND api.elevenlabs.io"))
                  "Done!" emptyState ++
            [HttpsRequest
               (Voice.elevenLabsRequest "Done!" "sk-test"
                  Voice.DEFAULT_VOICE_ID);
             Log "❌ Voice response error: getaddrinfo ENOTFOUND api.elevenlabs.io";
             Log (tpl ["💬 "; dq; "Done!"; dq])]))
    /\ fs' !! "/home/alec/.voice-cli-cache/d3de52109c.mp3" = None.
Proof.
  destruct (speakResponse_network_error
              (sampleEnvWith
                 (RequestError "getaddrinfo ENOTFOUND api.elevenlabs.io"))
              "Done!" (mkConfig (JBool true) (Some "sk-test") None) emptyState
              "sk-test" "getaddrinfo ENOTFOUND api.elevenlabs.io")
    as (fs' & Hrun & Hfile & _).
  - reflexivity.
  - reflexivity.
  - vm_compute. reflexivity.
  - intros E. vm_compute in E. discriminate E.
  - reflexivity.
  - exists fs'. split; assumption.
Defined.

(** X15. When the path of the cache directory is taken by a regular file,
    a response that is not cached costs a request and is never heard:
    [speakResponse] sends the request and, on a 200 answer, fails to store
    the audio, because opening the cache file reports ENOTDIR. It plays
    nothing, prints that error and the literal text, and leaves the file
    system as it was, so the next call does the same. *)
Theorem speakResponse_cache_directory_is_file :
  forall env text config s key data body,
    Voice.isFalse (voiceEnabled config) = false ->
    Voice.usableKey (elevenLabsApiKey config) = Some key ->
    fs s !! Voice.CACHE_DIR env = Some (File data) ->
    fs s !! Voice.cachePathOf env text = None ->
    httpsRequest env
      (trace s ++ [Log (tpl ["🗣️  "; dq; utf8 text; dq]);
                   Log "🎤 Generating voice response..."])
      (Voice.elevenLabsRequest text key
         (Voice.orElse (voiceId config) Voice.DEFAULT_VOICE_ID))
    = Response 200 body ->
    Voice.speakResponse env (JString text) config s
    = (Ret tt,
       mkState (fs s) (stdin s)
         (trace s ++
            [Log (tpl ["🗣️  "; dq; utf8 text; dq]);
             Log "🎤 Generating voice response...";
             HttpsRequest
               (Voice.elevenLabsRequest text key
                  (Voice.orElse (voiceId config) Voice.DEFAULT_VOICE_ID));
             Log (tpl ["❌ Voice response error: ";
                       utf8 (tpl ["ENOTDIR: not a directory, open '";
                                  Voice.cachePathOf env text; "'"])]);
             Log (tpl ["💬 "; dq; utf8 text; dq])])).
Proof.
  intros env text config s key data body Hon Hkey Hdir Hmiss Hanswer.
  assert (Hne : Voice.cachePathOf env text <> Voice.CACHE_DIR env)
    by (intros E; rewrite E in Hmiss; congruence).
  rewrite (speakResponse_miss env text config s key Hon Hkey Hmiss Hne).
  cbv zeta. unfold beforeRequest, directoryEvents. rewrite Hdir.
  cbn [app]. rewrite Hanswer. cbn [N.eqb Pos.eqb trace].
  rewrite <- !app_assoc. reflexivity.
Qed.

Lemma speakResponse_cache_directory_is_file_witness :
  Voice.speakResponse sampleEnv (JString "Done!")
    (mkConfig (JBool true) (Some "sk-test") None)
    (mkState {[ "/home/alec/.voice-cli-cache" := File "notes" ]} [] [])
  = (Ret tt,
     mkState {[ "/home/alec/.voice-cli-cache" := File "notes" ]} []
       ([] ++
          [Log (tpl ["🗣️  "; dq; "Done!"; dq]);
           Log "🎤 Generating voice response...";
           HttpsRequest
             (Voice.elevenLabsRequest "Done!" "sk-test" Voice.DEFAULT_VOICE_ID);
           Log "❌ Voice response error: ENOTDIR: not a directory, open '/home/alec/.voice-cli-cache/d3de52109c.mp3'";
           Log (tpl ["💬 "; dq; "Done!"; dq])])).
Proof.
  pose proof (speakResponse_cache_directory_is_file sampleEnv "Done!"
                (mkConfig (JBool true) (Some "sk-test") None)
                (mkState {[ "/home/alec/.voice-cli-cache" := File "notes" ]}
                         [] [])
                "sk-test" "notes" "ABC") as Hrun.
  rewrite cachePath_done in Hrun. apply Hrun.
  - reflexivity.
  - reflexivity.
  - vm_compute. reflexivity.
  - vm_compute. reflexivity.
  - reflexivity.
Defined.

(** ** The contract of the actions *)

Lemma executeCommand_contract env command message :
  actionContract env (executeCommand env command message).
Proof.
  intros s. unfold executeCommand, exec. run.
  destruct (execError env (trace s) command) as [error |] eqn:Herr; run; tidy;
    eexists _, _; (split; [reflexivity |]); right; eexists _, _;
    (split; [reflexivity | now rewrite Herr]).
Qed.

Lemma openFolder_contract env folderPath :
  actionContract env (openFolder env folderPath).
Proof.
  intros s. unfold openFolder. unfold bind at 1. unfold existsSync.
  cbn beta iota. destruct (fs s !! folderPath) as [node |]; cbn [negb].
  - apply executeCommand_contract.
  - run. eexists _, _. split; [reflexivity |]. now left.
Qed.

Lemma showTime_contract env : actionContract env (showTime env).
Proof.
  intros s. unfold showTime. run.
  eexists _, _. split; [reflexivity |]. now left.
Qed.

Lemma showSystemInfo_contract env : actionContract env (showSystemInfo env).
Proof.
  intros s. unfold showSystemInfo. run. tidy.
  eexists _, _. split; [reflexivity |]. now left.
Qed.

Ltac contract :=
  lazymatch goal with
  | |- actionContract _ (openBrowser _ _) => apply executeCommand_contract
  | |- actionContract _ (openTerminal _ _) => apply executeCommand_contract
  | |- actionContract _ (openApplication _ _) => apply executeCommand_contract
  | |- actionContract _ (openFolder _ _) => apply openFolder_contract
  | |- actionContract _ (showTime _) => apply showTime_contract
  | |- actionContract _ (showSystemInfo _) => apply showSystemInfo_contract
  end.

(** X10. Every action of the registry, in both scripts, returns a boolean
    and never throws, and leaves the file system and standard input alone.
    Either it only prints (the time, the system information, a missing
    folder), or it spawns exactly one command before printing one line, and
    then its result is true exactly when that command exits with
    status 0. *)
Theorem registry_actions_contract :
  forall env key,
    (forall e, ownProperty (TextOnly.VOICE_COMMANDS env) key = Some e ->
               actionContract env (TextOnly.execute e))
    /\ (forall e, ownProperty (Voice.VOICE_COMMANDS env) key = Some e ->
                  actionContract env (Voice.execute e)).
Proof.
  intros env key. split; intros e H; apply ownProperty_In in H.
  - unfold TextOnly.VOICE_COMMANDS in H. cbn [In] in H.
    repeat (destruct H as [[= _ <-] | H];
            [cbn [TextOnly.execute]; contract |]).
    contradiction.
  - unfold Voice.VOICE_COMMANDS in H. cbn [In] in H.
    repeat (destruct H as [[= _ <-] | H]; [cbn [Voice.execute]; contract |]).
    contradiction.
Qed.

(** ** The setup flow *)

(** X11. When the configuration file cannot be written (its path is a
    directory), the setup of both scripts does not fail: it prints the
    Could not save config line with the message of the failed open, which
    names the path, writes nothing, and still ends with its
    success line: Setup complete in the text-only script, Voice responses
    enabled in the voice script when a key was typed. *)
Theorem setup_reports_success_when_save_fails :
  forall env s,
    fs s !! CONFIG_FILE env = Some Dir ->
    TextOnly.setupConfiguration env s
    = (Ret tt,
       mkState (fs s) (stdin s)
         (trace s ++
            [Log "🔧 Voice CLI Setup";
             Log "⚠️  Note: This is a basic version. Advanced features like real voice recognition";
             Log "   can be added later with speech-to-text services.";
             Log (tpl ["❌ Could not save config: ";
                       utf8 (tpl ["EISDIR: illegal operation on a directory, open '";
                                  CONFIG_FILE env; "'"])]);
             Log (tpl ["✅ Setup complete! Try: voice-cli "; dq;
                       "open browser"; dq])]))
    /\ (forall apiKey rest,
          stdin s = apiKey :: rest ->
          isEmpty (trim apiKey) = false ->
          Voice.setupConfiguration env s
          = (Ret tt,
             mkState (fs s) rest
               (trace s ++
                  [Log "🔧 Voice CLI Setup - Enable AI Voice Responses";
                   Log (tpl [nl; "🎤 To enable voice responses, you'll need an ElevenLabs API key:"]);
                   Log "   1. Sign up at https://elevenlabs.io (free tier available)";
                   Log "   2. Go to your profile and copy your API key";
                   Log (tpl ["   3. Run this setup again with your API key"; nl]);
                   StdoutWrite "Enter your ElevenLabs API key (or press Enter to skip): ";
                   Log (tpl ["❌ Could not save config: ";
                             utf8 (tpl ["EISDIR: illegal operation on a directory, open '";
                                        CONFIG_FILE env; "'"])]);
                   Log (tpl ["✅ Voice responses enabled! Try: voice-cli "; dq;
                             "open browser"; dq])]))).
Proof.
  intros env s Hdir. split.
  - unfold TextOnly.setupConfiguration, saveConfig, writeFileSync, holder. run.
    rewrite Hdir. run. tidy. reflexivity.
  - intros apiKey rest Hin Hkey.
    unfold Voice.setupConfiguration, saveConfig, writeFileSync, holder, readData.
    run. rewrite Hin. run. rewrite Hdir. run.
    assert (Hne : isEmpty apiKey = false).
    { destruct apiKey; [discriminate Hkey | reflexivity]. }
    rewrite Hne, Hkey. cbn [negb truthy]. run. tidy. reflexivity.
Qed.

Lemma setup_reports_success_when_save_fails_witness :
  TextOnly.setupConfiguration sampleEnv
    (mkState {[ CONFIG_FILE sampleEnv := Dir ]} [] [])
  = (Ret tt,
     mkState {[ CONFIG_FILE sampleEnv := Dir ]} []
       ([] ++
          [Log "🔧 Voice CLI Setup";
           Log "⚠️  Note: This is a basic version. Advanced features like real voice recognition";
           Log "   can be added later with speech-to-text services.";
           Log "❌ Could not save config: EISDIR: illegal operation on a directory, open '/home/alec/.voice-cli-config.json'";
           Log (tpl ["✅ Setup complete! Try: voice-cli "; dq;
                     "open browser"; dq])])).
Proof.
  destruct (setup_reports_success_when_save_fails sampleEnv
              (mkState {[ CONFIG_FILE sampleEnv := Dir ]} [] []))
    as [Htext _].
  - vm_compute. reflexivity.
  - exact Htext.
Defined.


Lemma isEmpty_spec s : isEmpty s = true <-> s = EmptyString.
Proof. destruct s; split; intros H; try reflexivity; discriminate H. Qed.

(** X12. The voice setup, given an answer and a writable configuration
    path, consumes that one answer and rewrites the configuration file. The
    voice fields it stores hold the trimmed answer as key, or the
    placeholder when the answer is blank; voice is marked enabled exactly
    when the trimmed answer is not empty; and the stored key is unusable
    exactly when the answer is blank or is the placeholder itself. If
    parsing the written text gives those fields back, the next
    [loadConfig] returns them without any warning. *)
Theorem setup_then_load :
  forall env s apiKey rest,
    stdin s = apiKey :: rest ->
    fs s !! CONFIG_FILE env <> Some Dir ->
    exists saved voice s1,
      Voice.setupConfiguration env s = (Ret tt, s1)
      /\ stdin s1 = rest
      /\ fs s1 = <[CONFIG_FILE env := File (JSON_stringify env saved)]> (fs s)
      /\ sc_voice saved = Some voice
      /\ elevenLabsApiKey voice
         = Some (if isEmpty (trim apiKey) then Voice.PLACEHOLDER_KEY
                 else trim apiKey)
      /\ truthy (voiceEnabled voice) = negb (isEmpty (trim apiKey))
      /\ (Voice.usableKey (elevenLabsApiKey voice) = None
          <-> trim apiKey = EmptyString
              \/ trim apiKey = Voice.PLACEHOLDER_KEY)
      /\ (JSON_parse env (JSON_stringify env saved) = inr voice ->
          Voice.loadConfig env s1 = (Ret voice, s1)).
Proof.
  intros env s apiKey rest Hin Hdir.
  assert (Hwrite : forall data st,
             fs st = fs s ->
             writeFileSync HomeDirectory (CONFIG_FILE env) data st
             = (Ret tt,
                mkState (<[CONFIG_FILE env := File data]> (fs st)) (stdin st)
                        (trace st ++ [WriteFileSync (CONFIG_FILE env) data]))).
  { intros data st Hst. unfold writeFileSync, holder. rewrite Hst.
    destruct (fs s !! CONFIG_FILE env) as [[d |] |]; try reflexivity.
    now destruct Hdir. }
  assert (Hload : forall st data voice,
             fs st !! CONFIG_FILE env = Some (File data) ->
             JSON_parse env data = inr voice ->
             Voice.loadConfig env st = (Ret voice, st)).
  { intros st data voice Hfile Hparse.
    unfold Voice.loadConfig, readFileSync. run. rewrite Hfile. run.
    rewrite Hfile. run. rewrite Hparse. reflexivity. }
  unfold Voice.setupConfiguration, saveConfig, readData. run.
  rewrite Hin. run. rewrite Hwrite by reflexivity. run.
  destruct (isEmpty apiKey) eqn:Hempty.
  - apply isEmpty_spec in Hempty. subst apiKey.
    cbn [trim trimStart trimEnd isEmpty truthy negb Voice.orElse].
    run. tidy.
    match goal with
    | |- context [JSON_stringify env ?sc] => exists sc
    end.
    eexists _, _. cbn [sc_voice].
    split; [reflexivity |]. split; [reflexivity |]. split; [reflexivity |].
    split; [reflexivity |]. split; [reflexivity |]. split; [reflexivity |].
    split; [split; [now left | reflexivity] |].
    intros Hparse. eapply Hload; [apply lookup_insert_eq | exact Hparse].
  - cbn [Voice.orElse truthy].
    destruct (isEmpty (trim apiKey)) eqn:Htrim; cbn [negb]; run; tidy;
      match goal with
      | |- context [JSON_stringify env ?sc] => exists sc
      end;
      eexists _, _; cbn [sc_voice];
      (split; [reflexivity |]); (split; [reflexivity |]);
      (split; [reflexivity |]); (split; [reflexivity |]);
      (split; [reflexivity |]); (split; [reflexivity |]);
      (split; [| intros Hparse; eapply Hload;
                 [apply lookup_insert_eq | exact Hparse]]).
    + split; [intros _; left; now apply isEmpty_spec | reflexivity].
    + cbn [elevenLabsApiKey Voice.usableKey]. rewrite Htrim. cbn [orb].
      destruct (String.eqb_spec (trim apiKey) Voice.PLACEHOLDER_KEY)
        as [E | E]; split; try discriminate; auto.
      intros [H | H]; [| contradiction].
      rewrite H in Htrim. discriminate Htrim.
Qed.

Lemma setup_then_load_witness :
  exists saved voice s1,
    Voice.setupConfiguration sampleEnv (mkState ∅ ["  sk-test "] [])
    = (Ret tt, s1)
    /\ stdin s1 = []
    /\ sc_voice saved = Some voice
    /\ elevenLabsApiKey voice = Some "sk-test"
    /\ truthy (voiceEnabled voice) = true.
Proof.
  destruct (setup_then_load sampleEnv (mkState ∅ ["  sk-test "] [])
              "  sk-test " [])
    as (saved & voice & s1 & Hrun & Hin & _ & Hvoice & Hkey & Hon & _).
  - reflexivity.
  - vm_compute. discriminate.
  - exists saved, voice, s1. repeat split; assumption.
Defined.

(** ** Loading the configuration *)

(** X13. [loadConfig] of the voice script never throws and changes
    nothing. It returns the parsed object when the configuration file
    exists and parses; in every other case (no file, a directory in its
    place, text that is not JSON) it returns the default configuration,
    under which voice is disabled and the key is the unusable placeholder,
    and it prints its warning exactly when the path exists but could not be
    read as JSON. *)
Theorem loadConfig_falls_back_to_default :
  forall env s,
    exists config,
      Voice.loadConfig env s
      = (Ret config, mkState (fs s) (stdin s) (trace s ++ configWarning env s))
      /\ (forall data parsed,
             fs s !! CONFIG_FILE env = Some (File data) ->
             JSON_parse env data = inr parsed ->
             config = parsed /\ configWarning env s = [])
      /\ (fs s !! CONFIG_FILE env = None ->
          config = Voice.defaultConfig /\ configWarning env s = [])
      /\ (forall data message,
             fs s !! CONFIG_FILE env = Some (File data) ->
             JSON_parse env data = inl message ->
             config = Voice.defaultConfig
             /\ configWarning env s
                = [Log (tpl ["⚠️  Could not load config: "; utf8 message])])
      /\ (fs s !! CONFIG_FILE env = Some Dir ->
          config = Voice.defaultConfig /\ configWarning env s <> [])
      /\ Voice.isFalse (voiceEnabled Voice.defaultConfig) = true
      /\ Voice.usableKey (elevenLabsApiKey Voice.defaultConfig) = None.
Proof.
  intros env s.
  unfold Voice.loadConfig, configWarning, readFileSync. run.
  destruct (fs s !! CONFIG_FILE env) as [[data |] |] eqn:Hfile; run;
    rewrite ?Hfile; run.
  - destruct (JSON_parse env data) as [message | parsed] eqn:Hparse; run.
    + eexists. split; [reflexivity |].
      repeat split; intros; try congruence.
    + eexists. split; [rewrite app_nil_r; now destruct s |].
      repeat split; intros; try congruence.
  - eexists. split; [reflexivity |].
    repeat split; intros; try congruence.
  - eexists. split; [rewrite app_nil_r; now destruct s |].
    repeat split; intros; try congruence.
Qed.

(** X14. A configuration whose voiceEnabled field is the boolean false
    silences [speakResponse] completely: for every text, even with a usable
    key and a cached file, it prints the one Voice disabled line and does
    nothing else. *)
Theorem speakResponse_voice_disabled :
  forall env text config s,
    voiceEnabled config = JBool false ->
    Voice.speakResponse env text config s
    = (Ret tt,
       mkState (fs s) (stdin s)
         (trace s ++
            [Log (tpl ["🔇 Voice disabled: "; dq; utf8 (show text); dq])])).
Proof.
  intros env text config s Hoff.
  unfold Voice.speakResponse. rewrite Hoff. cbn [Voice.isFalse]. run.
  reflexivity.
Qed.

Lemma speakResponse_voice_disabled_witness :
  Voice.speakResponse sampleEnv (JString "Done!")
    (mkConfig (JBool false) (Some "sk-test") None)
    (mkState {[ "/home/alec/.voice-cli-cache/d3de52109c.mp3" := File "OLD" ]}
             [] [])
  = (Ret tt,
     mkState {[ "/home/alec/.voice-cli-cache/d3de52109c.mp3" := File "OLD" ]}
             []
             ([] ++ [Log (tpl ["🔇 Voice disabled: "; dq; "Done!"; dq])])).
Proof.
  exact (speakResponse_voice_disabled sampleEnv (JString "Done!")
           (mkConfig (JBool false) (Some "sk-test") None)
           (mkState {[ "/home/alec/.voice-cli-cache/d3de52109c.mp3"
                       := File "OLD" ]} [] [])
           eq_refl).
Defined.
